(** * Penelope assistant: a shallow embedding of the retrieval, memory,
      registry and routing code, and the properties checked against it.

    The Python sources embedded here are [config.py], [knowledge_base.py],
    [models.py], [memory.py], [arxiv_tools.py], [perplexity.py] and the
    [chat], [upload_document] and [update_debug] closures and [_get_kb_info]
    of [ui.py].

    Conventions of the embedding:
    - a Python [str] is a [string] whose characters are read as the code
      points U+0000..U+00FF; literals of the source that hold characters
      beyond that range appear as their UTF-8 bytes;
    - a Python [float] is an IEEE-754 double, a [spec_float] in the canonical
      form of the format (53-bit mantissa), on which [SFltb] is the order
      of the values and is false as soon as one side is NaN;
    - a value that went through [json] is a [json] tree, a [dict] an
      association list in insertion order;
    - a file is what was written to it; a file read in text mode is read
      with its line endings as line feeds;
    - a Python exception is an [exn]: its class name and its [str(e)];
    - a function with effects is a computation [Py A]: it receives the state
      of the process and its files and returns either a value or a raised
      exception, and the state reached;
    - the vendor libraries (LLM, vector store, text splitter, document
      readers, HTTP, clock, uuid) are the fields of an [Env]; each call is
      appended to the [trace] of the state and is answered by the [Env] as a
      function of the trace so far, so that answers may depend on history;
    - the calls to [logger] are left out: they return nothing, raise nothing
      the program sees, and the file they write is not among the files of
      the state. *)

From Stdlib Require Import ZArith NArith Bool List Ascii String Lia Sorted.
From Stdlib Require Import Floats.SpecFloat.
From stdpp Require Import base option list gmap strings pretty.

Local Open Scope string_scope.
Local Open Scope list_scope.

(** ** Python strings *)

Module PyStr.

Definition code (c : ascii) : N := N_of_ascii c.

(** [str.isspace] on one character of the Latin-1 range. *)
Definition isspace (c : ascii) : bool :=
  let n := code c in
  ((9 <=? n) && (n <=? 13) || (28 <=? n) && (n <=? 32)
   || (n =? 133) || (n =? 160))%N.

(** [str.lower] on one character of the Latin-1 range. *)
Definition lower_char (c : ascii) : ascii :=
  let n := code c in
  if ((65 <=? n) && (n <=? 90)
      || (192 <=? n) && (n <=? 222) && negb (n =? 215))%N
  then ascii_of_N (n + 32) else c.

Fixpoint lower (s : string) : string :=
  match s with
  | EmptyString => EmptyString
  | String c r => String (lower_char c) (lower r)
  end.

(** [s.startswith(p)] *)
Definition startswith (s p : string) : bool := String.prefix p s.

(** [s[n:]] for [n >= 0] *)
Fixpoint slice_from (n : nat) (s : string) : string :=
  match n, s with
  | O, _ => s
  | S _, EmptyString => EmptyString
  | S k, String _ r => slice_from k r
  end.

(** [s[:n]] for [n >= 0] *)
Fixpoint slice_to (n : nat) (s : string) : string :=
  match n, s with
  | O, _ => EmptyString
  | S _, EmptyString => EmptyString
  | S k, String c r => String c (slice_to k r)
  end.

Fixpoint lstrip (s : string) : string :=
  match s with
  | EmptyString => EmptyString
  | String c r => if isspace c then lstrip r else s
  end.

(** [rstrip]: the text up to and including the last non-space character. *)
Fixpoint rstrip (s : string) : string :=
  match s with
  | EmptyString => EmptyString
  | String c r =>
      match rstrip r with
      | EmptyString => if isspace c then EmptyString else String c EmptyString
      | r' => String c r'
      end
  end.

(** [s.strip()] *)
Definition strip (s : string) : string := rstrip (lstrip s).

(** [sub in s] *)
Fixpoint contains (s sub : string) : bool :=
  String.prefix sub s ||
  match s with
  | EmptyString => false
  | String _ r => contains r sub
  end.

(** truth value of a [str]: non-empty *)
Definition truthy (s : string) : bool :=
  match s with EmptyString => false | _ => true end.

(** [sep.join(parts)] *)
Fixpoint join (sep : string) (parts : list string) : string :=
  match parts with
  | [] => EmptyString
  | [p] => p
  | p :: rest => p +:+ sep +:+ join sep rest
  end.

(** [s.split(sep)[-1]] for a one-character [sep]: the text after its last
    occurrence, the whole text when it does not occur. *)
Fixpoint after_last (sep : ascii) (s : string) : string :=
  match s with
  | EmptyString => EmptyString
  | String c r =>
      if contains r (String sep EmptyString) then after_last sep r
      else if Ascii.eqb c sep then r
      else s
  end.

Fixpoint chars (s : string) : list string :=
  match s with
  | EmptyString => []
  | String c r => String c EmptyString :: chars r
  end.

Fixpoint repeat (s : string) (n : nat) : string :=
  match n with
  | O => EmptyString
  | S k => s +:+ repeat s k
  end.

Definition nl : string := String (ascii_of_N 10) EmptyString.

(** What [f.read()] returns for a file opened in text mode with the
    default [newline=None]: every line ending (carriage return followed by
    line feed, or carriage return alone) is read as one line feed. *)
Fixpoint universal_newlines (s : string) : string :=
  match s with
  | EmptyString => EmptyString
  | String c r =>
      if (code c =? 13)%N then
        match r with
        | String d r' =>
            if (code d =? 10)%N then String d (universal_newlines r')
            else String (ascii_of_N 10) (universal_newlines r)
        | EmptyString => nl
        end
      else String c (universal_newlines r)
  end.

End PyStr.

Definition NL : string := PyStr.nl.

(** ** Values that travel through [json] *)

#[warnings="-register-all"]
Inductive json : Type :=
| JNull
| JBool (b : bool)
| JInt (z : Z)
| JFloat (f : spec_float)
| JStr (s : string)
| JArr (items : list json)
| JObj (fields : list (string * json)).

(** ** Exceptions and results *)

Record exn : Type := Exn { exn_class : string; exn_msg : string }.

Inductive result (A : Type) : Type :=
| Ok (a : A)
| Raise (e : exn).
Arguments Ok {A} a.
Arguments Raise {A} e.

Definition is_ok {A} (r : result A) : bool :=
  match r with Ok _ => true | Raise _ => false end.

Definition AttributeError (cls attr : string) : exn :=
  Exn "AttributeError" ("'" +:+ cls +:+ "' object has no attribute '" +:+ attr +:+ "'").
Definition TypeError (msg : string) : exn := Exn "TypeError" msg.
Definition KeyError (key : string) : exn := Exn "KeyError" ("'" +:+ key +:+ "'").
Definition FileNotFoundError (path : string) : exn :=
  Exn "FileNotFoundError" ("[Errno 2] No such file or directory: '" +:+ path +:+ "'").
Definition PermissionError (path : string) : exn :=
  Exn "PermissionError" ("[Errno 13] Permission denied: '" +:+ path +:+ "'").
Definition JSONDecodeError : exn :=
  Exn "JSONDecodeError" "Expecting value: line 1 column 1 (char 0)".

(** [except (FileNotFoundError, json.JSONDecodeError)] *)
Definition missing_or_unparsable (e : exn) : bool :=
  String.eqb (exn_class e) "FileNotFoundError"
  || String.eqb (exn_class e) "JSONDecodeError".

(** ** Python semantics of the values used by the code *)

Module PyVal.

(** [d.get(k)] / [k in d] on a [dict] *)
Fixpoint dict_get (k : string) (d : list (string * json)) : option json :=
  match d with
  | [] => None
  | (k', v) :: r => if String.eqb k' k then Some v else dict_get k r
  end.

(** [d[k] = v]: an existing key keeps its place, a new one goes last. *)
Fixpoint dict_set (k : string) (v : json) (d : list (string * json))
  : list (string * json) :=
  match d with
  | [] => [(k, v)]
  | (k', v') :: r =>
      if String.eqb k' k then (k, v) :: r else (k', v') :: dict_set k v r
  end.

(** truth value, as tested by [if x:] and [not x] *)
Definition truthy (j : json) : bool :=
  match j with
  | JNull => false
  | JBool b => b
  | JInt z => negb (z =? 0)%Z
  | JFloat (S754_zero _) => false
  | JFloat _ => true
  | JStr s => PyStr.truthy s
  | JArr l => match l with [] => false | _ => true end
  | JObj d => match d with [] => false | _ => true end
  end.

Definition type_name (j : json) : string :=
  match j with
  | JNull => "NoneType"
  | JBool _ => "bool"
  | JInt _ => "int"
  | JFloat _ => "float"
  | JStr _ => "str"
  | JArr _ => "list"
  | JObj _ => "dict"
  end.

(** [x[key]] with a string key *)
Definition getitem (j : json) (key : string) : result json :=
  match j with
  | JObj d =>
      match dict_get key d with
      | Some v => Ok v
      | None => Raise (KeyError key)
      end
  | JStr _ => Raise (TypeError "string indices must be integers, not 'str'")
  | JArr _ => Raise (TypeError "list indices must be integers or slices, not str")
  | _ => Raise (TypeError ("'" +:+ type_name j +:+ "' object is not subscriptable"))
  end.

(** [x.get(key, default)]: only a [dict] has the method. *)
Definition get_method (j : json) (key : string) (default : json) : result json :=
  match j with
  | JObj d => Ok (from_option id default (dict_get key d))
  | _ => Raise (AttributeError (type_name j) "get")
  end.

(** [x[key] = v] with a string key *)
Definition setitem (j : json) (key : string) (v : json) : result json :=
  match j with
  | JObj d => Ok (JObj (dict_set key v d))
  | JArr _ => Raise (TypeError "list indices must be integers or slices, not str")
  | _ => Raise (TypeError ("'" +:+ type_name j
                           +:+ "' object does not support item assignment"))
  end.

(** [x == "literal"] *)
Definition eq_str (j : json) (s : string) : bool :=
  match j with JStr s' => String.eqb s' s | _ => false end.

(** [l[-n:]]: the last [n] items *)
Definition last_n {A} (n : nat) (l : list A) : list A :=
  drop (length l - n) l.

(** a message of the log, as the code builds it *)
Definition message (role content : string) : json :=
  JObj [("role", JStr role); ("content", JStr content)].

End PyVal.

(** ** Collaborators' data *)

(** [langchain.schema.Document] *)
Record Document : Type := mkDocument {
  page_content : string;
  metadata : list (string * json)
}.

(** [langchain_core.messages]: the two classes the code instantiates *)
Inductive lc_message : Type :=
| HumanMessage (content : json)
| AIMessage (content : json).

(** One result of [arxiv.Client.results] *)
Record arxiv_paper : Type := mkPaper {
  entry_id : string;
  paper_title : string;
  paper_authors : list string;
  pdf_url : string;
  paper_summary : string;
  published_ymd : string;
  categories : list string
}.

(** The [requests.Response] fields read by the code *)
Record http_response : Type := mkResponse {
  status_code : Z;
  response_text : string;
  response_json : result json
}.

(** What a file holds: text that [json.load] parses to a value, or text it
    rejects. [json.dump] followed by [json.load] is the library's round
    trip; it is built into this representation, not proved here. *)
Inductive file_data : Type :=
| FJson (j : json)
| FText (raw : string).

(** Calls that leave the process, in the order they are made. *)
Inductive event : Type :=
| EvSimilaritySearch (query : string) (k : Z)
| EvSplit (text : string) (meta : list (string * json))
| EvAddDocuments (docs : list Document)
| EvPersist
| EvReadDocument (path file_type : string)
| EvGenerate (message : string) (history : option (list json))
             (context : option string)
| EvInvoke (msgs : list lc_message)
| EvSummary (chat : list lc_message)
| EvPerplexity (query : string)
| EvPost (url bearer query : string)
| EvArxivSearch (query : string) (max_results : Z)
| EvStrftime
| EvTime
| EvUuid4.

(** [PenelopeMemory]: the attributes of the object *)
Record PenelopeMemory : Type := mkMemory {
  thread_id : string;
  messages : list json;
  memory_file : string;
  paper_details_file : string;
  summary_chat : list lc_message  (* summary_memory.chat_memory *)
}.

(** The state of the process and of its files. *)
Record state : Type := mkState {
  files : gmap string file_data;
  unreadable : gset string;   (* [open(p, "r")] raises *)
  unwritable : gset string;   (* [open(p, "w")] and [open(p, "a")] raise *)
  trace : list event;
  memory : PenelopeMemory
}.

(** [ConfigManager.config], read-only in the flows below *)
Record Config : Type := mkConfig {
  api_keys : list (string * string);
  relevance_threshold : option spec_float;   (* knowledge_base section *)
  file_paths : list (string * string)        (* files section *)
}.

(** The vendor libraries. Every answer may depend on the calls made so far. *)
Record Env : Type := mkEnv {
  similarity_search_with_relevance_scores :
    list event -> string -> Z -> result (list (Document * spec_float));
  create_documents : list event -> string -> list (string * json) -> result (list Document);
  add_documents : list event -> list Document -> result unit;
  persist : list event -> result unit;
  read_utf8 : list event -> string -> result string;
  pdf_pages : list event -> string -> result (list (result string));
  docx2txt_process : list event -> string -> result string;
  invoke : list event -> list lc_message -> result string;
  load_memory_variables : list event -> list lc_message -> result string;
  requests_post : list event -> string -> string -> string -> result http_response;
  arxiv_results : list event -> string -> Z -> result (list arxiv_paper);
  strftime : list event -> string;
  time_time : list event -> spec_float;
  uuid4 : list event -> string;
  format_2f : spec_float -> string;           (* f"{x:.2f}" *)
  os_path_basename : string -> string;
  repr_value : json -> string                       (* str() of a non-str value *)
}.

(** ** Computations *)

Definition Py (A : Type) : Type := state -> result A * state.

Definition ret {A} (a : A) : Py A := fun s => (Ok a, s).
Definition raise {A} (e : exn) : Py A := fun s => (Raise e, s).
Definition bind {A B} (c : Py A) (k : A -> Py B) : Py B :=
  fun s => match c s with
           | (Ok a, s') => k a s'
           | (Raise e, s') => (Raise e, s')
           end.
(** [try: c except Exception as e: h e] *)
Definition try_except {A} (c : Py A) (h : exn -> Py A) : Py A :=
  fun s => match c s with
           | (Ok a, s') => (Ok a, s')
           | (Raise e, s') => h e s'
           end.
(** [try: c except (classes) as e: h e]; other exceptions pass through. *)
Definition try_except_only {A} (catches : exn -> bool) (c : Py A)
  (h : exn -> Py A) : Py A :=
  fun s => match c s with
           | (Ok a, s') => (Ok a, s')
           | (Raise e, s') => if catches e then h e s' else (Raise e, s')
           end.
Definition lift {A} (r : result A) : Py A := fun s => (r, s).
Definition get_state : Py state := fun s => (Ok s, s).
Definition emit (e : event) : Py unit :=
  fun s => (Ok tt, mkState (files s) (unreadable s) (unwritable s)
                           (trace s ++ [e]) (memory s)).
Definition get_memory : Py PenelopeMemory := fun s => (Ok (memory s), s).
Definition set_memory (m : PenelopeMemory) : Py unit :=
  fun s => (Ok tt, mkState (files s) (unreadable s) (unwritable s) (trace s) m).

Declare Scope py_scope.
Delimit Scope py_scope with py.
Notation "x <- c ;; k" := (bind c (fun x => k))
  (at level 100, c at next level, right associativity) : py_scope.
Notation "c ;;; k" := (bind c (fun _ => k))
  (at level 100, k at level 200, right associativity) : py_scope.
Local Open Scope py_scope.

(** A vendor call: log the event, then take the answer the environment
    gives after the calls made before it. *)
Definition vendor {A} (ev : event) (answer : list event -> result A) : Py A :=
  s <- get_state ;; emit ev ;;; lift (answer (trace s)).
Definition vendor_total {A} (ev : event) (answer : list event -> A) : Py A :=
  s <- get_state ;; emit ev ;;; ret (answer (trace s)).

(** [for x in l: body x] *)
Fixpoint for_each {A} (l : list A) (body : A -> Py unit) : Py unit :=
  match l with
  | [] => ret tt
  | x :: r => body x ;;; for_each r body
  end.

(** ** Files *)

(** [with open(path, "r") as f: return json.load(f)] *)
Definition json_load_file (path : string) : Py json :=
  fun s =>
    if String.eqb path "" then (Raise (FileNotFoundError path), s)
    else if decide (path ∈ unreadable s) then (Raise (PermissionError path), s)
    else match files s !! path with
         | None => (Raise (FileNotFoundError path), s)
         | Some (FText _) => (Raise JSONDecodeError, s)
         | Some (FJson j) => (Ok j, s)
         end.

(** [with open(path, "w") as f: json.dump(obj, f, ...)] *)
Definition json_dump_file (path : string) (obj : json) : Py unit :=
  fun s =>
    if String.eqb path "" then (Raise (FileNotFoundError path), s)
    else if decide (path ∈ unwritable s) then (Raise (PermissionError path), s)
    else (Ok tt, mkState (<[path := FJson obj]> (files s)) (unreadable s)
                         (unwritable s) (trace s) (memory s)).

(** [with open(path, "a") as log: log.write(text)]: a file that held a JSON
    value no longer parses once text is appended to it. *)
Definition append_file (repr : json -> string) (path text : string) : Py unit :=
  fun s =>
    if String.eqb path "" then (Raise (FileNotFoundError path), s)
    else if decide (path ∈ unwritable s) then (Raise (PermissionError path), s)
    else
      let old := match files s !! path with
                 | None => ""
                 | Some (FText t) => t
                 | Some (FJson j) => repr j
                 end in
      (Ok tt, mkState (<[path := FText (old +:+ text)]> (files s)) (unreadable s)
                      (unwritable s) (trace s) (memory s)).

(** ** The program *)

Section Program.

Context (E : Env) (cfg : Config).

(** [str(x)] inside an f-string *)
Definition py_str (j : json) : string :=
  match j with JStr s => s | _ => repr_value E j end.

(** *** config.py *)

Fixpoint assoc (k : string) (d : list (string * string)) : option string :=
  match d with
  | [] => None
  | (k', v) :: r => if String.eqb k' k then Some v else assoc k r
  end.

(** [ConfigManager.get_api_key] *)
Definition get_api_key (service : string) : string :=
  default "" (assoc service (api_keys cfg)).

(** [ConfigManager.get_file_path] *)
Definition get_file_path (file_key : string) : string :=
  default "" (assoc file_key (file_paths cfg)).

(** [a or b] on two strings *)
Definition str_or (a b : string) : string :=
  if PyStr.truthy a then a else b.

(** *** knowledge_base.py *)

(** The default of [kb_settings.get("relevance_threshold", 0.2)]: the
    double nearest to 0.2, 7205759403792794 * 2^-55. *)
Definition default_relevance_threshold : spec_float :=
  S754_finite false 7205759403792794 (-55).

Definition configured_threshold : spec_float :=
  default default_relevance_threshold (relevance_threshold cfg).

(** [text += page.extract_text() + "\n"] over the pages *)
Fixpoint concat_pages (pages : list (result string)) (text : string)
  : result string :=
  match pages with
  | [] => Ok text
  | Ok t :: r => concat_pages r (text +:+ t +:+ NL)
  | Raise e :: _ => Raise e
  end.

(** [KnowledgeBase.extract_text_from_pdf] *)
Definition extract_text_from_pdf (file_path : string) : Py (option string) :=
  try_except
    (pages <- vendor (EvReadDocument file_path "pdf")
                     (fun t => pdf_pages E t file_path) ;;
     text <- lift (concat_pages pages "") ;;
     ret (Some text))
    (fun _ => ret None).

(** [KnowledgeBase.extract_text] *)
Definition extract_text (file_path file_type : string) : Py (option string) :=
  try_except
    (if String.eqb file_type "pdf" then extract_text_from_pdf file_path
     else if String.eqb file_type "txt" then
       text <- vendor (EvReadDocument file_path "txt")
                      (fun t => read_utf8 E t file_path) ;;
       ret (Some text)
     else if String.eqb file_type "docx" then
       text <- vendor (EvReadDocument file_path "docx")
                      (fun t => docx2txt_process E t file_path) ;;
       ret (Some text)
     else ret None)
    (fun _ => ret None).

(** [not text] for an [Optional[str]] *)
Definition no_text (text : option string) : bool :=
  match text with
  | None => true
  | Some t => negb (PyStr.truthy t)
  end.

(** [KnowledgeBase.process_document] *)
Definition process_document (file_path file_type : string)
  (metadata : option (list (string * json))) : Py (bool * string) :=
  try_except
    (text <- extract_text file_path file_type ;;
     if no_text text then ret (false, "Failed to extract text from document")
     else
       let metadata := default [] metadata in
       let metadata := PyVal.dict_set "source" (JStr file_path) metadata in
       date_added <- vendor_total EvStrftime (strftime E) ;;
       let metadata := PyVal.dict_set "date_added" (JStr date_added) metadata in
       let metadata := PyVal.dict_set "file_type" (JStr file_type) metadata in
       let text := default "" text in
       docs <- vendor (EvSplit text metadata)
                      (fun t => create_documents E t text metadata) ;;
       vendor (EvAddDocuments docs) (fun t => add_documents E t docs) ;;;
       try_except (vendor EvPersist (persist E)) (fun _ => ret tt) ;;;
       ret (true, "Successfully added " +:+ pretty (length docs)
                  +:+ " chunks to knowledge base"))
    (fun e => ret (false, "Error processing document: " +:+ exn_msg e)).

(** [score > relevance_threshold] on two floats *)
Definition above (threshold score : spec_float) : bool := SFltb threshold score.

Definition md_get (key : string) (dflt : json) (d : Document) : json :=
  from_option id dflt (PyVal.dict_get key (metadata d)).

(** [os.path.basename(source)]: a path must be a [str]. *)
Definition basename_of (source : json) : result string :=
  match source with
  | JStr p => Ok (os_path_basename E p)
  | _ => Raise (TypeError ("expected str, bytes or os.PathLike object, not "
                           +:+ PyVal.type_name source))
  end.

(** The body of the loop of [search_relevant_context] for a candidate that
    passed the threshold: the formatted passage. *)
Definition format_candidate (d : Document) (score : spec_float) : result string :=
  let source := md_get "source" (JStr "Unknown source") d in
  let source_type := md_get "file_type" (md_get "type" (JStr "") d) d in
  let title := md_get "title" (JStr "") d in
  match
    (if PyVal.truthy title
     then Ok ("Source: " +:+ py_str title +:+ " (" +:+ py_str source_type +:+ ")")
     else match basename_of source with
          | Ok b => Ok ("Source: " +:+ b +:+ " (" +:+ py_str source_type +:+ ")")
          | Raise e => Raise e
          end)
  with
  | Ok header =>
      Ok (header +:+ NL +:+ "Relevance: " +:+ format_2f E score +:+ NL
          +:+ "Content: " +:+ page_content d +:+ NL)
  | Raise e => Raise e
  end.

(** The loop of [search_relevant_context]: [formatted_results] grows by
    [append], in the order of [results]. *)
Fixpoint format_results (threshold : spec_float)
  (results : list (Document * spec_float)) (formatted_results : list string)
  : result (list string) :=
  match results with
  | [] => Ok formatted_results
  | (d, score) :: rest =>
      if above threshold score then
        match format_candidate d score with
        | Ok formatted_content =>
            format_results threshold rest (formatted_results ++ [formatted_content])
        | Raise e => Raise e
        end
      else format_results threshold rest formatted_results
  end.

Definition no_relevant_information : string :=
  "No relevant information found in knowledge base.".
Definition retrieval_error : string :=
  "Error retrieving information from knowledge base.".

(** [KnowledgeBase.search_relevant_context] *)
Definition search_relevant_context (query : string) (top_k : Z) : Py string :=
  try_except
    (results <- vendor (EvSimilaritySearch query top_k)
                       (fun t => similarity_search_with_relevance_scores E t query top_k) ;;
     formatted_results <- lift (format_results configured_threshold results []) ;;
     match formatted_results with
     | [] => ret no_relevant_information
     | _ => ret (PyStr.join (NL +:+ NL) formatted_results)
     end)
    (fun _ => ret retrieval_error).

(** The attributes of a [KnowledgeBase] object, besides those every object
    has: the five set by [__init__] and the four methods of the class. *)
Definition KnowledgeBase_attributes : list string :=
  [ "config_manager"; "kb_settings"; "embedding_function"; "db";
    "text_splitter"; "process_document"; "extract_text";
    "extract_text_from_pdf"; "search_relevant_context" ].

(** [self.knowledge_base.<name>]: attribute lookup on the object *)
Definition KnowledgeBase_getattr (name : string) : result string :=
  if existsb (String.eqb name) KnowledgeBase_attributes then Ok name
  else Raise (AttributeError "KnowledgeBase" name).

(** *** models.py *)

(** The loop of [ClaudeModel.get_response] over [history[-6:]] *)
Fixpoint convert_history (history : list json) (msgs : list lc_message)
  : result (list lc_message) :=
  match history with
  | [] => Ok msgs
  | msg :: rest =>
      match PyVal.getitem msg "role" with
      | Raise e => Raise e
      | Ok role =>
          if PyVal.eq_str role "user" then
            match PyVal.getitem msg "content" with
            | Ok c => convert_history rest (msgs ++ [HumanMessage c])
            | Raise e => Raise e
            end
          else if PyVal.eq_str role "assistant" then
            match PyVal.getitem msg "content" with
            | Ok c => convert_history rest (msgs ++ [AIMessage c])
            | Raise e => Raise e
            end
          else convert_history rest msgs
      end
  end.

(** [if context:] for an [Optional[str]] *)
Definition some_text (context : option string) : bool :=
  match context with
  | Some c => PyStr.truthy c
  | None => false
  end.

(** [ClaudeModel.get_response]: the generation call. Its arguments are
    logged as [EvGenerate], the request sent to the vendor as [EvInvoke]. *)
Definition ClaudeModel_get_response (message : string)
  (history : option (list json)) (context : option string) : Py string :=
  emit (EvGenerate message history context) ;;;
  try_except
    (msgs <- lift (convert_history (PyVal.last_n 6 (default [] history)) []) ;;
     let augmented_message :=
       if some_text context then message +:+ NL +:+ NL +:+ default "" context
       else message in
     let msgs := msgs ++ [HumanMessage (JStr augmented_message)] in
     vendor (EvInvoke msgs) (fun t => invoke E t msgs))
    (fun e => ret ("I encountered an error communicating with my language model: "
                   +:+ exn_msg e)).

(** *** memory.py *)

Definition set_messages (l : list json) : Py unit :=
  m <- get_memory ;;
  set_memory (mkMemory (thread_id m) l (memory_file m) (paper_details_file m)
                       (summary_chat m)).
Definition set_summary_chat (c : list lc_message) : Py unit :=
  m <- get_memory ;;
  set_memory (mkMemory (thread_id m) (messages m) (memory_file m)
                       (paper_details_file m) c).
Definition set_thread_id (t : string) : Py unit :=
  m <- get_memory ;;
  set_memory (mkMemory t (messages m) (memory_file m) (paper_details_file m)
                       (summary_chat m)).

(** [summary_memory.chat_memory.add_user_message / add_ai_message] *)
Definition add_chat (msg : lc_message) : Py unit :=
  m <- get_memory ;; set_summary_chat (summary_chat m ++ [msg]).

(** The loop of [_load_messages] *)
Definition replay_message (msg : json) : Py unit :=
  role <- lift (PyVal.getitem msg "role") ;;
  if PyVal.eq_str role "user" then
    c <- lift (PyVal.getitem msg "content") ;; add_chat (HumanMessage c)
  else if PyVal.eq_str role "assistant" then
    c <- lift (PyVal.getitem msg "content") ;; add_chat (AIMessage c)
  else ret tt.

(** [PenelopeMemory._load_messages]. The log is a list in this model: a
    file holding a number, a boolean, [null], a non-empty object or a
    non-empty string makes the source raise [TypeError] while it logs or
    replays the log, as here; the empty object and the empty string, which
    the source would store in place of a list, are rejected alike. *)
Definition _load_messages : Py unit :=
  try_except_only missing_or_unparsable
    (m <- get_memory ;;
     j <- json_load_file (memory_file m) ;;
     match j with
     | JArr l => set_messages l ;;; for_each l replay_message
     | _ => raise (TypeError ("a message log must be a list, not "
                              +:+ PyVal.type_name j))
     end)
    (fun _ => set_messages []).

(** [PenelopeMemory._save_messages] *)
Definition _save_messages : Py unit :=
  try_except
    (m <- get_memory ;; json_dump_file (memory_file m) (JArr (messages m)))
    (fun _ => ret tt).

(** [PenelopeMemory.__init__] *)
Definition PenelopeMemory_init : Py unit :=
  thread <- vendor_total EvUuid4 (uuid4 E) ;;
  set_memory (mkMemory thread []
                (str_or (get_file_path "memory_file") "conversation_history.json")
                (str_or (get_file_path "paper_details_file") "paper_details.json")
                []) ;;;
  _load_messages.

(** [PenelopeMemory._get_paper_details] *)
Definition _get_paper_details : Py json :=
  try_except
    (try_except_only missing_or_unparsable
       (m <- get_memory ;; json_load_file (paper_details_file m))
       (fun _ => ret (JObj [])))
    (fun _ => ret (JObj [])).

Definition rbind {A B} (r : result A) (k : A -> result B) : result B :=
  match r with Ok a => k a | Raise e => Raise e end.

(** One entry of [formatted_papers] *)
Definition format_paper (paper_id : string) (paper : json) : result string :=
  rbind (PyVal.getitem paper "title") (fun title =>
  rbind (PyVal.getitem paper "authors") (fun authors =>
  rbind (PyVal.get_method paper "url" (JStr "N/A")) (fun url =>
  Ok ("Paper ID: " +:+ paper_id +:+ NL
      +:+ "Title: " +:+ py_str title +:+ NL
      +:+ "Authors: " +:+ py_str authors +:+ NL
      +:+ "URL: " +:+ py_str url)))).

Fixpoint format_papers (items : list (string * json)) : result (list string) :=
  match items with
  | [] => Ok []
  | (paper_id, paper) :: rest =>
      rbind (format_paper paper_id paper) (fun p =>
      rbind (format_papers rest) (fun ps => Ok (p :: ps)))
  end.

(** [paper_details.items()] *)
Definition items_method (j : json) : result (list (string * json)) :=
  match j with
  | JObj d => Ok d
  | _ => Raise (AttributeError (PyVal.type_name j) "items")
  end.

(** [PenelopeMemory.get_paper_details_context] *)
Definition get_paper_details_context : Py string :=
  try_except
    (paper_details <- _get_paper_details ;;
     if negb (PyVal.truthy paper_details)
     then ret "No papers have been discussed yet."
     else
       items <- lift (items_method paper_details) ;;
       formatted_papers <- lift (format_papers items) ;;
       ret ("Papers discussed in this conversation:" +:+ NL +:+ NL
            +:+ PyStr.join (NL +:+ NL) formatted_papers))
    (fun _ => ret "Error retrieving paper details.").

(** [PenelopeMemory.add_message] *)
Definition add_message (message : string) (is_human : bool) : Py unit :=
  (if is_human then
     add_chat (HumanMessage (JStr message)) ;;;
     m <- get_memory ;;
     set_messages (messages m ++ [PyVal.message "user" message])
   else
     add_chat (AIMessage (JStr message)) ;;;
     m <- get_memory ;;
     set_messages (messages m ++ [PyVal.message "assistant" message])) ;;;
  _save_messages.

(** [self.summary_memory.load_memory_variables({})], read at the key
    ["chat_history"] and rendered as text: computing the summary. *)
Definition compute_summary : Py string :=
  m <- get_memory ;;
  vendor (EvSummary (summary_chat m))
         (fun t => load_memory_variables E t (summary_chat m)).

Definition summary_acknowledgement : string :=
  "I understand the conversation context and the papers we've discussed. What would you like to know next?".

Definition history_context_of (summary : string) : string :=
  "Here's a summary of our conversation so far:" +:+ NL +:+ summary +:+ NL +:+ NL.

(** [summary_history] of [get_response] *)
Definition summary_history (summary : string) : list json :=
  [ PyVal.message "user" (history_context_of summary);
    PyVal.message "assistant" summary_acknowledgement ].

(** [PenelopeMemory.get_response] *)
Definition get_response (query : string) (context : option string) : Py string :=
  try_except
    (m <- get_memory ;;
     let n := length (messages m) in
     (if ((10 <=? n) && (n mod 10 =? 0))%nat
      then _ <- compute_summary ;; ret tt
      else ret tt) ;;;
     papers_context <- get_paper_details_context ;;
     let final_context :=
       (if some_text context then default "" context +:+ NL +:+ NL else "")
       +:+ "Papers discussed: " +:+ papers_context in
     response <-
       (if (10 <=? n)%nat then
          summary <- compute_summary ;;
          let history_context := history_context_of summary in
          let final_context := history_context +:+ final_context in
          ClaudeModel_get_response query (Some (summary_history summary))
                                   (Some final_context)
        else
          ClaudeModel_get_response query (Some (messages m)) (Some final_context)) ;;
     add_message query true ;;;
     add_message response false ;;;
     ret response)
    (fun e => ret ("I encountered an error: " +:+ exn_msg e +:+ ". Please try again.")).

(** [PenelopeMemory.reset] *)
Definition reset : Py unit :=
  set_messages [] ;;;
  set_summary_chat [] ;;;
  thread <- vendor_total EvUuid4 (uuid4 E) ;;
  set_thread_id thread ;;;
  _save_messages.

(** *** arxiv_tools.py *)

(** [config_manager.get_file_path("paper_details_file")] when a
    [ConfigManager] was passed, the default name otherwise *)
Definition registry_path (config_manager : bool) : string :=
  if config_manager then get_file_path "paper_details_file"
  else "paper_details.json".

Definition opt_str (o : option string) : json :=
  match o with Some s => JStr s | None => JNull end.

(** The record written by [save_paper_details] *)
Definition paper_record (paper_id title authors : string)
  (url summary : option string) (last_accessed : spec_float) : json :=
  JObj [ ("id", JStr paper_id); ("title", JStr title); ("authors", JStr authors);
         ("url", opt_str url); ("summary", opt_str summary);
         ("last_accessed", JFloat last_accessed) ].

(** [save_paper_details] *)
Definition save_paper_details (paper_id title authors : string)
  (url summary : option string) (config_manager : bool) : Py bool :=
  try_except
    (let paper_details_file := registry_path config_manager in
     paper_details <-
       try_except_only missing_or_unparsable
         (json_load_file paper_details_file)
         (fun _ => ret (JObj [])) ;;
     now <- vendor_total EvTime (time_time E) ;;
     paper_details <-
       lift (PyVal.setitem paper_details paper_id
               (paper_record paper_id title authors url summary now)) ;;
     json_dump_file paper_details_file paper_details ;;;
     ret true)
    (fun _ => ret false).

(** [get_paper_details] *)
Definition get_paper_details (config_manager : bool) : Py json :=
  try_except
    (try_except_only missing_or_unparsable
       (json_load_file (registry_path config_manager))
       (fun _ => ret (JObj [])))
    (fun _ => ret (JObj [])).

(** Calling an attribute of the [KnowledgeBase] object with no positional
    argument and the given keywords. None of the nine attributes accepts
    such a call: the data attributes are not callable, and the methods
    require positional parameters that none of the keywords used by the
    callers names. *)
Definition KnowledgeBase_call (attr : string) (keywords : list string)
  : result json :=
  Raise (TypeError ("KnowledgeBase." +:+ attr +:+ "() cannot be called with keywords ("
                    +:+ PyStr.join ", " keywords +:+ ")")).

(** The prompt of [summarize_arxiv_paper] *)
Definition summary_prompt (paper : json) : result string :=
  rbind (PyVal.getitem paper "title") (fun title =>
  rbind (PyVal.getitem paper "authors") (fun authors =>
  rbind (PyVal.get_method paper "summary" (JStr "No abstract available.")) (fun abstract =>
  rbind (PyVal.get_method paper "url" (JStr "N/A")) (fun url =>
  Ok ("Please summarize the following research paper:" +:+ NL +:+ NL
      +:+ "Title: " +:+ py_str title +:+ NL
      +:+ "Authors: " +:+ py_str authors +:+ NL
      +:+ "Abstract: " +:+ py_str abstract +:+ NL
      +:+ "URL: " +:+ py_str url +:+ NL))))).

Definition added_to_kb : string := NL +:+ NL +:+ "✅ Added to knowledge base.".
Definition failed_to_add : string := NL +:+ NL +:+ "❌ Failed to add to knowledge base.".
Definition error_adding : string := NL +:+ NL +:+ "❌ Error adding to knowledge base: ".

(** The [try] block of [summarize_arxiv_paper] that adds the summary to
    the knowledge base *)
Definition add_summary_to_kb (paper_id : string) (paper : json) (summary : string)
  : Py string :=
  try_except
    (title <- lift (PyVal.getitem paper "title") ;;
     authors <- lift (PyVal.getitem paper "authors") ;;
     let doc_content := "Title: " +:+ py_str title +:+ NL +:+ "Authors: "
                        +:+ py_str authors +:+ NL +:+ NL +:+ "Summary:" +:+ NL
                        +:+ summary in
     add_document <- lift (KnowledgeBase_getattr "add_document") ;;
     success <- lift (KnowledgeBase_call add_document ["content"; "metadata"]) ;;
     if PyVal.truthy success then ret (summary +:+ added_to_kb)
     else ret (summary +:+ failed_to_add))
    (fun e => ret (summary +:+ error_adding +:+ exn_msg e)).

(** [summarize_arxiv_paper]; [knowledge_base] and [claude_model] tell
    whether the optional objects were passed. *)
Definition summarize_arxiv_paper (paper_id : string) (add_to_kb : bool)
  (config_manager knowledge_base claude_model : bool) : Py string :=
  loaded <-
    try_except_only missing_or_unparsable
      (papers <- json_load_file (registry_path config_manager) ;; ret (Some papers))
      (fun _ => ret None) ;;
  match loaded with
  | None => ret "No paper details found."
  | Some papers =>
      paper <- lift (PyVal.get_method papers paper_id JNull) ;;
      if negb (PyVal.truthy paper)
      then ret ("No details found for paper ID " +:+ paper_id +:+ ".")
      else
        prompt <- lift (summary_prompt paper) ;;
        if negb claude_model
        then ret "Claude model is not available for summarization."
        else
          summary <- ClaudeModel_get_response prompt None None ;;
          if add_to_kb && knowledge_base
          then add_summary_to_kb paper_id paper summary
          else ret summary
  end.

(** [any(term in query.lower() for term in [...])] *)
Definition mentions_bitcoin (query : string) : bool :=
  existsb (PyStr.contains (PyStr.lower query)) ["bitcoin"; "blockchain"; "crypto"].

(** The body of the loop of [search_arxiv] for the paper at index [i] *)
Definition show_paper (config_manager : bool) (i : nat) (paper : arxiv_paper)
  : Py string :=
  let paper_id := PyStr.after_last "/" (entry_id paper) in
  let authors := PyStr.join ", " (paper_authors paper) in
  save_paper_details paper_id (paper_title paper) authors (Some (pdf_url paper))
    (Some (PyStr.slice_to 500 (paper_summary paper))) config_manager ;;;
  ret ("📄 Paper #" +:+ pretty (i + 1) +:+ ": " +:+ paper_title paper +:+ NL
       +:+ "🆔 ID: " +:+ paper_id +:+ NL
       +:+ "👥 Authors: " +:+ authors +:+ NL
       +:+ "📅 Published: " +:+ published_ymd paper +:+ NL
       +:+ "🔍 Categories: " +:+ PyStr.join ", " (categories paper) +:+ NL
       +:+ "🔗 PDF: " +:+ pdf_url paper +:+ NL
       +:+ "📝 Abstract: " +:+ PyStr.slice_to 300 (paper_summary paper) +:+ "..." +:+ NL).

Fixpoint show_papers (config_manager : bool) (i : nat) (papers : list arxiv_paper)
  : Py (list string) :=
  match papers with
  | [] => ret []
  | p :: rest =>
      info <- show_paper config_manager i p ;;
      infos <- show_papers config_manager (S i) rest ;;
      ret (info :: infos)
  end.

(** [search_arxiv] *)
Definition search_arxiv (query : string) (max_results : Z) (config_manager : bool)
  : Py string :=
  try_except
    (let query := if mentions_bitcoin query then query
                  else query +:+ " AND (bitcoin OR blockchain OR cryptocurrency)" in
     results <- vendor (EvArxivSearch query max_results)
                       (fun t => arxiv_results E t query max_results) ;;
     match results with
     | [] => ret "No papers found matching your query."
     | _ =>
         formatted_results <- show_papers config_manager 0 results ;;
         ret ("Found " +:+ pretty (length results) +:+ " papers matching '"
              +:+ query +:+ "':" +:+ NL +:+ NL
              +:+ PyStr.join (NL +:+ NL) formatted_results)
     end)
    (fun e => ret ("Error searching arXiv: " +:+ exn_msg e)).

(** *** perplexity.py *)

(** [for i, source in enumerate(sources, 1)]: what iterating the value
    yields *)
Definition iterate (j : json) : result (list json) :=
  match j with
  | JArr l => Ok l
  | JObj d => Ok (map (fun kv => JStr (fst kv)) d)
  | JStr s => Ok (map JStr (PyStr.chars s))
  | _ => Raise (TypeError ("'" +:+ PyVal.type_name j +:+ "' object is not iterable"))
  end.

Fixpoint format_sources (i : nat) (sources : list json) (sources_text : string)
  : result string :=
  match sources with
  | [] => Ok sources_text
  | source :: rest =>
      rbind (PyVal.get_method source "title" (JStr "Untitled")) (fun title =>
      rbind (PyVal.get_method source "url" (JStr "No URL")) (fun url =>
      format_sources (S i) rest
        (sources_text +:+ pretty i +:+ ". " +:+ py_str title +:+ ": "
         +:+ py_str url +:+ NL)))
  end.

(** [answer[:300]] inside the f-string of the log *)
Definition first_300 (answer : json) : result string :=
  match answer with
  | JStr s => Ok (PyStr.slice_to 300 s)
  | JArr l => Ok (repr_value E (JArr (take 300 l)))
  | JObj _ => Raise (Exn "KeyError" "slice(None, 300, None)")
  | _ => Raise (TypeError ("'" +:+ PyVal.type_name answer
                           +:+ "' object is not subscriptable"))
  end.

Definition perplexity_url : string := "https://api.perplexity.ai/v1/query".

(** [query_perplexity]: the web-search collaborator. Entering it is
    logged as [EvPerplexity]. *)
Definition query_perplexity (query : string) (config_manager : bool) : Py string :=
  emit (EvPerplexity query) ;;;
  try_except
    (let perplexity_api_key :=
       if config_manager then get_api_key "perplexity" else "" in
     if negb (PyStr.truthy perplexity_api_key)
     then ret "Error: Perplexity API key not set. Please configure the API key."
     else
       response <- vendor (EvPost perplexity_url perplexity_api_key query)
                          (fun t => requests_post E t perplexity_url
                                      perplexity_api_key query) ;;
       if (status_code response =? 200)%Z then
         result <- lift (response_json response) ;;
         answer <- lift (PyVal.get_method result "text" (JStr "No answer found.")) ;;
         sources <- lift (PyVal.get_method result "references" (JArr [])) ;;
         sources_text <-
           (if PyVal.truthy sources then
              items <- lift (iterate sources) ;;
              lift (format_sources 1 items (NL +:+ NL +:+ "📚 Sources:" +:+ NL))
            else ret "") ;;
         let search_log_file :=
           if config_manager
           then str_or (get_file_path "search_log_file") "search_log.txt"
           else "search_log.txt" in
         append_file (repr_value E) search_log_file ("QUERY: " +:+ query +:+ NL) ;;;
         excerpt <- lift (first_300 answer) ;;
         append_file (repr_value E) search_log_file
           ("RESULT: " +:+ excerpt +:+ "..." +:+ NL +:+ PyStr.repeat "-" 80 +:+ NL) ;;;
         ret ("🔍 Perplexity Search Result:" +:+ NL +:+ NL +:+ py_str answer
              +:+ sources_text)
       else
         ret ("I tried to search for information, but encountered an error: "
              +:+ pretty (status_code response)))
    (fun _ => ret "I tried to search for up-to-date information, but ran into a technical issue.").

(** *** ui.py *)

Definition kb_statistics (stats : json) : result string :=
  rbind (PyVal.getitem stats "total_documents") (fun total_documents =>
  rbind (PyVal.getitem stats "total_chunks") (fun total_chunks =>
  rbind (PyVal.getitem stats "total_tokens") (fun total_tokens =>
  rbind (PyVal.getitem stats "last_updated") (fun last_updated =>
  Ok ("📚 Knowledge Base Statistics:" +:+ NL
      +:+ "Total Documents: " +:+ py_str total_documents +:+ NL
      +:+ "Total Chunks: " +:+ py_str total_chunks +:+ NL
      +:+ "Total Tokens: " +:+ py_str total_tokens +:+ NL
      +:+ "Last Updated: " +:+ py_str last_updated))))).

Definition count_lines (items : list (string * json)) : list string :=
  map (fun kv => "- " +:+ fst kv +:+ ": " +:+ py_str (snd kv) +:+ " documents") items.

Fixpoint recent_lines (docs : list json) : result (list string) :=
  match docs with
  | [] => Ok []
  | doc :: rest =>
      rbind (PyVal.getitem doc "title") (fun title =>
      rbind (PyVal.getitem doc "date_added") (fun date_added =>
      rbind (recent_lines rest) (fun lines =>
      Ok (("- " +:+ py_str title +:+ " (" +:+ py_str date_added +:+ ")") :: lines))))
  end.

(** [x[:5]] followed by iteration *)
Definition first_5 (j : json) : result (list json) :=
  match j with
  | JArr l => Ok (take 5 l)
  | JStr s => Ok (map JStr (take 5 (PyStr.chars s)))
  | JObj _ => Raise (Exn "KeyError" "slice(None, 5, None)")
  | _ => Raise (TypeError ("'" +:+ PyVal.type_name j
                           +:+ "' object is not subscriptable"))
  end.

Definition kb_details (stats : json) : result string :=
  rbind (PyVal.get_method stats "document_types" (JObj [])) (fun document_types =>
  rbind (items_method document_types) (fun types =>
  rbind (PyVal.get_method stats "sources" (JObj [])) (fun sources =>
  rbind (items_method sources) (fun srcs =>
  rbind (PyVal.get_method stats "recent_documents" (JArr [])) (fun recent =>
  rbind (first_5 recent) (fun docs =>
  rbind (recent_lines docs) (fun recents =>
  Ok (PyStr.join NL
        (["📚 Knowledge Base Details:"; NL +:+ "📄 Document Types:"]
         ++ count_lines types
         ++ [NL +:+ "🔍 Sources:"] ++ count_lines srcs
         ++ [NL +:+ "📅 Recent Documents:"] ++ recents))))))))).

(** [PenelopeUI._get_kb_info] *)
Definition _get_kb_info (detailed : bool) : Py string :=
  try_except
    (get_stats <- lift (KnowledgeBase_getattr "get_stats") ;;
     stats <- lift (KnowledgeBase_call get_stats []) ;;
     if negb detailed then lift (kb_statistics stats)
     else lift (kb_details stats))
    (fun e => ret ("Error getting knowledge base information: " +:+ exn_msg e)).

Definition indent32 : string := PyStr.repeat " " 32.

(** The prompt of the default flow of [chat] *)
Definition rag_prompt (message kb_results : string) : string :=
  "Based on the following context from our knowledge base, please answer the user's question." +:+ NL
  +:+ indent32 +:+ "If the context doesn't fully answer the question, you can use your general knowledge to supplement the answer." +:+ NL
  +:+ NL
  +:+ indent32 +:+ "User's question: " +:+ message +:+ NL
  +:+ NL
  +:+ indent32 +:+ "Relevant context from knowledge base:" +:+ NL
  +:+ indent32 +:+ kb_results +:+ NL
  +:+ NL
  +:+ indent32 +:+ "Please provide a comprehensive answer that combines the knowledge base information with your general knowledge if needed." +:+ NL
  +:+ indent32.

(** [kb_results and len(kb_results.strip()) > 0] *)
Definition has_kb_content (kb_results : string) : bool :=
  PyStr.truthy kb_results && (0 <? String.length (PyStr.strip kb_results))%nat.

(** [history + [{"role": "user", ...}, {"role": "assistant", ...}]] *)
Definition extend (history : list json) (message answer : string) : list json :=
  history ++ [PyVal.message "user" message; PyVal.message "assistant" answer].

(** The flows of [chat], by the prefix tests in the order of the source *)
Inductive flow : Type :=
| PaperSearch | PaperSummary | KbSearch | KbStatistics | WebSearch | Default.

Definition route (message : string) : flow :=
  let lowered := PyStr.lower message in
  if PyStr.startswith lowered "search arxiv:" then PaperSearch
  else if PyStr.startswith lowered "summarize arxiv:" then PaperSummary
  else if PyStr.startswith lowered "search kb:" then KbSearch
  else if PyStr.startswith lowered "check kb" then KbStatistics
  else if PyStr.startswith lowered "perplexity:" then WebSearch
  else Default.

(** The paper identifier the summarization flow is called with *)
Definition summarize_argument (message : string) : string :=
  PyStr.strip (PyStr.slice_from 15 message).

(** The text produced by the flow that [chat] selects: every branch of the
    [if]/[elif] chain of the source computes one text and returns the
    history extended by the utterance and that text. *)
Definition answer (message : string) : Py string :=
  match route message with
  | PaperSearch =>
      search_arxiv (PyStr.strip (PyStr.slice_from 13 message)) 5 true
  | PaperSummary =>
      summarize_arxiv_paper (summarize_argument message) true true true true
  | KbSearch =>
      let query := PyStr.strip (PyStr.slice_from 10 message) in
      kb_results <- search_relevant_context query 5 ;;
      ret ("📚 Knowledge Base Search Results for '" +:+ query +:+ "':"
           +:+ NL +:+ NL +:+ kb_results)
  | KbStatistics =>
      let lowered := PyStr.lower message in
      _get_kb_info (PyStr.contains lowered "detail" || PyStr.contains lowered "full")
  | WebSearch =>
      query_perplexity (PyStr.strip (PyStr.slice_from 11 message)) true
  | Default =>
      kb_results <- search_relevant_context message 3 ;;
      if has_kb_content kb_results
      then ClaudeModel_get_response (rag_prompt message kb_results) None None
      else query_perplexity message true
  end.

(** [chat] of [PenelopeUI.build_ui] *)
Definition chat (message : string) (history : list json)
  : Py (list json * string) :=
  if negb (PyStr.truthy (PyStr.strip message)) then ret (history, "")
  else
    try_except
      (result <- answer message ;; ret (extend history message result, ""))
      (fun e => ret (extend history message
                       ("I encountered an error: " +:+ exn_msg e), "")).

End Program.

(** ** More of the program: the configuration as loaded, the other
       handlers of the interface *)

(** [str.upper] on one character of the Latin-1 range: the text it becomes,
    [None] for the two characters whose upper case lies beyond the range
    (the micro sign and y with diaeresis). *)
Definition upper_char (c : ascii) : option string :=
  let n := PyStr.code c in
  if ((97 <=? n) && (n <=? 122)
      || (224 <=? n) && (n <=? 254) && negb (n =? 247))%N
  then Some (String (ascii_of_N (n - 32)) "")
  else if (n =? 223)%N then Some "SS"
  else if ((n =? 181) || (n =? 255))%N then None
  else Some (String c "").

Fixpoint upper (s : string) : option string :=
  match s with
  | EmptyString => Some ""
  | String c r =>
      match upper_char c, upper r with
      | Some u, Some v => Some (u +:+ v)
      | _, _ => None
      end
  end.

(** 0.7, the default temperature: 6305039478318694 * 2^-53. *)
Definition seven_tenths : spec_float := S754_finite false 6305039478318694 (-53).

(** The default configuration of [ConfigManager._load_config] *)
Definition default_config : list (string * json) :=
  [ ("api_keys", JObj [("anthropic", JStr ""); ("elevenlabs", JStr "");
                       ("perplexity", JStr ""); ("openai", JStr "")]);
    ("models", JObj [("claude", JStr "claude-3-7-sonnet-20250219");
                     ("temperature", JFloat seven_tenths)]);
    ("knowledge_base",
     JObj [("chunk_size", JInt 1000); ("chunk_overlap", JInt 200);
           ("relevance_threshold", JFloat (S754_finite false 7205759403792794 (-55)));
           ("persist_dir", JStr "./chroma_db")]);
    ("files", JObj [("memory_file", JStr "conversation_history.json");
                    ("paper_details_file", JStr "paper_details.json");
                    ("search_log_file", JStr "search_log.txt")]) ].

(** [ConfigManager._update_nested_dict(d, u)] for a [dict] [d] and the value
    [u]: the loop over [u.items()] when [u] is a [dict]. *)
Fixpoint update_nested (d : list (string * json)) (u : json) {struct u}
  : list (string * json) :=
  match u with
  | JObj fields =>
      (fix loop (d : list (string * json)) (items : list (string * json))
         {struct items} : list (string * json) :=
         match items with
         | [] => d
         | (k, v) :: rest =>
             loop (match v, PyVal.dict_get k d with
                   | JObj _, Some (JObj dk) =>
                       PyVal.dict_set k (JObj (update_nested dk v)) d
                   | _, _ => PyVal.dict_set k v d
                   end) rest
         end) d fields
  | _ => d
  end.

(** [ConfigManager._update_nested_dict]: [u.items()] needs a [dict]. *)
Definition _update_nested_dict (d : list (string * json)) (u : json)
  : result (list (string * json)) :=
  match u with
  | JObj _ => Ok (update_nested d u)
  | _ => Raise (AttributeError (PyVal.type_name u) "items")
  end.

(** [item in container] for a string [item] *)
Definition py_contains (container : json) (item : string) : result bool :=
  match container with
  | JObj d => Ok (bool_decide (is_Some (PyVal.dict_get item d)))
  | JArr l => Ok (existsb (fun x => PyVal.eq_str x item) l)
  | JStr s => Ok (PyStr.contains s item)
  | _ => Raise (TypeError ("argument of type '" +:+ PyVal.type_name container
                           +:+ "' is not iterable"))
  end.

(** What iterating a value yields: the items of a list, the keys of a
    [dict], the characters of a [str]. *)
Definition py_iter (j : json) : result (list json) :=
  match j with
  | JArr l => Ok l
  | JObj d => Ok (map (fun kv => JStr (fst kv)) d)
  | JStr s => Ok (map JStr (PyStr.chars s))
  | _ => Raise (TypeError ("'" +:+ PyVal.type_name j +:+ "' object is not iterable"))
  end.

(** [os.environ[f"{key.upper()}_API_KEY"]] when the variable is set. A name
    beyond the Latin-1 range names no variable of the model. *)
Definition api_key_from_environment (environ : list (string * string)) (key : string)
  : option string :=
  match upper key with
  | Some u => assoc (u +:+ "_API_KEY") environ
  | None => None
  end.

(** The loop of [_load_config] over [config["api_keys"]] *)
Fixpoint override_api_keys (environ : list (string * string)) (keys : list json)
  (api_keys : json) : result json :=
  match keys with
  | [] => Ok api_keys
  | JStr key :: rest =>
      match api_key_from_environment environ key with
      | Some value =>
          match PyVal.setitem api_keys key (JStr value) with
          | Ok api_keys' => override_api_keys environ rest api_keys'
          | Raise e => Raise e
          end
      | None => override_api_keys environ rest api_keys
      end
  | key :: _ => Raise (AttributeError (PyVal.type_name key) "upper")
  end.

(** [ConfigManager._load_config] for the path [config_file] and the
    environment [environ] *)
Definition _load_config (config_file : string) (environ : list (string * string))
  : Py (list (string * json)) :=
  s <- get_state ;;
  config <-
    (if bool_decide (is_Some (files s !! config_file)) then
       try_except
         (loaded_config <- json_load_file config_file ;;
          lift (_update_nested_dict default_config loaded_config))
         (fun _ => ret default_config)
     else ret default_config) ;;
  api_keys <- lift (PyVal.getitem (JObj config) "api_keys") ;;
  keys <- lift (py_iter api_keys) ;;
  api_keys <- lift (override_api_keys environ keys api_keys) ;;
  ret (PyVal.dict_set "api_keys" api_keys config).

(** [ConfigManager]: the attributes of the object *)
Record ConfigManager : Type := mkConfigManager {
  config_file : string;
  config : list (string * json)
}.

(** [ConfigManager.save_config] *)
Definition save_config (cm : ConfigManager) : Py bool :=
  try_except
    (json_dump_file (config_file cm) (JObj (config cm)) ;;; ret true)
    (fun _ => ret false).

(** [ConfigManager.get_api_key] on the configuration as loaded *)
Definition ConfigManager_get_api_key (cm : ConfigManager) (service : string)
  : result json :=
  match PyVal.getitem (JObj (config cm)) "api_keys" with
  | Ok api_keys => PyVal.get_method api_keys service (JStr "")
  | Raise e => Raise e
  end.

(** [ConfigManager.set_api_key]: the flag returned and the object after the
    call. *)
Definition set_api_key (cm : ConfigManager) (service key : string)
  : Py (bool * ConfigManager) :=
  api_keys <- lift (PyVal.getitem (JObj (config cm)) "api_keys") ;;
  known <- lift (py_contains api_keys service) ;;
  if known then
    api_keys <- lift (PyVal.setitem api_keys service (JStr key)) ;;
    let cm := mkConfigManager (config_file cm)
                (PyVal.dict_set "api_keys" api_keys (config cm)) in
    saved <- save_config cm ;;
    ret (saved, cm)
  else ret (false, cm).

(** [ConfigManager.ensure_api_keys] *)
Definition ensure_api_keys (cm : ConfigManager) : result bool :=
  match PyVal.getitem (JObj (config cm)) "api_keys" with
  | Ok api_keys =>
      match items_method api_keys with
      | Ok items => Ok (forallb (fun kv => PyVal.truthy (snd kv)) items)
      | Raise e => Raise e
      end
  | Raise e => Raise e
  end.

Section Handlers.

Context (E : Env) (cfg : Config).

(** [upload_document] of [PenelopeUI.build_ui]; [file] is the name of the
    uploaded file, [None] when nothing was selected. *)
Definition upload_document (file : option string) : Py string :=
  match file with
  | None => ret "Please select a file to upload."
  | Some file_path =>
      try_except
        (let file_type := PyStr.lower (PyStr.after_last "." file_path) in
         if negb (existsb (String.eqb file_type) ["pdf"; "txt"; "docx"])
         then ret ("Unsupported file type: " +:+ file_type
                   +:+ ". Please upload PDF, TXT, or DOCX files.")
         else
           outcome <- process_document E file_path file_type None ;;
           if fst outcome then ret ("✅ " +:+ snd outcome)
           else ret ("❌ " +:+ snd outcome))
        (fun e => ret ("❌ Error uploading document: " +:+ exn_msg e))
  end.

(** [with open(path, "r", encoding="utf-8") as f: return f.read()]: the
    text of the file with its line endings read as line feeds; the text of
    a file that holds a JSON value is the rendering of the value. *)
Definition read_text_file (path : string) : Py string :=
  fun s =>
    if String.eqb path "" then (Raise (FileNotFoundError path), s)
    else if decide (path ∈ unreadable s) then (Raise (PermissionError path), s)
    else match files s !! path with
         | None => (Raise (FileNotFoundError path), s)
         | Some (FText t) => (Ok (PyStr.universal_newlines t), s)
         | Some (FJson j) => (Ok (PyStr.universal_newlines (repr_value E j)), s)
         end.

(** [update_debug] of [PenelopeUI.build_ui] *)
Definition update_debug : Py string :=
  try_except
    (let search_log_file := str_or (get_file_path cfg "search_log_file") "search_log.txt" in
     s <- get_state ;;
     if bool_decide (is_Some (files s !! search_log_file))
     then read_text_file search_log_file
     else ret "No search log found.")
    (fun e => ret ("Error reading search log: " +:+ exn_msg e)).

End Handlers.

(** ** Observations on the trace *)

(** The generation calls of a trace: the message and history of each. *)
Fixpoint generate_calls (t : list event) : list (string * option (list json)) :=
  match t with
  | [] => []
  | EvGenerate message history _ :: r => (message, history) :: generate_calls r
  | _ :: r => generate_calls r
  end.

(** How many times the conversation summary was computed. *)
Fixpoint summary_count (t : list event) : nat :=
  match t with
  | [] => 0
  | EvSummary _ :: r => S (summary_count r)
  | _ :: r => summary_count r
  end.

(** The queries handed to the web-search collaborator. *)
Fixpoint web_searches (t : list event) : list string :=
  match t with
  | [] => []
  | EvPerplexity q :: r => q :: web_searches r
  | _ :: r => web_searches r
  end.

(** The document batches handed to the vector store. *)
Fixpoint kb_insertions (t : list event) : list (list Document) :=
  match t with
  | [] => []
  | EvAddDocuments docs :: r => docs :: kb_insertions r
  | _ :: r => kb_insertions r
  end.

(** The candidates that pass the threshold, in the order of the search. *)
Definition survivors (threshold : spec_float) (results : list (Document * spec_float))
  : list (Document * spec_float) :=
  List.filter (fun c => above threshold (snd c)) results.

(** The state [s] with the trace [t]. *)
Definition with_trace (s : state) (t : list event) : state :=
  mkState (files s) (unreadable s) (unwritable s) t (memory s).

(** Events that are neither a generation call, nor a summary, nor a web
    search, nor an insertion into the vector store. *)
Definition quiet (evs : list event) : Prop :=
  generate_calls evs = [] /\ summary_count evs = 0
  /\ web_searches evs = [] /\ kb_insertions evs = [].

(** A computation that leaves the state as it found it. *)
Definition reads_only {A} (c : Py A) : Prop := forall s, snd (c s) = s.

(** The trace at the moment [get_response] computes the summary it uses,
    for a log of at least 10 messages: at a multiple of 10 the summary has
    already been computed once by then. *)
Definition trace_before_summary (s : state) : list event :=
  if (length (messages (memory s)) mod 10 =? 0)%nat
  then trace s ++ [EvSummary (summary_chat (memory s))]
  else trace s.

(** The first of the two summary computations of a turn, made at the
    multiples of 10 only. *)
Definition first_summary_returns (E : Env) (s : state) : bool :=
  is_ok (load_memory_variables E (trace s) (summary_chat (memory s))).

(** The files after [json_dump_file path obj] was attempted in [s]. *)
Definition files_after_dump (s : state) (path : string) (obj : json)
  : gmap string file_data :=
  if String.eqb path "" then files s
  else if decide (path ∈ unwritable s) then files s
  else <[path := FJson obj]> (files s).

(** [c] is rendered as the passage [t]. *)
Definition rendered (E : Env) (c : Document * spec_float) (t : string) : Prop :=
  format_candidate E (fst c) (snd c) = Ok t.

(** What [search_relevant_context] returns, by the answer of the vector
    store and the outcome of the loop. *)
Definition retrieval_outcome (E : Env) (cfg : Config) (s : state)
  (query : string) (top_k : Z) : string :=
  match similarity_search_with_relevance_scores E (trace s) query top_k with
  | Raise _ => retrieval_error
  | Ok results =>
      match format_results E (configured_threshold cfg) results [] with
      | Raise _ => retrieval_error
      | Ok [] => no_relevant_information
      | Ok texts => PyStr.join (NL +:+ NL) texts
      end
  end.

(** Results ranked best first *)
Definition descending (l : list (Document * spec_float)) : Prop :=
  StronglySorted (fun a b => SFleb (snd b) (snd a) = true) l.

(** The format-specific read behind [extract_text]: [None] for a declared
    type outside pdf, txt and docx. *)
Definition reader (E : Env) (t : list event) (file_path file_type : string)
  : option (result string) :=
  if String.eqb file_type "pdf" then
    Some (rbind (pdf_pages E t file_path) (fun pages => concat_pages pages ""))
  else if String.eqb file_type "txt" then Some (read_utf8 E t file_path)
  else if String.eqb file_type "docx" then Some (docx2txt_process E t file_path)
  else None.

(** A message that [_load_messages] and [ClaudeModel.get_response] can read:
    it has a role, and a content when the role is one of the two known. *)
Definition readable_message (msg : json) : bool :=
  match PyVal.getitem msg "role" with
  | Raise _ => false
  | Ok role =>
      if PyVal.eq_str role "user" || PyVal.eq_str role "assistant"
      then is_ok (PyVal.getitem msg "content")
      else true
  end.

(** ** Further observations *)

(** The searches made in the vector store: query and [k]. *)
Fixpoint kb_searches (t : list event) : list (string * Z) :=
  match t with
  | [] => []
  | EvSimilaritySearch q k :: r => (q, k) :: kb_searches r
  | _ :: r => kb_searches r
  end.

(** The HTTP requests sent to the web-search service: the bearer key and
    the query of each. *)
Fixpoint http_posts (t : list event) : list (string * string) :=
  match t with
  | [] => []
  | EvPost _ bearer q :: r => (bearer, q) :: http_posts r
  | _ :: r => http_posts r
  end.

(** The searches sent to arXiv: query and maximal number of results. *)
Fixpoint arxiv_searches (t : list event) : list (string * Z) :=
  match t with
  | [] => []
  | EvArxivSearch q n :: r => (q, n) :: arxiv_searches r
  | _ :: r => arxiv_searches r
  end.

(** The requests sent to the LLM vendor. *)
Fixpoint invocations (t : list event) : list (list lc_message) :=
  match t with
  | [] => []
  | EvInvoke msgs :: r => msgs :: invocations r
  | _ :: r => invocations r
  end.

(** The texts handed to the splitter, each with the metadata of its chunks. *)
Fixpoint splits (t : list event) : list (string * list (string * json)) :=
  match t with
  | [] => []
  | EvSplit text md :: r => (text, md) :: splits r
  | _ :: r => splits r
  end.

(** A computation that logs no call. *)
Definition keeps_trace {A} (c : Py A) : Prop := forall s, trace (snd (c s)) = trace s.

(** The calls [chat] may make: retrieval, generation without history and
    without context, web search, arXiv search, the clock. *)
Definition chat_event (ev : event) : Prop :=
  match ev with
  | EvSimilaritySearch _ _ | EvGenerate _ None None | EvInvoke _
  | EvPerplexity _ | EvPost _ _ _ | EvArxivSearch _ _ | EvTime => True
  | _ => False
  end.

(** Calls that are neither a retrieval, nor a web search, nor an arXiv
    search: generation and its request, the HTTP request, the clock. *)
Definition unobserved (ev : event) : Prop :=
  match ev with
  | EvGenerate _ _ _ | EvInvoke _ | EvPost _ _ _ | EvTime => True
  | _ => False
  end.

(** A computation that leaves the [PenelopeMemory] object alone and logs
    only calls that satisfy [P]. *)
Definition confined (P : event -> Prop) {A} (c : Py A) : Prop :=
  forall s, memory (snd (c s)) = memory s
            /\ exists evs, trace (snd (c s)) = trace s ++ evs /\ Forall P evs.

(** The summarizer's chat holds what the log holds: the user and assistant
    messages of the log, in order. *)
Definition in_sync (m : PenelopeMemory) : Prop :=
  convert_history (messages m) [] = Ok (summary_chat m).

(** The state [s] with the memory object [m]. *)
Definition with_memory (s : state) (m : PenelopeMemory) : state :=
  mkState (files s) (unreadable s) (unwritable s) (trace s) m.

(** Events of the clock only. *)
Definition clock_only (evs : list event) : Prop := Forall (eq EvTime) evs.

(** The registry file at [path] can be read, parsed as an object (or is
    missing or unparsable, which the code reads as the empty registry) and
    written. *)
Definition registry_usable (s : state) (path : string) : Prop :=
  path <> "" /\ (path ∉ unreadable s) /\ (path ∉ unwritable s)
  /\ match files s !! path with
     | Some (FJson (JObj _)) | Some (FText _) | None => True
     | Some (FJson _) => False
     end.

(** The registry held by the file at [path], as the code reads it. *)
Definition registry_of (s : state) (path : string) : list (string * json) :=
  match files s !! path with
  | Some (FJson (JObj d)) => d
  | _ => []
  end.

(** [paper.entry_id.split('/')[-1]] *)
Definition paper_id_of (p : arxiv_paper) : string :=
  PyStr.after_last "/" (entry_id p).

(** The query [search_arxiv] sends to arXiv for the query it is given. *)
Definition arxiv_query (query : string) : string :=
  if mentions_bitcoin query then query
  else query +:+ " AND (bitcoin OR blockchain OR cryptocurrency)".

(** The state after [add_message text is_human] in [st]: the message is
    appended to the summarizer's chat and to the log, and the log file is
    rewritten when it can be. *)
Definition after_message (st : state) (is_human : bool) (text : string) : state :=
  let m := memory st in
  let log := messages m
             ++ [PyVal.message (if is_human then "user" else "assistant") text] in
  mkState (files_after_dump st (memory_file m) (JArr log))
          (unreadable st) (unwritable st) (trace st)
          (mkMemory (thread_id m) log (memory_file m) (paper_details_file m)
             (summary_chat m
              ++ [if is_human then HumanMessage (JStr text)
                  else AIMessage (JStr text)])).

(** Two states with the same files, permissions and memory object. *)
Definition same_store (s1 s2 : state) : Prop :=
  files s1 = files s2 /\ unreadable s1 = unreadable s2
  /\ unwritable s1 = unwritable s2 /\ memory s1 = memory s2.

(** [f"{message}\n\n{context}"] when a context is given, the message
    otherwise: the text of the last message sent to the LLM. *)
Definition augmented (message : string) (context : option string) : string :=
  if some_text context then message +:+ NL +:+ NL +:+ default "" context
  else message.

(** The metadata [process_document] attaches to the chunks of a document. *)
Definition chunk_metadata (file_path file_type date_added : string)
  (metadata : option (list (string * json))) : list (string * json) :=
  PyVal.dict_set "file_type" (JStr file_type)
    (PyVal.dict_set "date_added" (JStr date_added)
       (PyVal.dict_set "source" (JStr file_path) (default [] metadata))).

(** The text of a page list when every page could be read. *)
Definition pages_text (pages : list (result string)) : string :=
  PyStr.join "" (map (fun p => match p with Ok t => t +:+ NL | Raise _ => "" end) pages).

(** The configuration [_load_config] holds before it consults the
    environment: the defaults, updated by the configuration file when the
    file can be read and holds an object. *)
Definition file_config (file : string) (s : state) : list (string * json) :=
  match files s !! file with
  | Some (FJson (JObj fields)) =>
      if String.eqb file "" then default_config
      else if decide (file ∈ unreadable s) then default_config
      else update_nested default_config (JObj fields)
  | _ => default_config
  end.

(** The keys [keys] of [d], in turn, set to the value of their environment
    variable when it is defined. *)
Definition with_environment (environ : list (string * string)) (keys : list string)
  (d : list (string * json)) : list (string * json) :=
  fold_left (fun d key => match api_key_from_environment environ key with
                          | Some value => PyVal.dict_set key (JStr value) d
                          | None => d
                          end) keys d.

(** What [_update_nested_dict] leaves under [key] when the update has [v]
    there and the dictionary had [old]. *)
Definition updated_entry (v : json) (old : option json) : json :=
  match v, old with
  | JObj _, Some (JObj dk) => JObj (update_nested dk v)
  | _, _ => v
  end.

(** The services of the default configuration *)
Definition services : list string := ["anthropic"; "elevenlabs"; "perplexity"; "openai"].

(** ** A concrete environment and concrete states *)

Module Sample.

Definition half : spec_float := S754_finite false 4503599627370496 (-53).
Definition tenth : spec_float := S754_finite false 7205759403792794 (-56).
Definition three_quarters : spec_float := S754_finite false 6755399441055744 (-53).

Definition note : Document :=
  mkDocument "Channels settle off-chain."
    [("source", JStr "/docs/lightning.txt"); ("file_type", JStr "txt")].
Definition paper : Document :=
  mkDocument "Payment channels."
    [("source", JStr "arxiv"); ("title", JStr "Lightning"); ("type", JStr "paper")].

(** A store holding [paper], [note] and a weak match, best first. *)
Definition hits : list (Document * spec_float) :=
  [(paper, three_quarters); (note, half); (note, tenth)].

(** [f"{x:.2f}"] on a double: the hundredths nearest to the exact value,
    ties to even. *)
Definition hundredths (m : positive) (e : Z) : Z :=
  let n := (100 * Z.pos m)%Z in
  if (0 <=? e)%Z then (n * 2 ^ e)%Z
  else
    let d := (2 ^ (- e))%Z in
    let q := (n / d)%Z in
    match (2 * (n mod d) ?= d)%Z with
    | Lt => q
    | Gt => (q + 1)%Z
    | Eq => if Z.even q then q else (q + 1)%Z
    end.

Definition two_decimals (x : spec_float) : string :=
  match x with
  | S754_zero s => (if s then "-" else "") +:+ "0.00"
  | S754_infinity s => if s then "-inf" else "inf"
  | S754_nan => "nan"
  | S754_finite s m e =>
      let h := hundredths m e in
      (if s then "-" else "") +:+ pretty (h / 100)%Z +:+ "."
      +:+ (if (h mod 100 <? 10)%Z then "0" else "") +:+ pretty (h mod 100)%Z
  end.

(** [str(x)] for the values the sample data holds where the code formats
    one: [None], the booleans and the integers. *)
Definition str_of (j : json) : string :=
  match j with
  | JNull => "None"
  | JBool true => "True"
  | JBool false => "False"
  | JInt z => pretty z
  | _ => "?"
  end.

Definition env (store : list (Document * spec_float)) : Env :=
  mkEnv (fun _ _ k => Ok (take (Z.to_nat k) store))
        (fun _ text md => Ok [mkDocument text md])
        (fun _ _ => Ok tt)
        (fun _ => Raise (AttributeError "Chroma" "persist"))
        (fun _ path => if String.eqb path "/docs/lightning.txt"
                       then Ok "Channels settle off-chain."
                       else Raise (FileNotFoundError path))
        (fun _ path => Raise (FileNotFoundError path))
        (fun _ path => Raise (FileNotFoundError path))
        (fun _ _ => Ok "A reply.")
        (fun _ _ => Ok "[]")
        (fun _ _ _ _ => Ok (mkResponse 200 "" (Ok (JObj [("text", JStr "An answer.")]))))
        (fun _ _ _ => Ok [])
        (fun _ => "2025-01-01 00:00:00")
        (fun _ => half)
        (fun t => "session-" +:+ pretty (length t))
        two_decimals
        (PyStr.after_last "/")
        str_of.

Definition config : Config :=
  mkConfig [("perplexity", "key")] None
           [("memory_file", "conversation_history.json");
            ("paper_details_file", "paper_details.json");
            ("search_log_file", "search_log.txt")].

Definition turns (n : nat) : list json :=
  List.concat (List.repeat [PyVal.message "user" "hi"; PyVal.message "assistant" "hello"] n).

Definition spoken (n : nat) : list lc_message :=
  List.concat (List.repeat [HumanMessage (JStr "hi"); AIMessage (JStr "hello")] n).

Definition registry : json :=
  JObj [("2201.12345",
         JObj [("id", JStr "2201.12345"); ("title", JStr "Lightning");
               ("authors", JStr "A. Author"); ("url", JStr "http://arxiv.org/pdf/2201.12345");
               ("summary", JStr "Payment channels."); ("last_accessed", JFloat half)])].

(** A process whose log holds [n] turns and whose registry holds one paper. *)
Definition after_turns (n : nat) : state :=
  mkState {[ "paper_details.json" := FJson registry ]} ∅ ∅ []
          (mkMemory "session-0" (turns n) "conversation_history.json"
                    "paper_details.json" (spoken n)).

End Sample.

(** Further concrete data: a process without API key, a web-search
    service and an arXiv that answer as told, a configuration file. *)
Module Fixture.

Definition offline : Config := mkConfig [] None [].

Definition found : arxiv_paper :=
  mkPaper "http://arxiv.org/abs/2301.00001v1" "Channels" ["B. Author"]
          "http://arxiv.org/pdf/2301.00001v1" "Channels scale payments."
          "2023-01-01" ["cs.CR"].

Definition env (post : result http_response) (papers : result (list arxiv_paper)) : Env :=
  mkEnv (fun _ _ _ => Ok [])
        (fun _ text md => Ok [mkDocument text md])
        (fun _ _ => Ok tt)
        (fun _ => Raise (AttributeError "Chroma" "persist"))
        (fun _ path => Raise (FileNotFoundError path))
        (fun _ path => if String.eqb path "/docs/paper.pdf"
                       then Ok [Ok "Page one."; Ok "Page two."]
                       else if String.eqb path "/docs/scan.pdf"
                       then Ok [Ok "Page one."; Raise (Exn "PdfReadError" "bad page")]
                       else Raise (FileNotFoundError path))
        (fun _ path => Raise (FileNotFoundError path))
        (fun _ _ => Ok "A reply.")
        (fun _ _ => Ok "[]")
        (fun _ _ _ _ => post)
        (fun _ _ _ => papers)
        (fun _ => "2025-01-01 00:00:00")
        (fun _ => Sample.half)
        (fun t => "session-" +:+ pretty (length t))
        Sample.two_decimals
        (PyStr.after_last "/")
        Sample.str_of.

Definition unavailable : http_response := mkResponse 503 "Service Unavailable" (Ok JNull).

Definition settings : json :=
  JObj [("api_keys", JObj [("perplexity", JStr "from-file")]);
        ("models", JObj [("temperature", JFloat Sample.half)])].

(** A process whose configuration file holds [settings]. *)
Definition configured : state :=
  mkState {[ "config.json" := FJson settings ]} ∅ ∅ []
          (mkMemory "session-0" [] "conversation_history.json" "paper_details.json" []).

Definition environ : list (string * string) := [("PERPLEXITY_API_KEY", "from-env")].

Definition manager : ConfigManager := mkConfigManager "config.json" default_config.

End Fixture.

(** ** Facts about the value model *)

Lemma SFcompare_antisym (a b : spec_float) :
  SFcompare b a = option_map CompOpp (SFcompare a b).
Proof.
  destruct a as [sa|sa| |sa ma ea], b as [sb|sb| |sb mb eb]; simpl;
    try reflexivity; try (destruct sa; reflexivity); try (destruct sb; reflexivity);
    try (destruct sa, sb; reflexivity).
  assert (Hm : Pos.compare_cont Eq mb ma = CompOpp (Pos.compare_cont Eq ma mb))
    by (symmetry; apply (Pos.compare_cont_antisym ma mb Eq)).
  destruct sa, sb; simpl; try reflexivity;
    rewrite (Z.compare_antisym ea eb), Hm;
    destruct (ea ?= eb)%Z; simpl; try reflexivity;
    destruct (Pos.compare_cont Eq ma mb); reflexivity.
Qed.

(** A score strictly above the threshold is not at or below it. *)
Lemma above_not_at_or_below (threshold score : spec_float) :
  above threshold score = true -> SFleb score threshold = false.
Proof.
  unfold above, SFltb, SFleb. rewrite (SFcompare_antisym threshold score).
  destruct (SFcompare threshold score) as [[]|]; simpl; congruence.
Qed.

Lemma rstrip_keeps_text (c : ascii) (r : string) :
  PyStr.isspace c = false -> PyStr.rstrip (String c r) <> "".
Proof.
  intros Hc. simpl. rewrite Hc. destruct (PyStr.rstrip r); discriminate.
Qed.

Lemma strip_keeps_text (c : ascii) (r : string) :
  PyStr.isspace c = false -> PyStr.strip (String c r) <> "".
Proof.
  intros Hc. unfold PyStr.strip. simpl PyStr.lstrip. rewrite Hc.
  now apply rstrip_keeps_text.
Qed.

Lemma join_first_char (sep : string) (c : ascii) (r : string) (rest : list string) :
  exists tail, PyStr.join sep (String c r :: rest) = String c tail.
Proof. destruct rest; simpl; eauto. Qed.

Lemma survivors_sublist (threshold : spec_float) (results : list (Document * spec_float)) :
  sublist (survivors threshold results) results.
Proof.
  induction results as [|c results IH]; simpl.
  - constructor.
  - unfold survivors in *. simpl. destruct (above threshold (snd c)); now constructor.
Qed.

Lemma survivors_above (threshold : spec_float) (results : list (Document * spec_float)) :
  Forall (fun c => above threshold (snd c) = true) (survivors threshold results).
Proof.
  unfold survivors. apply Forall_forall. intros c Hc.
  apply list_elem_of_In, filter_In in Hc. tauto.
Qed.

Lemma sublist_Forall_inherit {A} (P : A -> Prop) (l k : list A) :
  sublist l k -> Forall P k -> Forall P l.
Proof.
  induction 1 as [|x l k Hs IH|x l k Hs IH]; intros Hk; inversion Hk; subst; auto.
Qed.

Lemma StronglySorted_sublist {A} (R : A -> A -> Prop) (l k : list A) :
  sublist l k -> StronglySorted R k -> StronglySorted R l.
Proof.
  induction 1 as [|x l k Hs IH|x l k Hs IH]; intros Hk.
  - constructor.
  - inversion Hk as [|? ? Hk' Hx]; subst. constructor; [now apply IH|].
    now apply (sublist_Forall_inherit _ l k).
  - inversion Hk; subst. auto.
Qed.

(** ** Retrieval: [KnowledgeBase.search_relevant_context] *)

Section Retrieval.

Context (E : Env) (cfg : Config).

Lemma format_candidate_starts (d : Document) (score : spec_float) (t : string) :
  format_candidate E d score = Ok t -> exists r, t = String "S" r.
Proof.
  unfold format_candidate.
  destruct (PyVal.truthy _).
  - intros [= <-]. eexists. reflexivity.
  - destruct (basename_of _ _); [|discriminate].
    intros [= <-]. eexists. reflexivity.
Qed.

Lemma format_results_complete (threshold : spec_float)
  (results : list (Document * spec_float)) :
  forall acc texts,
    Forall2 (rendered E) (survivors threshold results) texts ->
    format_results E threshold results acc = Ok (acc ++ texts).
Proof.
  induction results as [|[d score] results IH]; intros acc texts H; simpl in *.
  - inversion H; subst. now rewrite app_nil_r.
  - unfold survivors in H. simpl in H.
    destruct (above threshold score).
    + inversion H as [|? t ? texts' Hr Hrest]; subst.
      unfold rendered in Hr. simpl in Hr. rewrite Hr.
      rewrite (IH (acc ++ [t]) texts' Hrest). now rewrite <- app_assoc.
    + now apply IH.
Qed.

Lemma format_results_sound (threshold : spec_float)
  (results : list (Document * spec_float)) :
  forall acc out,
    format_results E threshold results acc = Ok out ->
    exists texts, out = acc ++ texts
                  /\ Forall2 (rendered E) (survivors threshold results) texts.
Proof.
  induction results as [|[d score] results IH]; intros acc out H; simpl in *.
  - inversion H; subst. exists []. split; [now rewrite app_nil_r | constructor].
  - unfold survivors. simpl.
    destruct (above threshold score).
    + destruct (format_candidate E d score) as [t|] eqn:Ht; [|discriminate].
      destruct (IH _ _ H) as (texts & -> & Hall).
      exists (t :: texts). split; [now rewrite <- app_assoc|].
      constructor; [exact Ht | exact Hall].
    + now apply IH.
Qed.

Lemma search_relevant_context_run (s : state) (query : string) (top_k : Z) :
  search_relevant_context E cfg query top_k s
  = (Ok (retrieval_outcome E cfg s query top_k),
     mkState (files s) (unreadable s) (unwritable s)
             (trace s ++ [EvSimilaritySearch query top_k]) (memory s)).
Proof.
  unfold search_relevant_context, retrieval_outcome, try_except, bind, vendor,
    get_state, emit, lift, ret. simpl.
  destruct (similarity_search_with_relevance_scores E (trace s) query top_k)
    as [results|e]; [|reflexivity].
  destruct (format_results E (configured_threshold cfg) results []) as [[|t ts]|e];
    reflexivity.
Qed.

Lemma retrieval_outcome_content (s : state) (query : string) (top_k : Z) :
  has_kb_content (retrieval_outcome E cfg s query top_k) = true.
Proof.
  assert (Hgen : forall c r, PyStr.isspace c = false ->
                             has_kb_content (String c r) = true).
  { intros c r Hc. unfold has_kb_content. simpl PyStr.truthy.
    pose proof (strip_keeps_text c r Hc) as Hne.
    destruct (PyStr.strip (String c r)); [congruence | reflexivity]. }
  unfold retrieval_outcome.
  destruct (similarity_search_with_relevance_scores E (trace s) query top_k)
    as [results|e]; [|reflexivity].
  destruct (format_results E (configured_threshold cfg) results [])
    as [[|t ts]|e] eqn:Hf; try reflexivity.
  destruct (format_results_sound _ _ _ _ Hf) as (texts & Heq & Hall).
  simpl in Heq. subst texts.
  destruct (survivors (configured_threshold cfg) results) as [|c cs];
    inversion Hall as [|? ? ? ? Hr _]; subst.
  destruct (format_candidate_starts _ _ _ Hr) as (r & ->).
  destruct (join_first_char (NL +:+ NL) "S" r ts) as (tail & ->).
  now apply Hgen.
Qed.

(** C4: no candidate whose score is at or below the configured threshold
    (the value of [relevance_threshold] in the knowledge-base settings,
    and the double nearest to 0.2, 7205759403792794 * 2^-55, when the
    settings hold none) is rendered; the rendered candidates are exactly
    the ones whose score is above it, in the order of the similarity search
    (so best first when the search ranks best first); the output is the
    fixed sentinel, not the empty string, when none survives, the empty
    store included. *)
Theorem retrieval_respects_threshold (s : state) (query : string) (top_k : Z)
  (results : list (Document * spec_float)) :
  similarity_search_with_relevance_scores E (trace s) query top_k = Ok results ->
  let threshold := match relevance_threshold cfg with
                   | Some configured => configured
                   | None => S754_finite false 7205759403792794 (-55)
                   end in
  let kept := List.filter (fun c => SFltb threshold (snd c)) results in
  let out := fst (search_relevant_context E cfg query top_k s) in
  Forall (fun c => SFleb (snd c) threshold = false) kept
  /\ (forall c, In c results -> SFleb (snd c) threshold = true -> ~ In c kept)
  /\ sublist kept results
  /\ (descending results -> descending kept)
  /\ (forall texts, kept <> [] -> Forall2 (rendered E) kept texts ->
        out = Ok (PyStr.join (NL +:+ NL) texts))
  /\ (kept = [] -> out = Ok "No relevant information found in knowledge base.")
  /\ (results = [] -> out = Ok "No relevant information found in knowledge base.")
  /\ "No relevant information found in knowledge base." <> "".
Proof.
  intros Hsearch. cbv zeta.
  set (threshold := match relevance_threshold cfg with
                    | Some configured => configured
                    | None => S754_finite false 7205759403792794 (-55)
                    end).
  assert (Hthreshold : configured_threshold cfg = threshold).
  { unfold configured_threshold, threshold.
    destruct (relevance_threshold cfg); reflexivity. }
  change (List.filter (fun c => SFltb threshold (snd c)) results)
    with (survivors threshold results).
  assert (Habove : Forall (fun c => SFleb (snd c) threshold = false)
                     (survivors threshold results)).
  { eapply Forall_impl; [apply survivors_above|].
    intros c Hc. now apply above_not_at_or_below. }
  rewrite search_relevant_context_run. unfold retrieval_outcome. rewrite Hsearch.
  cbn [fst]. rewrite Hthreshold.
  split; [exact Habove|]. split.
  { intros c _ Hbelow Hin. rewrite Forall_forall in Habove.
    apply list_elem_of_In in Hin. specialize (Habove c Hin). congruence. }
  split; [apply survivors_sublist|]. split.
  { intros Hd. eapply StronglySorted_sublist; [apply survivors_sublist | exact Hd]. }
  split.
  { intros texts Hne Hall.
    rewrite (format_results_complete threshold results [] texts Hall). simpl.
    destruct texts; [|reflexivity].
    inversion Hall as [Hk|]. congruence. }
  split.
  { intros Hk.
    now rewrite (format_results_complete threshold results [] [])
      by (rewrite Hk; constructor). }
  split; [intros ->; reflexivity | discriminate].
Qed.


End Retrieval.

Lemma retrieval_respects_threshold_witness :
  fst (search_relevant_context (Sample.env Sample.hits) Sample.config "lightning" 5
         (Sample.after_turns 0))
  = Ok (PyStr.join (NL +:+ NL)
          [ "Source: Lightning (paper)" +:+ NL +:+ "Relevance: 0.75" +:+ NL
            +:+ "Content: Payment channels." +:+ NL;
            "Source: lightning.txt (txt)" +:+ NL +:+ "Relevance: 0.50" +:+ NL
            +:+ "Content: Channels settle off-chain." +:+ NL ])
  /\ fst (search_relevant_context (Sample.env Sample.hits)
            (mkConfig [] (Some Sample.half) []) "lightning" 5 (Sample.after_turns 0))
     = Ok ("Source: Lightning (paper)" +:+ NL +:+ "Relevance: 0.75" +:+ NL
           +:+ "Content: Payment channels." +:+ NL).
Proof.
  split.
  - destruct (retrieval_respects_threshold (Sample.env Sample.hits) Sample.config
                (Sample.after_turns 0) "lightning" 5 Sample.hits eq_refl)
      as (_ & _ & _ & _ & H & _).
    apply H.
    + discriminate.
    + repeat constructor.
  - destruct (retrieval_respects_threshold (Sample.env Sample.hits)
                (mkConfig [] (Some Sample.half) []) (Sample.after_turns 0)
                "lightning" 5 Sample.hits eq_refl)
      as (_ & _ & _ & _ & H & _).
    apply (H ["Source: Lightning (paper)" +:+ NL +:+ "Relevance: 0.75" +:+ NL
              +:+ "Content: Payment channels." +:+ NL]).
    + discriminate.
    + repeat constructor.
Defined.


(** ** Ingestion: [KnowledgeBase.process_document] *)

Section Ingestion.

Context (E : Env).

(** A handler that returns makes the whole [try] return. *)
Lemma try_except_returns {A} (c : Py A) (h : exn -> Py A) (s : state) :
  (forall e s1, exists a s2, h e s1 = (Ok a, s2)) ->
  exists a s2, try_except c h s = (Ok a, s2).
Proof.
  intros Hh. unfold try_except.
  destruct (c s) as [[a|e] s1]; [eauto | apply Hh].
Qed.

(** [extract_text] returns the text read, [None] when the type is not
    supported or the read raises; it never raises itself. *)
Lemma extract_text_run (s : state) (file_path file_type : string) :
  exists s1,
    extract_text E file_path file_type s
    = (Ok (match reader E (trace s) file_path file_type with
           | Some (Ok text) => Some text
           | _ => None
           end), s1).
Proof.
  unfold extract_text, extract_text_from_pdf, reader, try_except, bind, vendor,
    get_state, emit, lift, ret, rbind.
  destruct (String.eqb file_type "pdf").
  { simpl. destruct (pdf_pages E (trace s) file_path) as [pages|e];
      [|eexists; reflexivity].
    destruct (concat_pages pages "") as [text|e]; eexists; reflexivity. }
  destruct (String.eqb file_type "txt").
  { simpl. destruct (read_utf8 E (trace s) file_path); eexists; reflexivity. }
  destruct (String.eqb file_type "docx").
  { simpl. destruct (docx2txt_process E (trace s) file_path); eexists; reflexivity. }
  eexists; reflexivity.
Qed.

Lemma reader_unsupported (t : list event) (file_path file_type : string) :
  ~ In file_type ["pdf"; "txt"; "docx"] -> reader E t file_path file_type = None.
Proof.
  intros Hnot. unfold reader.
  destruct (String.eqb_spec file_type "pdf") as [->|_];
    [exfalso; apply Hnot; simpl; auto|].
  destruct (String.eqb_spec file_type "txt") as [->|_];
    [exfalso; apply Hnot; simpl; auto|].
  destruct (String.eqb_spec file_type "docx") as [->|_];
    [exfalso; apply Hnot; simpl; auto|].
  reflexivity.
Qed.

Lemma process_document_no_text (s : state) (file_path file_type : string)
  (metadata : option (list (string * json))) :
  (forall text, reader E (trace s) file_path file_type <> Some (Ok text)) ->
  fst (process_document E file_path file_type metadata s)
  = Ok (false, "Failed to extract text from document").
Proof.
  intros Hfail. unfold process_document, try_except, bind.
  destruct (extract_text_run s file_path file_type) as (s1 & ->).
  destruct (reader E (trace s) file_path file_type) as [[text|e]|];
    [exfalso; now apply (Hfail text) | reflexivity | reflexivity].
Qed.

(** C7: ingestion returns a pair (flag, message) in every case, so nothing
    is raised past it; for a declared type outside pdf, txt and docx, and
    for a file whose format-specific read raises, the flag is [False] and
    the message says that no text could be extracted. *)
Theorem ingestion_reports_failure (s : state) (file_path file_type : string)
  (metadata : option (list (string * json))) :
  (exists success message,
      fst (process_document E file_path file_type metadata s) = Ok (success, message))
  /\ (~ In file_type ["pdf"; "txt"; "docx"] ->
      fst (process_document E file_path file_type metadata s)
      = Ok (false, "Failed to extract text from document"))
  /\ (forall e,
        reader E (trace s) file_path file_type = Some (Raise e) ->
        fst (process_document E file_path file_type metadata s)
        = Ok (false, "Failed to extract text from document")).
Proof.
  split; [|split].
  - unfold process_document.
    match goal with
    | |- context [try_except ?c ?h s] =>
        destruct (try_except_returns c h s) as ([success message] & s2 & ->)
    end.
    + intros e s1. eexists (_, _), s1. reflexivity.
    + exists success, message. reflexivity.
  - intros Hnot. apply process_document_no_text.
    rewrite (reader_unsupported _ _ _ Hnot). discriminate.
  - intros e He. apply process_document_no_text. rewrite He. discriminate.
Qed.

End Ingestion.

Lemma ingestion_reports_failure_witness :
  fst (process_document (Sample.env []) "/docs/notes.md" "md" None (Sample.after_turns 0))
  = Ok (false, "Failed to extract text from document")
  /\ fst (process_document (Sample.env []) "/docs/missing.pdf" "pdf" None
            (Sample.after_turns 0))
     = Ok (false, "Failed to extract text from document").
Proof.
  split.
  - apply (ingestion_reports_failure (Sample.env []) (Sample.after_turns 0)
             "/docs/notes.md" "md" None).
    simpl. intros [H|[H|[H|[]]]]; discriminate H.
  - apply (proj2 (proj2 (ingestion_reports_failure (Sample.env [])
                           (Sample.after_turns 0) "/docs/missing.pdf" "pdf" None))
             (FileNotFoundError "/docs/missing.pdf")).
    reflexivity.
Defined.

(** ** Observations distribute over the concatenation of traces *)

Lemma generate_calls_app (t u : list event) :
  generate_calls (t ++ u) = generate_calls t ++ generate_calls u.
Proof.
  induction t as [|ev t IH]; [reflexivity|].
  destruct ev; simpl; rewrite IH; reflexivity.
Qed.

Lemma summary_count_app (t u : list event) :
  summary_count (t ++ u) = summary_count t + summary_count u.
Proof.
  induction t as [|ev t IH]; [reflexivity|].
  destruct ev; simpl; rewrite IH; reflexivity.
Qed.

Lemma web_searches_app (t u : list event) :
  web_searches (t ++ u) = web_searches t ++ web_searches u.
Proof.
  induction t as [|ev t IH]; [reflexivity|].
  destruct ev; simpl; rewrite IH; reflexivity.
Qed.

Lemma kb_insertions_app (t u : list event) :
  kb_insertions (t ++ u) = kb_insertions t ++ kb_insertions u.
Proof.
  induction t as [|ev t IH]; [reflexivity|].
  destruct ev; simpl; rewrite IH; reflexivity.
Qed.

(** ** The generation call: [ClaudeModel.get_response] *)

Section Generation.

Context (E : Env).

(** The call returns in every case; it logs itself, then at most the
    request sent to the vendor, and touches neither files nor memory. *)
Lemma ClaudeModel_get_response_run (message : string)
  (history : option (list json)) (context : option string) (s : state) :
  exists reply evs,
    ClaudeModel_get_response E message history context s
    = (Ok reply, with_trace s (trace s ++ EvGenerate message history context :: evs))
    /\ quiet evs.
Proof.
  unfold ClaudeModel_get_response, try_except, bind, vendor, get_state, emit,
    lift, ret, with_trace, quiet. simpl.
  destruct (convert_history _ _) as [msgs|e].
  - simpl.
    match goal with |- context [invoke E ?t ?m] => destruct (invoke E t m) end;
      eexists _, [_]; rewrite <- app_assoc; simpl; repeat split; reflexivity.
  - eexists _, []. repeat split; reflexivity.
Qed.

End Generation.

(** ** Computations that only read *)

Lemma reads_only_ret {A} (a : A) : reads_only (ret a).
Proof. intros s. reflexivity. Qed.

Lemma reads_only_raise {A} (e : exn) : reads_only (@raise A e).
Proof. intros s. reflexivity. Qed.

Lemma reads_only_lift {A} (r : result A) : reads_only (lift r).
Proof. intros s. reflexivity. Qed.

Lemma reads_only_get_memory : reads_only get_memory.
Proof. intros s. reflexivity. Qed.

Lemma reads_only_bind {A B} (c : Py A) (k : A -> Py B) :
  reads_only c -> (forall a, reads_only (k a)) -> reads_only (bind c k).
Proof.
  intros Hc Hk s. unfold bind. specialize (Hc s).
  destruct (c s) as [[a|e] s1]; simpl in Hc; subst s1; [apply Hk | reflexivity].
Qed.

Lemma reads_only_try_except {A} (c : Py A) (h : exn -> Py A) :
  reads_only c -> (forall e, reads_only (h e)) -> reads_only (try_except c h).
Proof.
  intros Hc Hh s. unfold try_except. specialize (Hc s).
  destruct (c s) as [[a|e] s1]; simpl in Hc; subst s1; [reflexivity | apply Hh].
Qed.

Lemma reads_only_try_except_only {A} (catches : exn -> bool) (c : Py A)
  (h : exn -> Py A) :
  reads_only c -> (forall e, reads_only (h e)) ->
  reads_only (try_except_only catches c h).
Proof.
  intros Hc Hh s. unfold try_except_only. specialize (Hc s).
  destruct (c s) as [[a|e] s1]; simpl in Hc; subst s1; [reflexivity|].
  destruct (catches e); [apply Hh | reflexivity].
Qed.

Lemma reads_only_json_load_file (path : string) : reads_only (json_load_file path).
Proof.
  intros s. unfold json_load_file.
  destruct (String.eqb path ""); [reflexivity|].
  destruct (decide _); [reflexivity|].
  destruct (files s !! path) as [[]|]; reflexivity.
Qed.

Lemma reads_only_if {A} (b : bool) (c d : Py A) :
  reads_only c -> reads_only d -> reads_only (if b then c else d).
Proof. destruct b; auto. Qed.

Create HintDb reads_only.
#[local] Hint Resolve reads_only_ret reads_only_raise reads_only_lift
  reads_only_get_memory reads_only_json_load_file : reads_only.
#[local] Hint Extern 2 (reads_only (bind _ _)) =>
  apply reads_only_bind; [|intros ?] : reads_only.
#[local] Hint Extern 2 (reads_only (try_except _ _)) =>
  apply reads_only_try_except; [|intros ?] : reads_only.
#[local] Hint Extern 2 (reads_only (try_except_only _ _ _)) =>
  apply reads_only_try_except_only; [|intros ?] : reads_only.
#[local] Hint Extern 3 (reads_only (if _ then _ else _)) =>
  apply reads_only_if : reads_only.

(** ** Conversation memory: [PenelopeMemory] *)

Section Memory.

Context (E : Env).

Lemma reads_only__get_paper_details : reads_only _get_paper_details.
Proof. unfold _get_paper_details. auto 10 with reads_only. Qed.

(** The paper context is text in every case, and reading it changes
    nothing. *)
Lemma get_paper_details_context_run (s : state) :
  exists text, get_paper_details_context E s = (Ok text, s).
Proof.
  assert (Hro : reads_only (get_paper_details_context E)).
  { unfold get_paper_details_context.
    pose proof reads_only__get_paper_details. auto 10 with reads_only. }
  specialize (Hro s).
  unfold get_paper_details_context in *.
  match goal with
  | |- context [try_except ?c ?h s] =>
      destruct (try_except_returns c h s) as (text & s2 & Heq)
  end.
  - intros e s1. eexists _, s1. reflexivity.
  - rewrite Heq in *. simpl in Hro. subst s2. eauto.
Qed.

(** [add_message] appends to the log and to the summarizer's chat, in
    that order of roles, rewrites the log file when it can, and returns. *)
Lemma add_message_run (message : string) (is_human : bool) (s : state) :
  exists fs,
    add_message message is_human s
    = (Ok tt,
       mkState fs (unreadable s) (unwritable s) (trace s)
         (mkMemory (thread_id (memory s))
            (messages (memory s)
             ++ [PyVal.message (if is_human then "user" else "assistant") message])
            (memory_file (memory s)) (paper_details_file (memory s))
            (summary_chat (memory s)
             ++ [if is_human then HumanMessage (JStr message)
                 else AIMessage (JStr message)]))).
Proof.
  unfold add_message, _save_messages, add_chat, set_messages, set_summary_chat,
    try_except, bind, get_memory, set_memory, json_dump_file, ret.
  destruct is_human; simpl;
    (destruct (String.eqb _ ""); [eexists; reflexivity|]);
    (destruct (decide _); eexists; reflexivity).
Qed.

Lemma compute_summary_run (s : state) :
  compute_summary E s
  = (load_memory_variables E (trace s) (summary_chat (memory s)),
     with_trace s (trace s ++ [EvSummary (summary_chat (memory s))])).
Proof. reflexivity. Qed.

(** One step of a run of [get_response]: replace the next call by what
    its run lemma says of it. *)
Ltac step :=
  cbv beta iota;
  match goal with
  | |- context [get_paper_details_context E ?st] =>
      let text := fresh "text" in
      let H := fresh "Hpapers" in
      destruct (get_paper_details_context_run st) as (text & H); rewrite H; clear H
  | |- context [ClaudeModel_get_response E ?a ?b ?c ?st] =>
      let reply := fresh "reply" in
      let evs := fresh "evs" in
      let H := fresh "Hgen" in
      let Hq := fresh "Hquiet" in
      destruct (ClaudeModel_get_response_run E a b c st) as (reply & evs & H & Hq);
      rewrite H; clear H
  | |- context [add_message ?a ?b ?st] =>
      let fs := fresh "fs" in
      let H := fresh "Hadd" in
      destruct (add_message_run a b st) as (fs & H); rewrite H; clear H
  | |- context [compute_summary E ?st] => rewrite (compute_summary_run st)
  end;
  cbv beta iota.

Ltac observe :=
  cbn [snd fst trace with_trace memory];
  rewrite ?generate_calls_app, ?summary_count_app;
  cbn [generate_calls summary_count];
  repeat match goal with
    | H : quiet _ |- _ => destruct H as (-> & -> & _ & _)
    end;
  rewrite ?app_nil_r, ?Nat.add_0_r.

(** A turn on a log of fewer than 10 messages: one generation call, with
    the log itself as history, and no summary. *)
Lemma get_response_verbatim (s : state) (query : string) (context : option string) :
  length (messages (memory s)) < 10 ->
  let s' := snd (get_response E query context s) in
  generate_calls (trace s')
  = generate_calls (trace s) ++ [(query, Some (messages (memory s)))]
  /\ summary_count (trace s') = summary_count (trace s).
Proof.
  intros Hn. cbv zeta. unfold get_response, try_except, bind, get_memory, ret.
  cbv beta iota.
  replace (10 <=? length (messages (memory s)))%nat with false
    by (symmetry; apply Nat.leb_gt; lia).
  cbn [andb]. repeat step. observe. split; reflexivity.
Qed.

(** A turn on a log of 10 messages or more: the summary is computed
    before the generation call, and once more before that at the
    multiples of 10; the generation call, made when the summarizer
    returns, receives the history built from the summary. *)
Lemma get_response_summarized (s : state) (query : string) (context : option string) :
  10 <= length (messages (memory s)) ->
  let n := length (messages (memory s)) in
  let s' := snd (get_response E query context s) in
  (generate_calls (trace s'), summary_count (trace s'))
  = if (n mod 10 =? 0)%nat && negb (first_summary_returns E s)
    then (generate_calls (trace s), summary_count (trace s) + 1)
    else
      (match load_memory_variables E (trace_before_summary s)
               (summary_chat (memory s)) with
       | Ok summary =>
           generate_calls (trace s) ++ [(query, Some (summary_history summary))]
       | Raise _ => generate_calls (trace s)
       end,
       summary_count (trace s) + (if (n mod 10 =? 0)%nat then 2 else 1)).
Proof.
  intros Hn. cbv zeta. unfold get_response, try_except, bind, get_memory, ret.
  cbv beta iota.
  replace (10 <=? length (messages (memory s)))%nat with true
    by (symmetry; apply Nat.leb_le; lia).
  cbn [andb]. unfold first_summary_returns, trace_before_summary.
  destruct (length (messages (memory s)) mod 10 =? 0)%nat eqn:Hmod; cbn [andb].
  - step. cbn [trace with_trace memory].
    destruct (load_memory_variables E (trace s) (summary_chat (memory s)))
      as [s0|e0] eqn:H1; cbn [is_ok negb].
    + step. step. cbn [trace with_trace memory].
      destruct (load_memory_variables E
                  (trace s ++ [EvSummary (summary_chat (memory s))])
                  (summary_chat (memory s))) as [summary|e1].
      * repeat step. observe. f_equal. lia.
      * observe. f_equal. lia.
    + observe. reflexivity.
  - step. step. cbn [trace with_trace memory].
    destruct (load_memory_variables E (trace s) (summary_chat (memory s)))
      as [summary|e1].
    + repeat step. observe. reflexivity.
    + observe. reflexivity.
Qed.

(** C3: with fewer than 10 stored messages the generation call receives
    the full message list as history; with 10 or more, every generation
    call of the turn receives, in place of the log, a history of exactly
    two messages: a user message whose content is the line "Here's a
    summary of our conversation so far:" followed by the summary and an
    empty line, then an assistant message with the fixed acknowledgement;
    one such call is made whenever the summarizer returns, with the
    summary it returned. *)
Theorem get_response_history (s : state) (query : string) (context : option string) :
  let m := memory s in
  let s' := snd (get_response E query context s) in
  let two_messages (summary : string) : list json :=
    [ JObj [("role", JStr "user");
            ("content", JStr ("Here's a summary of our conversation so far:" +:+ NL
                              +:+ summary +:+ NL +:+ NL))];
      JObj [("role", JStr "assistant");
            ("content", JStr "I understand the conversation context and the papers we've discussed. What would you like to know next?")] ] in
  (length (messages m) < 10 ->
   generate_calls (trace s')
   = generate_calls (trace s) ++ [(query, Some (messages m))])
  /\ (10 <= length (messages m) ->
      (exists new,
          generate_calls (trace s') = generate_calls (trace s) ++ new
          /\ Forall (fun c => (exists summary, c = (query, Some (two_messages summary)))
                              /\ snd c <> Some (messages m)) new)
      /\ (forall summary,
            (length (messages m) mod 10 = 0 -> first_summary_returns E s = true) ->
            load_memory_variables E (trace_before_summary s) (summary_chat m)
            = Ok summary ->
            generate_calls (trace s')
            = generate_calls (trace s) ++ [(query, Some (two_messages summary))])).
Proof.
  cbv zeta. split.
  - intros Hn. apply (get_response_verbatim s query context Hn).
  - intros Hn.
    pose proof (get_response_summarized s query context Hn) as H. cbv zeta in H.
    split.
    + destruct (_ && _) in H.
      * exists []. injection H as -> _. rewrite app_nil_r. split; constructor.
      * destruct (load_memory_variables E (trace_before_summary s) _) as [summary|e];
          injection H as -> _.
        -- eexists [_]. split; [reflexivity|]. constructor; [|constructor].
           split; [exists summary; reflexivity|].
           cbn [snd]. intros [= Hlog]. rewrite <- Hlog in Hn. simpl in Hn. lia.
        -- exists []. rewrite app_nil_r. split; constructor.
    + intros summary Hfirst Hsum. rewrite Hsum in H.
      destruct (length (messages (memory s)) mod 10 =? 0)%nat eqn:Hmod.
      * rewrite Hfirst in H by (now apply Nat.eqb_eq). cbn in H.
        now injection H as -> _.
      * cbn in H. now injection H as -> _.
Qed.

(** C6 (as the code behaves): on every turn that starts with 10 stored
    messages or more the summary is computed, and twice at the multiples
    of 10 when the first computation returns; below 10 it is not
    computed. *)
Theorem summary_computed_on_every_turn (s : state) (query : string)
  (context : option string) :
  let n := length (messages (memory s)) in
  let s' := snd (get_response E query context s) in
  (10 <= n ->
   summary_count (trace s')
   = summary_count (trace s)
     + (if (n mod 10 =? 0)%nat
        then (if first_summary_returns E s then 2 else 1)
        else 1))
  /\ (n < 10 -> summary_count (trace s') = summary_count (trace s)).
Proof.
  cbv zeta. split.
  - intros Hn.
    pose proof (get_response_summarized s query context Hn) as H. cbv zeta in H.
    destruct (length (messages (memory s)) mod 10 =? 0)%nat;
      destruct (first_summary_returns E s); cbn in H; now injection H as _ ->.
  - intros Hn. apply (get_response_verbatim s query context Hn).
Qed.

End Memory.

(** ** Persistence: the message log and the paper registry *)

Lemma dict_get_set_eq (k : string) (v : json) (d : list (string * json)) :
  PyVal.dict_get k (PyVal.dict_set k v d) = Some v.
Proof.
  induction d as [|[k' v'] d IH]; simpl.
  - now rewrite String.eqb_refl.
  - destruct (String.eqb k' k) eqn:Hk; simpl.
    + now rewrite String.eqb_refl.
    + now rewrite Hk.
Qed.

Lemma dict_get_set_ne (k other : string) (v : json) (d : list (string * json)) :
  other <> k -> PyVal.dict_get other (PyVal.dict_set k v d) = PyVal.dict_get other d.
Proof.
  intros Hne. induction d as [|[k' v'] d IH]; simpl.
  - destruct (String.eqb_spec k other); [congruence | reflexivity].
  - destruct (String.eqb_spec k' k) as [->|Hk]; simpl.
    + destruct (String.eqb_spec k other); [congruence | reflexivity].
    + destruct (String.eqb k' other); [reflexivity | exact IH].
Qed.

(** Replaying a log into the summarizer leaves the log itself alone. *)
Lemma replay_keeps_messages (l : list json) :
  forall s, messages (memory (snd (for_each l replay_message s))) = messages (memory s).
Proof.
  induction l as [|msg l IH]; intros s; [reflexivity|].
  simpl. unfold bind at 1.
  destruct (replay_message msg s) as [[[]|e] s1] eqn:Hmsg.
  - rewrite IH. 
    revert Hmsg. unfold replay_message, add_chat, set_summary_chat, bind, lift,
      get_memory, set_memory, ret.
    destruct (PyVal.getitem msg "role") as [role|]; [|discriminate].
    destruct (PyVal.eq_str role "user").
    { destruct (PyVal.getitem msg "content"); [|discriminate].
      now intros [= <-]. }
    destruct (PyVal.eq_str role "assistant").
    { destruct (PyVal.getitem msg "content"); [|discriminate].
      now intros [= <-]. }
    now intros [= <-].
  - simpl. revert Hmsg. unfold replay_message, add_chat, set_summary_chat, bind, lift,
      get_memory, set_memory, ret.
    destruct (PyVal.getitem msg "role") as [role|]; [|now intros [= _ <-]].
    destruct (PyVal.eq_str role "user").
    { destruct (PyVal.getitem msg "content"); [discriminate | now intros [= _ <-]]. }
    destruct (PyVal.eq_str role "assistant").
    { destruct (PyVal.getitem msg "content"); [discriminate | now intros [= _ <-]]. }
    discriminate.
Qed.

(** A log of readable messages is replayed without an exception. *)
Lemma replay_readable (l : list json) :
  forallb readable_message l = true ->
  forall s, fst (for_each l replay_message s) = Ok tt.
Proof.
  induction l as [|msg l IH]; intros Hl s; [reflexivity|].
  simpl in Hl. apply andb_prop in Hl as [Hmsg Hrest].
  simpl. unfold bind at 1.
  assert (Hok : exists s1, replay_message msg s = (Ok tt, s1)).
  { unfold readable_message in Hmsg.
    unfold replay_message, add_chat, set_summary_chat, bind, lift,
      get_memory, set_memory, ret.
    destruct (PyVal.getitem msg "role") as [role|]; [|discriminate].
    destruct (PyVal.eq_str role "user"); simpl in Hmsg.
    { destruct (PyVal.getitem msg "content"); [eauto | discriminate]. }
    destruct (PyVal.eq_str role "assistant"); simpl in Hmsg.
    { destruct (PyVal.getitem msg "content"); [eauto | discriminate]. }
    eauto. }
  destruct Hok as (s1 & ->). now apply IH.
Qed.

Lemma files_after_dump_other (s : state) (path other : string) (obj : json) :
  other <> path -> files_after_dump s path obj !! other = files s !! other.
Proof.
  intros Hne. unfold files_after_dump.
  destruct (String.eqb path ""); [reflexivity|].
  destruct (decide _); [reflexivity|].
  apply lookup_insert_ne. congruence.
Qed.

Lemma files_after_dump_written (s : state) (path : string) (obj : json) :
  path <> "" -> path ∉ unwritable s ->
  files_after_dump s path obj !! path = Some (FJson obj).
Proof.
  intros Hne Hw. unfold files_after_dump.
  destruct (String.eqb_spec path ""); [congruence|].
  destruct (decide _); [contradiction|].
  apply lookup_insert_eq.
Qed.

(** What [json.load] returns depends on the file and on whether it can be
    read, on nothing else. *)
Lemma json_load_file_ext (path : string) (s1 s2 : state) :
  files s1 !! path = files s2 !! path -> unreadable s1 = unreadable s2 ->
  fst (json_load_file path s1) = fst (json_load_file path s2).
Proof.
  intros Hf Hu. unfold json_load_file. rewrite Hf, Hu.
  destruct (String.eqb path ""); [reflexivity|].
  destruct (decide _); [reflexivity|].
  destruct (files s2 !! path) as [[]|]; reflexivity.
Qed.

Lemma json_load_file_state (path : string) (s : state) :
  snd (json_load_file path s) = s.
Proof. apply reads_only_json_load_file. Qed.

Lemma _get_paper_details_fst (s : state) :
  fst (_get_paper_details s)
  = Ok (match fst (json_load_file (paper_details_file (memory s)) s) with
        | Ok j => j
        | Raise _ => JObj []
        end).
Proof.
  unfold _get_paper_details, try_except, try_except_only, bind, get_memory, ret.
  cbv beta iota.
  destruct (json_load_file (paper_details_file (memory s)) s) as [[j|e] s1];
    [reflexivity|].
  cbn [fst]. destruct (missing_or_unparsable e); reflexivity.
Qed.

Section Persistence.

Context (E : Env) (cfg : Config).

Lemma _save_messages_run (s : state) :
  _save_messages s
  = (Ok tt,
     mkState (files_after_dump s (memory_file (memory s)) (JArr (messages (memory s))))
             (unreadable s) (unwritable s) (trace s) (memory s)).
Proof.
  unfold _save_messages, try_except, bind, get_memory, json_dump_file,
    files_after_dump, ret.
  cbv beta iota.
  destruct (String.eqb _ ""); [destruct s; reflexivity|].
  destruct (decide _); [destruct s; reflexivity | reflexivity].
Qed.

Lemma reset_run (s : state) :
  reset E s
  = (Ok tt,
     mkState (files_after_dump s (memory_file (memory s)) (JArr []))
             (unreadable s) (unwritable s) (trace s ++ [EvUuid4])
             (mkMemory (uuid4 E (trace s)) [] (memory_file (memory s))
                       (paper_details_file (memory s)) [])).
Proof.
  unfold reset, set_messages, set_summary_chat, set_thread_id, vendor_total,
    bind, get_state, emit, get_memory, set_memory, ret.
  cbv beta iota. rewrite _save_messages_run. reflexivity.
Qed.

(** C8: [reset] returns; afterwards the message list and the summarizer's
    chat are empty and the session token is the one just drawn from the
    uuid generator; the log file, when it can be written, holds the empty
    list; no other file is written, so the registry file, and with it
    every registry entry, is as before. *)
Theorem reset_clears_memory_only (s : state) :
  let m := memory s in
  let s' := snd (reset E s) in
  fst (reset E s) = Ok tt
  /\ messages (memory s') = []
  /\ summary_chat (memory s') = []
  /\ thread_id (memory s') = uuid4 E (trace s)
  /\ trace s' = trace s ++ [EvUuid4]
  /\ (memory_file m <> "" -> memory_file m ∉ unwritable s ->
      files s' !! memory_file m = Some (FJson (JArr [])))
  /\ (forall path, path <> memory_file m -> files s' !! path = files s !! path)
  /\ (paper_details_file m <> memory_file m ->
      files s' !! paper_details_file m = files s !! paper_details_file m
      /\ fst (_get_paper_details s') = fst (_get_paper_details s)).
Proof.
  cbv zeta. rewrite reset_run. cbn [fst snd memory messages summary_chat thread_id
                                    trace files].
  repeat (split; [reflexivity|]).
  split; [|split].
  - intros Hne Hw. now apply files_after_dump_written.
  - intros path Hne. now apply files_after_dump_other.
  - intros Hne. split; [now apply files_after_dump_other|].
    rewrite !_get_paper_details_fst. f_equal.
    cbn [memory paper_details_file].
    erewrite json_load_file_ext; [reflexivity| |reflexivity].
    cbn [files]. now apply files_after_dump_other.
Qed.

Lemma json_load_file_ok (path : string) (j : json) (s : state) :
  path <> "" -> path ∉ unreadable s -> files s !! path = Some (FJson j) ->
  json_load_file path s = (Ok j, s).
Proof.
  intros Hne Hr Hf. unfold json_load_file.
  destruct (String.eqb_spec path ""); [congruence|].
  destruct (decide _); [contradiction|].
  now rewrite Hf.
Qed.

Lemma getitem_raises (j : json) (key : string) (e : exn) :
  PyVal.getitem j key = Raise e -> missing_or_unparsable e = false.
Proof.
  destruct j; simpl; try (intros [= <-]; reflexivity).
  destruct (PyVal.dict_get key fields); [discriminate|].
  intros [= <-]. reflexivity.
Qed.

(** Replaying the log raises nothing that [_load_messages] catches. *)
Lemma replay_raises (l : list json) :
  forall s e, fst (for_each l replay_message s) = Raise e ->
              missing_or_unparsable e = false.
Proof.
  induction l as [|msg l IH]; intros s e; [discriminate|].
  simpl. unfold bind at 1.
  destruct (replay_message msg s) as [[[]|e1] s1] eqn:Hmsg; [apply IH|].
  cbn [fst]. intros [= <-]. revert Hmsg.
  unfold replay_message, add_chat, set_summary_chat, bind, lift, get_memory,
    set_memory, ret.
  destruct (PyVal.getitem msg "role") as [role|e0] eqn:Hrole;
    [|intros [= <- _]; now apply (getitem_raises _ _ _ Hrole)].
  destruct (PyVal.eq_str role "user").
  { destruct (PyVal.getitem msg "content") as [c|e0] eqn:Hc; [discriminate|].
    intros [= <- _]. now apply (getitem_raises _ _ _ Hc). }
  destruct (PyVal.eq_str role "assistant").
  { destruct (PyVal.getitem msg "content") as [c|e0] eqn:Hc; [discriminate|].
    intros [= <- _]. now apply (getitem_raises _ _ _ Hc). }
  discriminate.
Qed.

(** Loading a log file that holds the list [l]. *)
Lemma _load_messages_of_list (l : list json) (s : state) :
  memory_file (memory s) <> "" -> memory_file (memory s) ∉ unreadable s ->
  files s !! memory_file (memory s) = Some (FJson (JArr l)) ->
  messages (memory (snd (_load_messages s))) = l
  /\ (forallb readable_message l = true -> fst (_load_messages s) = Ok tt).
Proof.
  intros Hne Hr Hf.
  unfold _load_messages, try_except_only, bind, get_memory. cbv beta iota.
  rewrite (json_load_file_ok _ _ _ Hne Hr Hf).
  unfold set_messages, bind, get_memory, set_memory. cbv beta iota.
  match goal with
  | |- context [for_each l replay_message ?st] =>
      pose proof (replay_keeps_messages l st) as Hkeep;
      pose proof (replay_raises l st) as Hraise;
      pose proof (fun H => replay_readable l H st) as Hok;
      destruct (for_each l replay_message st) as [[[]|e] s1]
  end; cbn [fst snd memory messages] in *.
  - split; [exact Hkeep | reflexivity].
  - rewrite (Hraise e eq_refl). cbn [snd]. split; [exact Hkeep|].
    intros Hl. specialize (Hok Hl). discriminate.
Qed.

(** A successful [save_paper_details]: what was in the registry before,
    and the state after. *)
Lemma save_paper_details_success (s : state) (paper_id title authors : string)
  (url summary : option string) (config_manager : bool) :
  let path := registry_path cfg config_manager in
  let record := paper_record paper_id title authors url summary (time_time E (trace s)) in
  fst (save_paper_details E cfg paper_id title authors url summary config_manager s)
  = Ok true ->
  exists registry,
    fst (get_paper_details cfg config_manager s) = Ok (JObj registry)
    /\ path <> "" /\ (path ∉ unreadable s)
    /\ snd (save_paper_details E cfg paper_id title authors url summary config_manager s)
       = mkState (<[path := FJson (JObj (PyVal.dict_set paper_id record registry))]> (files s))
                 (unreadable s) (unwritable s) (trace s ++ [EvTime]) (memory s).
Proof.
  cbv zeta.
  unfold save_paper_details, get_paper_details, try_except, try_except_only, bind,
    vendor_total, get_state, emit, lift, ret. cbv beta iota.
  set (path := registry_path cfg config_manager).
  unfold json_load_file, json_dump_file.
  cbn [files unreadable unwritable trace memory].
  destruct (String.eqb_spec path "") as [Hempty|Hempty].
  { cbn. intros Hno; discriminate Hno. }
  destruct (decide (path ∈ unreadable s)) as [Hr|Hr].
  { cbn. intros Hno; discriminate Hno. }
  destruct (files s !! path) as [[j|raw]|] eqn:Hfile; cbn.
  - destruct j; cbn; try (intros Hno; discriminate Hno).
    destruct (decide (path ∈ unwritable s)); cbn; [intros Hno; discriminate Hno|].
    intros _. eexists. repeat split; try reflexivity; assumption.
  - destruct (decide (path ∈ unwritable s)); cbn; [intros Hno; discriminate Hno|].
    intros _. eexists. repeat split; try reflexivity; assumption.
  - destruct (decide (path ∈ unwritable s)); cbn; [intros Hno; discriminate Hno|].
    intros _. eexists. repeat split; try reflexivity; assumption.
Qed.


End Persistence.

(** ** The command router: [chat] *)

Lemma prefix_lower_cons (a c : ascii) (p m : string) :
  String.prefix (String a p) (PyStr.lower (String c m)) = true ->
  PyStr.lower_char c = a /\ String.prefix p (PyStr.lower m) = true.
Proof.
  simpl. destruct (ascii_dec a (PyStr.lower_char c)); [auto | discriminate].
Qed.

Lemma prefix_lower_nil (a : ascii) (p : string) :
  String.prefix (String a p) (PyStr.lower "") = false.
Proof. reflexivity. Qed.

Lemma prefix_lower_differs (a b c : ascii) (p q m : string) :
  a <> b ->
  String.prefix (String a p) (PyStr.lower (String c m)) = true ->
  String.prefix (String b q) (PyStr.lower (String c m)) = false.
Proof.
  intros Hab H. apply prefix_lower_cons in H as [Hc _]. simpl.
  destruct (ascii_dec b (PyStr.lower_char c)); [congruence | reflexivity].
Qed.

(** Only the colon lowers to the colon. *)
Lemma lower_char_colon (c : ascii) : PyStr.lower_char c = ":"%char -> c = ":"%char.
Proof.
  destruct c as [[] [] [] [] [] [] [] []]; vm_compute; intros H;
    solve [reflexivity | discriminate H].
Qed.

(** No white-space character lowers to a letter of the command words. *)
Lemma lower_char_c_not_space (c : ascii) :
  PyStr.lower_char c = "c"%char -> PyStr.isspace c = false.
Proof.
  destruct c as [[] [] [] [] [] [] [] []]; vm_compute; intros H;
    solve [reflexivity | discriminate H].
Qed.

Lemma lower_char_s_not_space (c : ascii) :
  PyStr.lower_char c = "s"%char -> PyStr.isspace c = false.
Proof.
  destruct c as [[] [] [] [] [] [] [] []]; vm_compute; intros H;
    solve [reflexivity | discriminate H].
Qed.

Lemma rstrip_colon (r : string) :
  PyStr.rstrip (String ":" r) = String ":" (PyStr.rstrip r).
Proof. simpl. destruct (PyStr.rstrip r); reflexivity. Qed.

Lemma strip_no_longer_than_rstrip (r : string) :
  String.length (PyStr.strip r) <= String.length (PyStr.rstrip r).
Proof.
  unfold PyStr.strip. induction r as [|c r IH]; [reflexivity|].
  cbn [PyStr.lstrip]. destruct (PyStr.isspace c) eqn:Hc; [|reflexivity].
  cbn [PyStr.rstrip]. rewrite Hc.
  destruct (PyStr.rstrip r); [exact IH | simpl in *; lia].
Qed.

Lemma truthy_strip (message : string) :
  PyStr.strip message <> "" -> negb (PyStr.truthy (PyStr.strip message)) = false.
Proof. destruct (PyStr.strip message); [congruence | reflexivity]. Qed.

Section Router.

Context (E : Env) (cfg : Config).

Lemma route_statistics (message : string) :
  PyStr.startswith (PyStr.lower message) "check kb" = true ->
  route message = KbStatistics /\ PyStr.strip message <> "".
Proof.
  unfold PyStr.startswith. intros H.
  destruct message as [|c m]; [discriminate|].
  unfold route, PyStr.startswith.
  rewrite (prefix_lower_differs "c" "s" c _ "earch arxiv:" m) by (discriminate || exact H).
  rewrite (prefix_lower_differs "c" "s" c _ "ummarize arxiv:" m) by (discriminate || exact H).
  rewrite (prefix_lower_differs "c" "s" c _ "earch kb:" m) by (discriminate || exact H).
  rewrite H. split; [reflexivity|].
  apply strip_keeps_text, lower_char_c_not_space.
  now apply prefix_lower_cons in H as [Hc _].
Qed.

Lemma _get_kb_info_run (detailed : bool) (s : state) :
  _get_kb_info E detailed s
  = (Ok ("Error getting knowledge base information: "
         +:+ exn_msg (AttributeError "KnowledgeBase" "get_stats")), s).
Proof. reflexivity. Qed.

(** C5 (as the code behaves): for every utterance that begins, in any
    letter case, with [check kb], the router takes the statistics flow, and
    the text it returns is the error message of the failed lookup of
    [get_stats] on the knowledge base, with or without the word details. *)
Theorem check_kb_returns_error (s : state) (message : string) (history : list json) :
  PyStr.startswith (PyStr.lower message) "check kb" = true ->
  route message = KbStatistics
  /\ chat E cfg message history s
     = (Ok (extend history message
              "Error getting knowledge base information: 'KnowledgeBase' object has no attribute 'get_stats'",
            ""), s).
Proof.
  intros H. destruct (route_statistics message H) as [Hroute Hstrip].
  split; [exact Hroute|].
  unfold chat. rewrite (truthy_strip _ Hstrip).
  unfold answer. rewrite Hroute.
  unfold try_except, bind. rewrite _get_kb_info_run. reflexivity.
Qed.

(** [chat] ends in the state its flow ends in. *)
Lemma chat_state (s : state) (message : string) (history : list json) :
  PyStr.strip message <> "" ->
  snd (chat E cfg message history s) = snd (answer E cfg message s).
Proof.
  intros Hstrip. unfold chat. rewrite (truthy_strip _ Hstrip).
  unfold try_except, bind.
  destruct (answer E cfg message s) as [[r|e] s1]; reflexivity.
Qed.

(** The default flow of [chat]: retrieval, then one generation call on the
    prompt that embeds whatever retrieval returned. *)
Lemma default_flow_run (s : state) (message : string) :
  route message = Default ->
  exists reply evs,
    answer E cfg message s
    = (Ok reply,
       with_trace s
         (trace s ++ [EvSimilaritySearch message 3]
          ++ EvGenerate (rag_prompt message (retrieval_outcome E cfg s message 3))
               None None :: evs))
    /\ quiet evs.
Proof.
  intros Hroute. unfold answer. rewrite Hroute.
  unfold bind. rewrite search_relevant_context_run.
  rewrite retrieval_outcome_content.
  match goal with
  | |- context [ClaudeModel_get_response E ?a ?b ?c ?st] =>
      destruct (ClaudeModel_get_response_run E a b c st) as (reply & evs & -> & Hq)
  end.
  exists reply, evs. split; [|exact Hq].
  unfold with_trace. cbn [files unreadable unwritable trace memory].
  now rewrite <- app_assoc.
Qed.

(** C1 (as the code behaves): in the default flow retrieval is attempted
    first and the reply is generated from the prompt that combines the
    question with what retrieval returned; the web-search collaborator is
    not called, whatever retrieval found, and when no candidate passes the
    threshold (the empty knowledge base included) the prompt embeds the
    sentinel text. *)
Theorem default_flow_never_searches_web (s : state) (message : string)
  (history : list json) :
  route message = Default ->
  PyStr.strip message <> "" ->
  let s' := snd (chat E cfg message history s) in
  let kb_results := retrieval_outcome E cfg s message 3 in
  web_searches (trace s') = web_searches (trace s)
  /\ generate_calls (trace s')
     = generate_calls (trace s) ++ [(rag_prompt message kb_results, None)]
  /\ (forall results,
        similarity_search_with_relevance_scores E (trace s) message 3 = Ok results ->
        survivors (configured_threshold cfg) results = [] ->
        kb_results = no_relevant_information).
Proof.
  intros Hroute Hstrip. cbv zeta. rewrite (chat_state s message history Hstrip).
  destruct (default_flow_run s message Hroute) as (reply & evs & -> & Hq).
  destruct Hq as (Hg & _ & Hw & _).
  cbn [snd with_trace trace].
  rewrite !web_searches_app, !generate_calls_app.
  cbn [web_searches generate_calls]. rewrite Hg, Hw, !app_nil_r.
  repeat split; try reflexivity.
  intros results Hsearch Hnone. unfold retrieval_outcome. rewrite Hsearch.
  now rewrite (format_results_complete E _ results [] [])
    by (rewrite Hnone; constructor).
Qed.

Lemma route_summary (message : string) :
  PyStr.startswith (PyStr.lower message) "summarize arxiv:" = true ->
  route message = PaperSummary
  /\ PyStr.strip message <> ""
  /\ PyStr.slice_from 15 message = String ":" (PyStr.slice_from 16 message).
Proof.
  unfold PyStr.startswith. intros H.
  assert (Hroute : route message = PaperSummary).
  { unfold route, PyStr.startswith. rewrite H.
    destruct message as [|c0 m]; [cbn in H; discriminate H|].
    apply prefix_lower_cons in H as [H0 H].
    destruct m as [|c1 m]; [cbn in H; discriminate H|].
    apply prefix_lower_cons in H as [H1 H].
    cbn [PyStr.lower String.prefix]. rewrite H0, H1. reflexivity. }
  split; [exact Hroute|].
  do 16 (destruct message as [|? message]; [cbn in H; discriminate H|];
         apply prefix_lower_cons in H as [? H]).
  split.
  - apply strip_keeps_text. now apply lower_char_s_not_space.
  - cbn [PyStr.slice_from]. f_equal. now apply lower_char_colon.
Qed.

(** The attempt of [summarize_arxiv_paper] to add the summary to the
    knowledge base ends in the handler: the text returned is the summary
    followed by an error note, and the state is untouched. *)
Lemma add_summary_to_kb_run (paper_id : string) (paper : json) (summary : string)
  (s : state) :
  exists note,
    add_summary_to_kb E paper_id paper summary s
    = (Ok (summary +:+ error_adding +:+ note), s).
Proof.
  unfold add_summary_to_kb, try_except, bind, lift, ret.
  destruct (PyVal.getitem paper "title"); [|eexists; reflexivity].
  destruct (PyVal.getitem paper "authors"); eexists; reflexivity.
Qed.

Lemma summarize_arxiv_paper_no_insertion (paper_id : string) (s : state) :
  kb_insertions (trace (snd (summarize_arxiv_paper E cfg paper_id true true true true s)))
  = kb_insertions (trace s).
Proof.
  unfold summarize_arxiv_paper, try_except_only, bind, lift, ret.
  pose proof (json_load_file_state (registry_path cfg true) s) as Hstate.
  destruct (json_load_file (registry_path cfg true) s) as [[papers|e] s0];
    cbn [snd] in Hstate; subst s0.
  - destruct (PyVal.get_method papers paper_id JNull) as [paper|e]; [|reflexivity].
    destruct (negb (PyVal.truthy paper)); [reflexivity|].
    destruct (summary_prompt E paper) as [prompt|e]; [|reflexivity].
    cbn [negb andb].
    destruct (ClaudeModel_get_response_run E prompt None None s)
      as (summary & evs & -> & Hq).
    destruct (add_summary_to_kb_run paper_id paper summary
                (with_trace s (trace s ++ EvGenerate prompt None None :: evs)))
      as (note & ->).
    cbn [snd with_trace trace]. rewrite kb_insertions_app. cbn [kb_insertions].
    destruct Hq as (_ & _ & _ & ->). now rewrite app_nil_r.
  - destruct (missing_or_unparsable e); reflexivity.
Qed.

(** C2 (as the code behaves): for every utterance that begins, in any
    letter case, with [summarize arxiv:], the router takes the
    summarization flow; the identifier it passes starts at the colon of the
    prefix, so it is a colon followed by the text after the prefix, never
    that text itself; and nothing is inserted into the knowledge base. *)
Theorem summarize_command_defects (s : state) (message : string)
  (history : list json) :
  PyStr.startswith (PyStr.lower message) "summarize arxiv:" = true ->
  route message = PaperSummary
  /\ summarize_argument message
     = String ":" (PyStr.rstrip (PyStr.slice_from 16 message))
  /\ summarize_argument message <> PyStr.strip (PyStr.slice_from 16 message)
  /\ kb_insertions (trace (snd (chat E cfg message history s)))
     = kb_insertions (trace s).
Proof.
  intros H. destruct (route_summary message H) as (Hroute & Hstrip & Hslice).
  assert (Harg : summarize_argument message
                 = String ":" (PyStr.rstrip (PyStr.slice_from 16 message))).
  { unfold summarize_argument, PyStr.strip. rewrite Hslice.
    cbn [PyStr.lstrip]. replace (PyStr.isspace ":") with false by reflexivity.
    apply rstrip_colon. }
  split; [exact Hroute|]. split; [exact Harg|]. split.
  - rewrite Harg. intros Heq.
    pose proof (strip_no_longer_than_rstrip (PyStr.slice_from 16 message)) as Hlen.
    rewrite <- Heq in Hlen. simpl in Hlen. lia.
  - rewrite (chat_state s message history Hstrip).
    unfold answer. rewrite Hroute. apply summarize_arxiv_paper_no_insertion.
Qed.

End Router.

(** ** The theorems at concrete inputs *)

Lemma get_response_history_witness :
  generate_calls
    (trace (snd (get_response (Sample.env []) "q" None (Sample.after_turns 2))))
  = [("q", Some (Sample.turns 2))]
  /\ generate_calls
       (trace (snd (get_response (Sample.env []) "q" None (Sample.after_turns 5))))
     = [("q",
         Some [ JObj [("role", JStr "user");
                      ("content", JStr ("Here's a summary of our conversation so far:"
                                        +:+ NL +:+ "[]" +:+ NL +:+ NL))];
                JObj [("role", JStr "assistant");
                      ("content", JStr "I understand the conversation context and the papers we've discussed. What would you like to know next?")] ])].
Proof.
  split.
  - apply (proj1 (get_response_history (Sample.env []) (Sample.after_turns 2) "q" None)).
    vm_compute. lia.
  - destruct (proj2 (get_response_history (Sample.env []) (Sample.after_turns 5)
                       "q" None)) as [_ H].
    + vm_compute. lia.
    + apply (H "[]").
      * intros _. reflexivity.
      * reflexivity.
Defined.

Lemma summary_computed_on_every_turn_witness :
  summary_count
    (trace (snd (get_response (Sample.env []) "q" None (Sample.after_turns 6)))) = 1
  /\ summary_count
       (trace (snd (get_response (Sample.env []) "q" None (Sample.after_turns 5)))) = 2
  /\ summary_count
       (trace (snd (get_response (Sample.env []) "q" None (Sample.after_turns 4)))) = 0.
Proof.
  split; [|split].
  - apply (proj1 (summary_computed_on_every_turn (Sample.env []) (Sample.after_turns 6)
                    "q" None)).
    vm_compute. lia.
  - apply (proj1 (summary_computed_on_every_turn (Sample.env []) (Sample.after_turns 5)
                    "q" None)).
    vm_compute. lia.
  - apply (proj2 (summary_computed_on_every_turn (Sample.env []) (Sample.after_turns 4)
                    "q" None)).
    vm_compute. lia.
Defined.

Lemma reset_clears_memory_only_witness :
  let s' := snd (reset (Sample.env []) (Sample.after_turns 3)) in
  messages (memory s') = []
  /\ files s' !! "conversation_history.json" = Some (FJson (JArr []))
  /\ files s' !! "paper_details.json" = Some (FJson Sample.registry).
Proof.
  destruct (reset_clears_memory_only (Sample.env []) (Sample.after_turns 3))
    as (_ & Hmessages & _ & _ & _ & Hlog & _ & Hregistry).
  cbv zeta. split; [exact Hmessages|]. split.
  - apply Hlog; [discriminate | apply not_elem_of_empty].
  - destruct Hregistry as [Hfile _]; [discriminate|].
    etransitivity; [exact Hfile | reflexivity].
Defined.


Lemma default_flow_never_searches_web_witness :
  let s' := snd (chat (Sample.env []) Sample.config "What is the Lightning Network?" []
                   (Sample.after_turns 0)) in
  web_searches (trace s') = []
  /\ generate_calls (trace s')
     = [(rag_prompt "What is the Lightning Network?" no_relevant_information, None)].
Proof.
  destruct (default_flow_never_searches_web (Sample.env []) Sample.config
              (Sample.after_turns 0) "What is the Lightning Network?" [])
    as (Hweb & Hgen & _).
  - reflexivity.
  - vm_compute. discriminate.
  - cbv zeta. split; [exact Hweb | exact Hgen].
Defined.

Lemma summarize_command_defects_witness :
  summarize_argument "summarize arxiv: 2201.12345" = ": 2201.12345"
  /\ fst (chat (Sample.env []) Sample.config "summarize arxiv: 2201.12345" []
            (Sample.after_turns 0))
     = Ok (extend [] "summarize arxiv: 2201.12345"
             "No details found for paper ID : 2201.12345.", "").
Proof.
  destruct (summarize_command_defects (Sample.env []) Sample.config
              (Sample.after_turns 0) "summarize arxiv: 2201.12345" [] eq_refl)
    as (_ & Harg & _).
  split; [etransitivity; [exact Harg | reflexivity] | reflexivity].
Defined.

Lemma check_kb_returns_error_witness :
  fst (chat (Sample.env Sample.hits) Sample.config "Check KB details" []
         (Sample.after_turns 0))
  = Ok (extend [] "Check KB details"
          "Error getting knowledge base information: 'KnowledgeBase' object has no attribute 'get_stats'",
        "").
Proof.
  destruct (check_kb_returns_error (Sample.env Sample.hits) Sample.config
              (Sample.after_turns 0) "Check KB details" [] eq_refl) as [_ H].
  now rewrite H.
Defined.

(** * Further properties of the code *)

(** ** What a computation leaves alone *)

Lemma keeps_trace_ret {A} (a : A) : keeps_trace (ret a).
Proof. intros s. reflexivity. Qed.
Lemma keeps_trace_raise {A} (e : exn) : keeps_trace (@raise A e).
Proof. intros s. reflexivity. Qed.
Lemma keeps_trace_lift {A} (r : result A) : keeps_trace (lift r).
Proof. intros s. reflexivity. Qed.
Lemma keeps_trace_get_state : keeps_trace get_state.
Proof. intros s. reflexivity. Qed.
Lemma keeps_trace_get_memory : keeps_trace get_memory.
Proof. intros s. reflexivity. Qed.
Lemma keeps_trace_set_memory (m : PenelopeMemory) : keeps_trace (set_memory m).
Proof. intros s. reflexivity. Qed.

Lemma keeps_trace_bind {A B} (c : Py A) (k : A -> Py B) :
  keeps_trace c -> (forall a, keeps_trace (k a)) -> keeps_trace (bind c k).
Proof.
  intros Hc Hk s. unfold bind. specialize (Hc s).
  destruct (c s) as [[a|e] s1]; simpl in *; [rewrite Hk|]; exact Hc.
Qed.

Lemma keeps_trace_try_except {A} (c : Py A) (h : exn -> Py A) :
  keeps_trace c -> (forall e, keeps_trace (h e)) -> keeps_trace (try_except c h).
Proof.
  intros Hc Hh s. unfold try_except. specialize (Hc s).
  destruct (c s) as [[a|e] s1]; simpl in *; [|rewrite Hh]; exact Hc.
Qed.

Lemma keeps_trace_try_except_only {A} (catches : exn -> bool) (c : Py A)
  (h : exn -> Py A) :
  keeps_trace c -> (forall e, keeps_trace (h e)) ->
  keeps_trace (try_except_only catches c h).
Proof.
  intros Hc Hh s. unfold try_except_only. specialize (Hc s).
  destruct (c s) as [[a|e] s1]; simpl in *; [exact Hc|].
  destruct (catches e); simpl; [rewrite Hh|]; exact Hc.
Qed.

Lemma keeps_trace_if {A} (b : bool) (c d : Py A) :
  keeps_trace c -> keeps_trace d -> keeps_trace (if b then c else d).
Proof. destruct b; auto. Qed.

Lemma keeps_trace_json_load_file (path : string) : keeps_trace (json_load_file path).
Proof. intros s. now rewrite reads_only_json_load_file. Qed.

Lemma keeps_trace_json_dump_file (path : string) (obj : json) :
  keeps_trace (json_dump_file path obj).
Proof.
  intros s. unfold json_dump_file.
  destruct (String.eqb path ""); [reflexivity|]. destruct (decide _); reflexivity.
Qed.

Lemma keeps_trace_append_file (repr : json -> string) (path text : string) :
  keeps_trace (append_file repr path text).
Proof.
  intros s. unfold append_file.
  destruct (String.eqb path ""); [reflexivity|]. destruct (decide _); reflexivity.
Qed.

Create HintDb keeps_trace.
#[local] Hint Resolve keeps_trace_ret keeps_trace_raise keeps_trace_lift
  keeps_trace_get_state keeps_trace_get_memory keeps_trace_set_memory
  keeps_trace_json_load_file keeps_trace_json_dump_file keeps_trace_append_file
  : keeps_trace.
#[local] Hint Extern 2 (keeps_trace (bind _ _)) =>
  apply keeps_trace_bind; [|intros ?] : keeps_trace.
#[local] Hint Extern 2 (keeps_trace (try_except _ _)) =>
  apply keeps_trace_try_except; [|intros ?] : keeps_trace.
#[local] Hint Extern 2 (keeps_trace (try_except_only _ _ _)) =>
  apply keeps_trace_try_except_only; [|intros ?] : keeps_trace.
#[local] Hint Extern 3 (keeps_trace (if _ then _ else _)) =>
  apply keeps_trace_if : keeps_trace.
#[local] Hint Extern 3 (keeps_trace (match ?x with _ => _ end)) =>
  destruct x : keeps_trace.

(** The trace after a [try] whose handler logs nothing is the trace after
    its body. *)
Lemma try_except_trace {A} (c : Py A) (h : exn -> Py A) (s : state) :
  (forall e, keeps_trace (h e)) ->
  trace (snd (try_except c h s)) = trace (snd (c s)).
Proof.
  intros Hh. unfold try_except.
  destruct (c s) as [[a|e] s1]; simpl; [reflexivity | apply Hh].
Qed.

(** The trace after a vendor call followed by a continuation that logs
    nothing. *)
Lemma vendor_then_trace {A B} (ev : event) (answer : list event -> result A)
  (k : A -> Py B) (s : state) :
  (forall a, keeps_trace (k a)) ->
  trace (snd (bind (vendor ev answer) k s)) = trace s ++ [ev].
Proof.
  intros Hk. unfold bind, vendor, get_state, emit, lift. simpl.
  destruct (answer (trace s)) as [a|e]; simpl; [now rewrite Hk | reflexivity].
Qed.

Lemma kb_searches_app (t u : list event) :
  kb_searches (t ++ u) = kb_searches t ++ kb_searches u.
Proof.
  induction t as [|ev t IH]; [reflexivity|].
  destruct ev; simpl; rewrite IH; reflexivity.
Qed.

Lemma http_posts_app (t u : list event) :
  http_posts (t ++ u) = http_posts t ++ http_posts u.
Proof.
  induction t as [|ev t IH]; [reflexivity|].
  destruct ev; simpl; rewrite IH; reflexivity.
Qed.

Lemma arxiv_searches_app (t u : list event) :
  arxiv_searches (t ++ u) = arxiv_searches t ++ arxiv_searches u.
Proof.
  induction t as [|ev t IH]; [reflexivity|].
  destruct ev; simpl; rewrite IH; reflexivity.
Qed.

Lemma invocations_app (t u : list event) :
  invocations (t ++ u) = invocations t ++ invocations u.
Proof.
  induction t as [|ev t IH]; [reflexivity|].
  destruct ev; simpl; rewrite IH; reflexivity.
Qed.

Lemma splits_app (t u : list event) : splits (t ++ u) = splits t ++ splits u.
Proof.
  induction t as [|ev t IH]; [reflexivity|].
  destruct ev; simpl; rewrite IH; reflexivity.
Qed.

(** ** The web-search collaborator: [query_perplexity] *)

Section WebSearch.

Context (E : Env) (cfg : Config).

(** What [query_perplexity] logs: itself, then the request when an API key
    is configured, whatever the answer. *)
Lemma query_perplexity_trace (query : string) (config_manager : bool) (s : state) :
  trace (snd (query_perplexity E cfg query config_manager s))
  = trace s ++ EvPerplexity query
      :: (let key := if config_manager then get_api_key cfg "perplexity" else "" in
          if PyStr.truthy key then [EvPost perplexity_url key query] else []).
Proof.
  unfold query_perplexity. unfold bind at 1. unfold emit at 1. cbv beta iota.
  rewrite try_except_trace by auto with keeps_trace.
  cbv zeta.
  destruct (PyStr.truthy (if config_manager then get_api_key cfg "perplexity" else ""));
    cbn [negb].
  - rewrite vendor_then_trace.
    + cbn [trace]. now rewrite <- app_assoc.
    + intros response. auto 20 with keeps_trace.
  - cbn [ret snd trace]. reflexivity.
Qed.

Lemma str_app_assoc (a b c : string) : (a +:+ b) +:+ c = a +:+ (b +:+ c).
Proof.
  induction a as [|x a IH]; [reflexivity|].
  change (String x ((a +:+ b) +:+ c) = String x (a +:+ (b +:+ c))). now f_equal.
Qed.

Lemma truthy_nonempty (a : string) : a <> "" -> PyStr.truthy a = true.
Proof. destruct a; [congruence | reflexivity]. Qed.

Lemma str_or_nonempty (a b : string) : b <> "" -> str_or a b <> "".
Proof. unfold str_or. destruct a; simpl; [auto | discriminate]. Qed.

(** X1: without an API key for the web-search service (none configured, or
    no [ConfigManager] passed) [query_perplexity] sends no request and
    writes nothing: it returns the fixed text that asks for the key. *)
Theorem query_perplexity_without_key (query : string) (config_manager : bool)
  (s : state) :
  (if config_manager then get_api_key cfg "perplexity" else "") = "" ->
  query_perplexity E cfg query config_manager s
  = (Ok "Error: Perplexity API key not set. Please configure the API key.",
     with_trace s (trace s ++ [EvPerplexity query])).
Proof.
  intros Hkey. unfold query_perplexity, bind, emit, try_except, ret.
  cbv beta iota zeta. rewrite Hkey. reflexivity.
Qed.

(** X2: [query_perplexity] returns a text in every case; when the request
    raises, and when the service answers with a status other than 200, the
    text is the fixed apology (with the status code in the second case) and
    no file is written, the search log included. *)
Theorem query_perplexity_fails_cleanly (query : string) (config_manager : bool)
  (s : state) :
  let key := if config_manager then get_api_key cfg "perplexity" else "" in
  let run := query_perplexity E cfg query config_manager s in
  let answer := requests_post E (trace s ++ [EvPerplexity query]) perplexity_url
                  key query in
  (exists text, fst run = Ok text)
  /\ (key <> "" -> forall e, answer = Raise e ->
      fst run = Ok "I tried to search for up-to-date information, but ran into a technical issue."
      /\ files (snd run) = files s)
  /\ (key <> "" -> forall response, answer = Ok response ->
      status_code response <> 200%Z ->
      fst run = Ok ("I tried to search for information, but encountered an error: "
                    +:+ pretty (status_code response))
      /\ files (snd run) = files s).
Proof.
  cbv zeta. split; [|split].
  - unfold query_perplexity, bind at 1, emit at 1. cbv beta iota.
    match goal with
    | |- context [try_except ?c ?h ?st] =>
        destruct (try_except_returns c h st) as (text & s2 & ->)
    end; [|eauto].
    intros e s1. eexists _, s1. reflexivity.
  - intros Hkey e Hpost.
    unfold query_perplexity, vendor, bind, emit, try_except, get_state, lift, ret.
    cbv beta iota zeta. rewrite (truthy_nonempty _ Hkey). cbn [negb trace].
    rewrite Hpost. split; reflexivity.
  - intros Hkey response Hpost Hstatus.
    unfold query_perplexity, vendor, bind, emit, try_except, get_state, lift, ret.
    cbv beta iota zeta. rewrite (truthy_nonempty _ Hkey). cbn [negb trace].
    rewrite Hpost. cbv beta iota.
    destruct (Z.eqb_spec (status_code response) 200); [contradiction|].
    split; reflexivity.
Qed.

(** An answered search: the text returned and the files afterwards. *)
Lemma query_perplexity_answered (query : string) (s : state)
  (response : http_response) (result : list (string * json))
  (reply sources_text : string) :
  let key := get_api_key cfg "perplexity" in
  let log := str_or (get_file_path cfg "search_log_file") "search_log.txt" in
  let sources := from_option id (JArr []) (PyVal.dict_get "references" result) in
  let before := match files s !! log with
                | None => ""
                | Some (FText t) => t
                | Some (FJson j) => repr_value E j
                end in
  let run := query_perplexity E cfg query true s in
  key <> "" ->
  requests_post E (trace s ++ [EvPerplexity query]) perplexity_url key query
  = Ok response ->
  status_code response = 200%Z ->
  response_json response = Ok (JObj result) ->
  from_option id (JStr "No answer found.") (PyVal.dict_get "text" result) = JStr reply ->
  (if PyVal.truthy sources
   then rbind (iterate sources)
          (fun items => format_sources E 1 items (NL +:+ NL +:+ "📚 Sources:" +:+ NL))
   else Ok "") = Ok sources_text ->
  log ∉ unwritable s ->
  fst run = Ok ("🔍 Perplexity Search Result:" +:+ NL +:+ NL +:+ reply +:+ sources_text)
  /\ files (snd run) !! log
     = Some (FText (before +:+ "QUERY: " +:+ query +:+ NL
                    +:+ "RESULT: " +:+ PyStr.slice_to 300 reply +:+ "..." +:+ NL
                    +:+ PyStr.repeat "-" 80 +:+ NL))
  /\ (forall other, other <> log -> files (snd run) !! other = files s !! other)
  /\ unreadable (snd run) = unreadable s.
Proof.
  cbv zeta. intros Hkey Hpost Hstatus Hjson Hreply Hsources Hw.
  set (log := str_or (get_file_path cfg "search_log_file") "search_log.txt") in *.
  assert (Hlog : String.eqb log "" = false).
  { apply String.eqb_neq. now apply str_or_nonempty. }
  unfold query_perplexity, vendor, bind, emit, try_except, get_state, lift, ret.
  cbv beta iota zeta. rewrite (truthy_nonempty _ Hkey). cbn [negb trace].
  rewrite Hpost. cbv beta iota. rewrite Hstatus, Hjson. cbn [Z.eqb Pos.eqb].
  cbn [PyVal.get_method]. rewrite Hreply.
  destruct (PyVal.truthy (from_option id (JArr []) (PyVal.dict_get "references" result))).
  - unfold rbind in Hsources.
    destruct (iterate _) as [items|]; [|discriminate]. cbv beta iota.
    rewrite Hsources. cbv beta iota.
    fold log. unfold append_file. cbn [files unwritable unreadable trace memory].
    rewrite Hlog. destruct (decide (log ∈ unwritable s)); [contradiction|].
    cbn [first_300 files unwritable fst snd py_str]. rewrite ?Hlog.
    destruct (decide (log ∈ unwritable s)); [contradiction|].
    cbn [fst snd files]. rewrite lookup_insert_eq.
    split; [reflexivity|]. split; [|split; [|reflexivity]].
    + rewrite lookup_insert_eq. f_equal. f_equal.
      rewrite !str_app_assoc. reflexivity.
    + intros other Hother. now rewrite !lookup_insert_ne by congruence.
  - injection Hsources as <-. cbv beta iota.
    fold log. unfold append_file. cbn [files unwritable unreadable trace memory].
    rewrite Hlog. destruct (decide (log ∈ unwritable s)); [contradiction|].
    cbn [first_300 files unwritable fst snd py_str]. rewrite ?Hlog.
    destruct (decide (log ∈ unwritable s)); [contradiction|].
    cbn [fst snd files]. rewrite lookup_insert_eq.
    split; [reflexivity|]. split; [|split; [|reflexivity]].
    + rewrite lookup_insert_eq. f_equal. f_equal.
      rewrite !str_app_assoc. reflexivity.
    + intros other Hother. now rewrite !lookup_insert_ne by congruence.
Qed.


End WebSearch.

(** ** The paper registry and the arXiv flows *)

Lemma dict_set_keys_present (k : string) (v : json) (d : list (string * json)) :
  is_Some (PyVal.dict_get k d) ->
  map fst (PyVal.dict_set k v d) = map fst d.
Proof.
  induction d as [|[k' v'] d IH]; simpl.
  - intros [x Hx]. discriminate.
  - destruct (String.eqb_spec k' k) as [->|Hk]; simpl; [reflexivity|].
    intros H. now rewrite IH.
Qed.

Lemma dict_set_keys_absent (k : string) (v : json) (d : list (string * json)) :
  PyVal.dict_get k d = None ->
  map fst (PyVal.dict_set k v d) = map fst d ++ [k].
Proof.
  induction d as [|[k' v'] d IH]; simpl; [reflexivity|].
  destruct (String.eqb_spec k' k) as [->|Hk]; simpl; [discriminate|].
  intros H. now rewrite IH.
Qed.

Lemma clock_only_quiet (evs : list event) :
  clock_only evs ->
  quiet evs /\ kb_searches evs = [] /\ http_posts evs = []
  /\ arxiv_searches evs = [] /\ invocations evs = [] /\ splits evs = [].
Proof.
  unfold quiet. induction 1 as [|ev evs <- _ IH]; [repeat split|].
  simpl. exact IH.
Qed.

Section Registry.

Context (E : Env) (cfg : Config).

(** [save_paper_details] on a usable registry: the record is written. *)
Lemma save_paper_details_usable (s : state) (paper_id title authors : string)
  (url summary : option string) (config_manager : bool) :
  let path := registry_path cfg config_manager in
  registry_usable s path ->
  save_paper_details E cfg paper_id title authors url summary config_manager s
  = (Ok true,
     mkState (<[path := FJson (JObj (PyVal.dict_set paper_id
                                       (paper_record paper_id title authors url summary
                                          (time_time E (trace s)))
                                       (registry_of s path)))]> (files s))
             (unreadable s) (unwritable s) (trace s ++ [EvTime]) (memory s)).
Proof.
  cbv zeta. intros (Hne & Hr & Hw & Hshape).
  unfold registry_of.
  unfold save_paper_details, vendor_total, try_except, try_except_only, bind,
    get_state, emit, lift, ret. cbv beta iota.
  set (path := registry_path cfg config_manager) in *.
  unfold json_load_file, json_dump_file.
  cbn [files unreadable unwritable trace memory].
  destruct (String.eqb_spec path ""); [contradiction|].
  destruct (decide (path ∈ unreadable s)); [contradiction|].
  destruct (files s !! path) as [[j|raw]|] eqn:Hfile; cbn.
  - destruct j; try contradiction. cbn.
    destruct (decide (path ∈ unwritable s)); [contradiction | reflexivity].
  - destruct (decide (path ∈ unwritable s)); [contradiction | reflexivity].
  - destruct (decide (path ∈ unwritable s)); [contradiction | reflexivity].
Qed.

Ltac settle :=
  repeat split;
  solve [ reflexivity
        | simpl; lia
        | repeat constructor
        | intros; reflexivity
        | intros Habsurd; discriminate Habsurd
        | intros; now rewrite lookup_insert_ne by congruence ].

(** What [save_paper_details] returns, logs and writes. *)
Lemma save_paper_details_effects (s : state)
  (paper_id title authors : string) (url summary : option string)
  (config_manager : bool) :
  let run := save_paper_details E cfg paper_id title authors url summary
               config_manager s in
  exists saved evs,
    fst run = Ok saved
    /\ trace (snd run) = trace s ++ evs /\ clock_only evs /\ length evs <= 1
    /\ memory (snd run) = memory s
    /\ (saved = false -> files (snd run) = files s)
    /\ (forall other, other <> registry_path cfg config_manager ->
        files (snd run) !! other = files s !! other).
Proof.
  cbv zeta.
  unfold save_paper_details, vendor_total, try_except, try_except_only, bind,
    get_state, emit, lift, ret. cbv beta iota.
  set (path := registry_path cfg config_manager).
  unfold json_load_file, json_dump_file.
  cbn [files unreadable unwritable trace memory].
  destruct (String.eqb path "") eqn:Hempty; cbn.
  { exists false, [EvTime]. settle. }
  destruct (decide (path ∈ unreadable s)); cbn.
  { exists false, []. rewrite app_nil_r. settle. }
  destruct (files s !! path) as [[j|raw]|] eqn:Hfile; cbn.
  - destruct j; cbn; try (exists false, [EvTime]; settle; fail).
    destruct (decide (path ∈ unwritable s)); cbn;
      [exists false, [EvTime] | exists true, [EvTime]]; settle.
  - destruct (decide (path ∈ unwritable s)); cbn;
      [exists false, [EvTime] | exists true, [EvTime]]; settle.
  - destruct (decide (path ∈ unwritable s)); cbn;
      [exists false, [EvTime] | exists true, [EvTime]]; settle.
Qed.

(** X4: [save_paper_details] returns a flag in every case; when the flag is
    [False] no file was changed, and when it is [True] only the registry
    file was. Each call reads the clock at most once (the calls it logs
    are clock readings, and there is at most one) and calls nothing
    else. *)
Theorem save_paper_details_all_or_nothing (s : state)
  (paper_id title authors : string) (url summary : option string)
  (config_manager : bool) :
  let run := save_paper_details E cfg paper_id title authors url summary
               config_manager s in
  exists saved evs,
    fst run = Ok saved
    /\ trace (snd run) = trace s ++ evs /\ clock_only evs /\ length evs <= 1
    /\ memory (snd run) = memory s
    /\ (saved = false -> files (snd run) = files s)
    /\ (forall other, other <> registry_path cfg config_manager ->
        files (snd run) !! other = files s !! other).
Proof.
  exact (save_paper_details_effects s paper_id title authors url summary config_manager).
Qed.

Lemma get_paper_details_usable (s : state) (config_manager : bool) :
  registry_usable s (registry_path cfg config_manager) ->
  get_paper_details cfg config_manager s
  = (Ok (JObj (registry_of s (registry_path cfg config_manager))), s).
Proof.
  intros (Hne & Hr & _ & Hshape). unfold registry_of.
  unfold get_paper_details, try_except, try_except_only, bind, json_load_file, ret.
  destruct (String.eqb_spec (registry_path cfg config_manager) ""); [contradiction|].
  destruct (decide _); [contradiction|].
  destruct (files s !! registry_path cfg config_manager) as [[[]|]|];
    try contradiction; reflexivity.
Qed.

(** X5: a paper that is saved again keeps its place in the registry, and
    the registry keeps its size (the record is overwritten); a paper saved
    for the first time is added after the others. *)
Theorem save_paper_details_overwrites (s : state) (paper_id title authors : string)
  (url summary : option string) (config_manager : bool) :
  let path := registry_path cfg config_manager in
  let s' := snd (save_paper_details E cfg paper_id title authors url summary
                   config_manager s) in
  registry_usable s path ->
  (is_Some (PyVal.dict_get paper_id (registry_of s path)) ->
   map fst (registry_of s' path) = map fst (registry_of s path))
  /\ (PyVal.dict_get paper_id (registry_of s path) = None ->
      map fst (registry_of s' path) = map fst (registry_of s path) ++ [paper_id])
  /\ registry_usable s' path.
Proof.
  cbv zeta. intros Husable.
  rewrite (save_paper_details_usable s paper_id title authors url summary
             config_manager Husable).
  cbn [snd].
  match goal with
  | |- context [registry_of ?st ?p] =>
      lazymatch st with
      | s => fail
      | _ =>
          assert (Hafter : registry_of st p
                           = PyVal.dict_set paper_id
                               (paper_record paper_id title authors url summary
                                  (time_time E (trace s)))
                               (registry_of s p))
            by (unfold registry_of at 1; cbn [files]; now rewrite lookup_insert_eq);
          rewrite Hafter
      end
  end.
  split; [apply dict_set_keys_present|]. split; [apply dict_set_keys_absent|].
  destruct Husable as (Hne & Hr & Hw & _).
  unfold registry_usable. cbn [files unreadable unwritable].
  now rewrite lookup_insert_eq.
Qed.

(** X6: [summarize_arxiv_paper] calls the LLM only for a paper it finds in
    the registry. With a registry file that is missing or does not parse it
    returns "No paper details found."; with a registry that has no entry
    under the identifier it returns "No details found for paper ID ...";
    in both cases nothing is called and nothing changes. *)
Theorem summarize_unknown_paper (s : state) (paper_id : string)
  (add_to_kb knowledge_base claude_model : bool) :
  let path := registry_path cfg true in
  let run := summarize_arxiv_paper E cfg paper_id add_to_kb true knowledge_base
               claude_model s in
  path ∉ unreadable s ->
  ((files s !! path = None \/ exists raw, files s !! path = Some (FText raw)) ->
   run = (Ok "No paper details found.", s))
  /\ (forall registry,
        path <> "" ->
        files s !! path = Some (FJson (JObj registry)) ->
        PyVal.dict_get paper_id registry = None ->
        run = (Ok ("No details found for paper ID " +:+ paper_id +:+ "."), s)).
Proof.
  cbv zeta. intros Hr.
  unfold summarize_arxiv_paper, try_except_only, bind, json_load_file, lift, ret.
  split.
  - intros Hfile.
    destruct (String.eqb (registry_path cfg true) ""); [reflexivity|].
    destruct (decide _); [contradiction|].
    destruct Hfile as [-> | (raw & ->)]; reflexivity.
  - intros registry Hne Hfile Hmiss.
    destruct (String.eqb_spec (registry_path cfg true) ""); [contradiction|].
    destruct (decide _); [contradiction|].
    rewrite Hfile. cbn [PyVal.get_method]. rewrite Hmiss. reflexivity.
Qed.

Lemma summary_prompt_of_record (paper_id title authors : string)
  (url summary : option string) (t : spec_float) :
  summary_prompt E (paper_record paper_id title authors url summary t)
  = Ok ("Please summarize the following research paper:" +:+ NL +:+ NL
        +:+ "Title: " +:+ title +:+ NL
        +:+ "Authors: " +:+ authors +:+ NL
        +:+ "Abstract: " +:+ py_str E (opt_str summary) +:+ NL
        +:+ "URL: " +:+ py_str E (opt_str url) +:+ NL).
Proof. reflexivity. Qed.

Lemma add_summary_to_kb_of_record (paper_id title authors : string)
  (url summary : option string) (t : spec_float) (reply : string) (s : state) :
  add_summary_to_kb E paper_id (paper_record paper_id title authors url summary t)
    reply s
  = (Ok (reply +:+ error_adding
         +:+ "'KnowledgeBase' object has no attribute 'add_document'"), s).
Proof. reflexivity. Qed.

(** X7: a paper whose details were saved can be summarized by its
    identifier: the LLM is called once, on a prompt built from the title,
    authors, abstract and URL that were saved (a missing abstract or URL is
    rendered as the text of [None]); the reply comes back followed by the
    note that adding it to the knowledge base failed, and nothing is
    inserted into the knowledge base. *)
Theorem saved_paper_can_be_summarized (s : state) (paper_id title authors : string)
  (url summary : option string) :
  let s1 := snd (save_paper_details E cfg paper_id title authors url summary true s) in
  let run := summarize_arxiv_paper E cfg paper_id true true true true s1 in
  let prompt :=
    "Please summarize the following research paper:" +:+ NL +:+ NL
    +:+ "Title: " +:+ title +:+ NL
    +:+ "Authors: " +:+ authors +:+ NL
    +:+ "Abstract: " +:+ py_str E (opt_str summary) +:+ NL
    +:+ "URL: " +:+ py_str E (opt_str url) +:+ NL in
  registry_usable s (registry_path cfg true) ->
  generate_calls (trace (snd run)) = generate_calls (trace s) ++ [(prompt, None)]
  /\ kb_insertions (trace (snd run)) = kb_insertions (trace s)
  /\ exists reply,
       fst run = Ok (reply +:+ error_adding
                     +:+ "'KnowledgeBase' object has no attribute 'add_document'").
Proof.
  cbv zeta. intros Husable.
  rewrite (save_paper_details_usable s paper_id title authors url summary true Husable).
  cbn [snd]. destruct Husable as (Hne & Hr & Hw & _).
  unfold summarize_arxiv_paper, try_except_only, bind, json_load_file, lift, ret.
  cbn [files unreadable].
  destruct (String.eqb_spec (registry_path cfg true) ""); [contradiction|].
  destruct (decide _); [contradiction|].
  rewrite lookup_insert_eq. cbn [PyVal.get_method]. rewrite dict_get_set_eq.
  cbn [from_option id].
  replace (PyVal.truthy (paper_record paper_id title authors url summary
                           (time_time E (trace s)))) with true by reflexivity.
  cbn [negb andb]. rewrite summary_prompt_of_record. cbv beta iota.
  match goal with
  | |- context [ClaudeModel_get_response E ?a ?b ?c ?st] =>
      destruct (ClaudeModel_get_response_run E a b c st) as (reply & evs & -> & Hq)
  end.
  destruct Hq as (Hg & _ & _ & Hk).
  rewrite add_summary_to_kb_of_record.
  cbn [fst snd with_trace trace].
  rewrite !generate_calls_app, !kb_insertions_app. cbn [generate_calls kb_insertions].
  rewrite Hg, Hk, !app_nil_r.
  split; [reflexivity|]. split; [reflexivity|].
  exists reply. reflexivity.
Qed.

Lemma show_papers_trace (config_manager : bool) (papers : list arxiv_paper) :
  forall (i : nat) (s : state),
  exists evs,
    trace (snd (show_papers E cfg config_manager i papers s)) = trace s ++ evs
    /\ clock_only evs.
Proof.
  induction papers as [|q l IH]; intros i st.
  - exists []. simpl. split; [now rewrite app_nil_r | constructor].
  - cbn [show_papers]. unfold bind at 1. unfold show_paper, bind at 1.
    destruct (save_paper_details_effects st
                (PyStr.after_last "/" (entry_id q)) (paper_title q)
                (PyStr.join ", " (paper_authors q)) (Some (pdf_url q))
                (Some (PyStr.slice_to 500 (paper_summary q))) config_manager)
      as (saved & evs1 & Hfst & Htr & Hclock & _ & _).
    destruct (save_paper_details E cfg _ _ _ _ _ config_manager st)
      as [[b|e] s1]; cbn [fst snd] in *; [|discriminate].
    cbn [ret]. unfold bind at 1.
    destruct (IH (S i) s1) as (evs2 & Htr2 & Hclock2).
    destruct (show_papers E cfg config_manager (S i) l s1) as [[infos|e] s2];
      cbn [fst snd ret] in *; rewrite Htr2, Htr, <- app_assoc;
      (eexists; split; [reflexivity | now apply Forall_app]).
Qed.


(** Showing the papers of a search saves each of them: afterwards every
    one is in the registry under its identifier, and the identifiers of no
    paper shown are as before. *)
Lemma show_papers_registers (papers : list arxiv_paper) :
  forall (i : nat) (s : state),
    let path := registry_path cfg true in
    let s' := snd (show_papers E cfg true i papers s) in
    registry_usable s path ->
    registry_usable s' path
    /\ is_ok (fst (show_papers E cfg true i papers s)) = true
    /\ (forall p, In p papers ->
        exists record,
          PyVal.dict_get (paper_id_of p) (registry_of s' path) = Some (JObj record)
          /\ PyVal.dict_get "id" record = Some (JStr (paper_id_of p)))
    /\ (forall k, (forall p, In p papers -> paper_id_of p <> k) ->
        PyVal.dict_get k (registry_of s' path) = PyVal.dict_get k (registry_of s path)).
Proof.
  cbv zeta. induction papers as [|q l IH]; intros i s Husable.
  - cbn [show_papers ret fst snd is_ok].
    split; [exact Husable|]. split; [reflexivity|]. split; [intros p []|].
    intros k _. reflexivity.
  - set (record := paper_record (paper_id_of q) (paper_title q)
                     (PyStr.join ", " (paper_authors q)) (Some (pdf_url q))
                     (Some (PyStr.slice_to 500 (paper_summary q)))
                     (time_time E (trace s))).
    set (s1 := mkState
                 (<[registry_path cfg true :=
                      FJson (JObj (PyVal.dict_set (paper_id_of q) record
                                     (registry_of s (registry_path cfg true))))]>
                    (files s))
                 (unreadable s) (unwritable s) (trace s ++ [EvTime]) (memory s)).
    assert (Hrun : exists info,
               show_papers E cfg true i (q :: l) s
               = match show_papers E cfg true (S i) l s1 with
                 | (Ok infos, s2) => (Ok (info :: infos), s2)
                 | (Raise e, s2) => (Raise e, s2)
                 end).
    { eexists. cbn [show_papers]. unfold bind at 1. unfold show_paper. unfold bind at 1.
      rewrite (save_paper_details_usable s _ _ _ _ _ true Husable).
      reflexivity. }
    destruct Hrun as (info & ->).
    assert (Hreg1 : registry_of s1 (registry_path cfg true)
                    = PyVal.dict_set (paper_id_of q) record
                        (registry_of s (registry_path cfg true))).
    { unfold registry_of at 1. unfold s1. cbn [files]. now rewrite lookup_insert_eq. }
    assert (Husable1 : registry_usable s1 (registry_path cfg true)).
    { destruct Husable as (Hne & Hr & Hw & _). unfold registry_usable, s1.
      cbn [files unreadable unwritable]. now rewrite lookup_insert_eq. }
    destruct (IH (S i) s1 Husable1) as (Husable2 & Hok & Hin & Hframe).
    destruct (show_papers E cfg true (S i) l s1) as [[infos|e] s2];
      cbn [fst snd is_ok] in *; [|discriminate].
    split; [exact Husable2|]. split; [reflexivity|]. split.
    + intros p [<-|Hp]; [|now apply Hin].
      destruct (existsb (fun p => String.eqb (paper_id_of p) (paper_id_of q)) l)
        eqn:Hlater.
      * apply existsb_exists in Hlater as (p & Hp & Heq).
        apply String.eqb_eq in Heq. rewrite <- Heq. now apply Hin.
      * rewrite Hframe.
        -- rewrite Hreg1, dict_get_set_eq. exists
             [("id", JStr (paper_id_of q)); ("title", JStr (paper_title q));
              ("authors", JStr (PyStr.join ", " (paper_authors q)));
              ("url", opt_str (Some (pdf_url q)));
              ("summary", opt_str (Some (PyStr.slice_to 500 (paper_summary q))));
              ("last_accessed", JFloat (time_time E (trace s)))].
           split; reflexivity.
        -- intros p Hp Heq.
           assert (Hex : existsb (fun p => String.eqb (paper_id_of p) (paper_id_of q)) l
                         = true).
           { apply existsb_exists. exists p. split; [exact Hp|].
             now apply String.eqb_eq. }
           congruence.
    + intros k Hk. rewrite Hframe by (intros p Hp; apply Hk; now right).
      rewrite Hreg1. apply dict_get_set_ne. intros ->. now apply (Hk q); [left|].
Qed.

(** X9: after [search_arxiv] on a usable registry, every paper the search
    returned is in the registry under its identifier (the last component of
    its entry URL), and the entries under other identifiers are as before.
    The search itself returns the listing. *)
Theorem search_arxiv_registers_results (s : state) (query : string) (max_results : Z)
  (papers : list arxiv_paper) :
  let path := registry_path cfg true in
  let run := search_arxiv E cfg query max_results true s in
  registry_usable s path ->
  arxiv_results E (trace s) (arxiv_query query) max_results = Ok papers ->
  (exists listing, fst run = Ok listing)
  /\ (forall p, In p papers ->
      exists record,
        PyVal.dict_get (paper_id_of p) (registry_of (snd run) path) = Some (JObj record)
        /\ PyVal.dict_get "id" record = Some (JStr (paper_id_of p)))
  /\ (forall k, (forall p, In p papers -> paper_id_of p <> k) ->
      PyVal.dict_get k (registry_of (snd run) path)
      = PyVal.dict_get k (registry_of s path)).
Proof.
  cbv zeta. intros Husable Hanswer.
  unfold search_arxiv. fold (arxiv_query query).
  unfold try_except, vendor, bind, get_state, emit, lift.
  cbv beta iota. cbn [trace]. rewrite Hanswer. cbv beta iota.
  destruct papers as [|p papers].
  - cbn [ret fst snd]. split; [eauto|]. split; [intros p []|]. intros k _. reflexivity.
  - match goal with
    | |- context [show_papers E cfg true 0 ?l ?st] =>
        assert (Hst : registry_usable st (registry_path cfg true)) by exact Husable;
        destruct (show_papers_registers l 0 st Hst) as (_ & Hok & Hin & Hframe);
        destruct (show_papers E cfg true 0 l st) as [[infos|e] s2]
    end; cbn [fst snd is_ok ret] in *; [|discriminate].
    split; [eauto|]. split; [exact Hin | exact Hframe].
Qed.

End Registry.

(** ** Conversation memory: what a turn stores *)

Lemma convert_history_app (l1 l2 : list json) :
  forall acc,
    convert_history (l1 ++ l2) acc
    = rbind (convert_history l1 acc) (convert_history l2).
Proof.
  induction l1 as [|msg l1 IH]; intros acc; [reflexivity|].
  cbn [app convert_history].
  destruct (PyVal.getitem msg "role") as [role|e]; [|reflexivity].
  destruct (PyVal.eq_str role "user").
  { destruct (PyVal.getitem msg "content"); [apply IH | reflexivity]. }
  destruct (PyVal.eq_str role "assistant").
  { destruct (PyVal.getitem msg "content"); [apply IH | reflexivity]. }
  apply IH.
Qed.

Lemma add_message_exact (message : string) (is_human : bool) (s : state) :
  add_message message is_human s = (Ok tt, after_message s is_human message).
Proof.
  unfold add_message, _save_messages, add_chat, set_messages, set_summary_chat,
    try_except, bind, get_memory, set_memory, json_dump_file, ret, after_message,
    files_after_dump.
  destruct is_human; cbn [memory messages thread_id memory_file paper_details_file
                          summary_chat files unreadable unwritable trace];
    (destruct (String.eqb _ ""); [reflexivity|]);
    (destruct (decide _); reflexivity).
Qed.

Lemma after_message_in_sync (st : state) (is_human : bool) (text : string) :
  in_sync (memory st) -> in_sync (memory (after_message st is_human text)).
Proof.
  unfold in_sync, after_message. cbn [memory messages summary_chat].
  intros H. rewrite convert_history_app, H. destruct is_human; reflexivity.
Qed.

(** Replaying a log into the summarizer's chat adds to the chat what the
    generation call would make of the log. *)
Lemma replay_converts (l : list json) :
  forall s s',
    for_each l replay_message s = (Ok tt, s') ->
    convert_history l (summary_chat (memory s)) = Ok (summary_chat (memory s'))
    /\ messages (memory s') = messages (memory s).
Proof.
  induction l as [|msg l IH]; intros s s'.
  - intros [= <-]. split; reflexivity.
  - cbn [for_each convert_history]. unfold bind at 1.
    unfold replay_message, add_chat, set_summary_chat, bind, lift, get_memory,
      set_memory, ret.
    destruct (PyVal.getitem msg "role") as [role|e]; [|discriminate].
    destruct (PyVal.eq_str role "user").
    { destruct (PyVal.getitem msg "content") as [c|e]; [|discriminate].
      intros H. apply IH in H. exact H. }
    destruct (PyVal.eq_str role "assistant").
    { destruct (PyVal.getitem msg "content") as [c|e]; [|discriminate].
      intros H. apply IH in H. exact H. }
    intros H. apply IH in H. exact H.
Qed.

Section Turns.

Context (E : Env).

Ltac advance :=
  cbv beta iota;
  match goal with
  | |- context [get_paper_details_context E ?st] =>
      let text := fresh "text" in
      let H := fresh "Hpapers" in
      destruct (get_paper_details_context_run E st) as (text & H); rewrite H; clear H
  | |- context [ClaudeModel_get_response E ?a ?b ?c ?st] =>
      let reply := fresh "reply" in
      let evs := fresh "evs" in
      let H := fresh "Hgen" in
      let Hq := fresh "Hquiet" in
      destruct (ClaudeModel_get_response_run E a b c st) as (reply & evs & H & Hq);
      rewrite H; clear H
  | |- context [add_message ?a ?b ?st] => rewrite (add_message_exact a b st)
  | |- context [compute_summary E ?st] => rewrite (compute_summary_run E st)
  end;
  cbv beta iota.

(** The two outcomes of a turn: the query and the reply are stored, or (for
    a log of 10 messages or more, when the summarizer raises) nothing is. *)
Lemma get_response_shape (s : state) (query : string) (context : option string) :
  exists st,
    same_store st s
    /\ ((exists reply,
            get_response E query context s
            = (Ok reply, after_message (after_message st true query) false reply))
        \/ (10 <= length (messages (memory s))
            /\ exists apology, get_response E query context s = (Ok apology, st))).
Proof.
  unfold get_response, try_except, bind, get_memory, ret. cbv beta iota.
  destruct (10 <=? length (messages (memory s)))%nat eqn:Hn; cbn [andb].
  - apply Nat.leb_le in Hn.
    destruct (length (messages (memory s)) mod 10 =? 0)%nat.
    + advance. cbn [trace with_trace memory].
      destruct (load_memory_variables E (trace s) (summary_chat (memory s))).
      * advance. advance. cbn [trace with_trace memory].
        destruct (load_memory_variables E _ (summary_chat (memory s))).
        -- repeat advance. eexists. split; [|left; eexists; reflexivity].
           repeat split.
        -- eexists. split; [|right; split; [exact Hn | eexists; reflexivity]].
           repeat split.
      * eexists. split; [|right; split; [exact Hn | eexists; reflexivity]].
        repeat split.
    + advance. advance. cbn [trace with_trace memory].
      destruct (load_memory_variables E _ (summary_chat (memory s))).
      * repeat advance. eexists. split; [|left; eexists; reflexivity]. repeat split.
      * eexists. split; [|right; split; [exact Hn | eexists; reflexivity]].
        repeat split.
  - repeat advance. eexists. split; [|left; eexists; reflexivity]. repeat split.
Qed.

(** What two calls of [add_message], for the query and for the reply, leave
    behind. *)
Lemma two_messages_stored (st s : state) (query reply : string) :
  same_store st s ->
  let m := memory s in
  let s' := after_message (after_message st true query) false reply in
  messages (memory s')
  = messages m ++ [PyVal.message "user" query; PyVal.message "assistant" reply]
  /\ summary_chat (memory s')
     = summary_chat m ++ [HumanMessage (JStr query); AIMessage (JStr reply)]
  /\ (memory_file m <> "" -> memory_file m ∉ unwritable s ->
      files s' !! memory_file m = Some (FJson (JArr (messages (memory s')))))
  /\ (forall other, other <> memory_file m -> files s' !! other = files s !! other)
  /\ thread_id (memory s') = thread_id m
  /\ memory_file (memory s') = memory_file m.
Proof.
  intros (Hf & Hr & Hw & Hm). cbv zeta.
  destruct st as [fs ur uw tr mem]. cbn [files unreadable unwritable memory] in *.
  subst fs ur uw mem.
  unfold after_message. cbn [memory messages summary_chat thread_id memory_file
                             paper_details_file files unreadable unwritable trace].
  rewrite <- !app_assoc. cbn [app].
  split; [reflexivity|]. split; [reflexivity|]. split; [|split; [|split; reflexivity]].
  - intros Hne Hwritable. now apply files_after_dump_written.
  - intros other Hother.
    etransitivity; [apply files_after_dump_other; exact Hother|].
    cbn [files]. etransitivity; [apply files_after_dump_other; exact Hother|].
    reflexivity.
Qed.

(** A turn returns a text, and below 10 messages it stores the turn. *)
Lemma get_response_returns (s : state) (query : string) (context : option string) :
  exists reply,
    fst (get_response E query context s) = Ok reply
    /\ (length (messages (memory s)) < 10 ->
        messages (memory (snd (get_response E query context s)))
        = messages (memory s)
          ++ [PyVal.message "user" query; PyVal.message "assistant" reply]).
Proof.
  destruct (get_response_shape s query context)
    as (st & Hsame & [(reply & ->) | (Hn & apology & ->)]).
  - exists reply. split; [reflexivity|]. intros _.
    apply (two_messages_stored st s query reply Hsame).
  - exists apology. split; [reflexivity|]. intros Hlt. lia.
Qed.

(** X10: [get_response] returns a text in every case. A turn either stores
    exactly two messages, the query as user and the text returned as
    assistant, at the end of the log and of the summarizer's chat, and
    rewrites the log file with the whole new log when the file can be
    written; or, for a log of 10 messages or more only, it stores nothing
    and changes no file. Below 10 messages the first always holds. No file
    other than the log is written. *)
Theorem get_response_stores_turn (s : state) (query : string)
  (context : option string) :
  let m := memory s in
  let run := get_response E query context s in
  let s' := snd run in
  exists reply,
    fst run = Ok reply
    /\ ((messages (memory s')
         = messages m ++ [PyVal.message "user" query; PyVal.message "assistant" reply]
         /\ summary_chat (memory s')
            = summary_chat m ++ [HumanMessage (JStr query); AIMessage (JStr reply)]
         /\ (memory_file m <> "" -> memory_file m ∉ unwritable s ->
             files s' !! memory_file m = Some (FJson (JArr (messages (memory s'))))))
        \/ (10 <= length (messages m) /\ memory s' = m /\ files s' = files s))
    /\ (length (messages m) < 10 ->
        messages (memory s')
        = messages m ++ [PyVal.message "user" query; PyVal.message "assistant" reply])
    /\ (forall other, other <> memory_file m -> files s' !! other = files s !! other)
    /\ thread_id (memory s') = thread_id m
    /\ memory_file (memory s') = memory_file m.
Proof.
  cbv zeta.
  destruct (get_response_shape s query context)
    as (st & Hsame & [(reply & ->) | (Hn & apology & ->)]).
  - exists reply. cbn [fst snd].
    destruct (two_messages_stored st s query reply Hsame)
      as (Hlog & Hchat & Hfile & Hother & Hthread & Hpath).
    split; [reflexivity|]. split; [left; auto|]. auto.
  - exists apology. cbn [fst snd]. destruct Hsame as (Hf & _ & _ & Hm).
    rewrite Hm, Hf.
    split; [reflexivity|]. split; [right; auto|].
    split; [intros Hlt; lia|]. repeat split; reflexivity.
Qed.

(** X11: the summarizer's chat stays in step with the log. If the chat holds
    the user and assistant messages of the log, in order, it still does
    after [add_message] and after a whole turn of [get_response]; [reset]
    brings both to empty; and [_load_messages], started with an empty chat
    as in [__init__], fills the chat from the log it loads. *)
Theorem chat_memory_in_sync (s : state) :
  in_sync (memory (snd (reset E s)))
  /\ (forall text is_human,
        in_sync (memory s) -> in_sync (memory (snd (add_message text is_human s))))
  /\ (forall query context,
        in_sync (memory s) -> in_sync (memory (snd (get_response E query context s))))
  /\ (summary_chat (memory s) = [] ->
      fst (_load_messages s) = Ok tt ->
      in_sync (memory (snd (_load_messages s)))).
Proof.
  split; [|split; [|split]].
  - rewrite reset_run. reflexivity.
  - intros text is_human H. rewrite add_message_exact. now apply after_message_in_sync.
  - intros query context H.
    destruct (get_response_shape s query context)
      as (st & (_ & _ & _ & Hm) & [(reply & ->) | (_ & apology & ->)]); cbn [snd].
    + apply after_message_in_sync, after_message_in_sync. now rewrite Hm.
    + now rewrite Hm.
  - intros Hchat. unfold _load_messages, try_except_only, bind, get_memory.
    cbv beta iota.
    pose proof (json_load_file_state (memory_file (memory s)) s) as Hstate.
    destruct (json_load_file (memory_file (memory s)) s) as [[j|e] s0];
      cbn [snd] in Hstate; subst s0.
    + destruct j; cbn [raise missing_or_unparsable exn_class TypeError String.eqb
                       Ascii.eqb Bool.eqb orb fst];
        try (intros Habsurd; discriminate Habsurd).
      unfold set_messages, bind, get_memory, set_memory. cbv beta iota.
      match goal with
      | |- context [for_each items replay_message ?st] =>
          pose proof (replay_converts items st) as Hconv;
          pose proof (replay_raises items st) as Hraise;
          destruct (for_each items replay_message st) as [[[]|e] s1]
      end; cbn [fst snd] in *.
      * intros _. destruct (Hconv s1 eq_refl) as [Hc Hm].
        cbn [memory summary_chat messages] in Hc, Hm.
        unfold in_sync. rewrite Hm, <- Hc, Hchat. reflexivity.
      * rewrite (Hraise e eq_refl). intros Habsurd. discriminate Habsurd.
    + destruct (missing_or_unparsable e); cbn [fst snd];
        [|intros Habsurd; discriminate Habsurd].
      intros _. unfold set_messages, bind, get_memory, set_memory. cbn [snd memory].
      unfold in_sync. cbn [messages summary_chat]. now rewrite Hchat.
Qed.

(** X12: the recovery policy of the message log. When the log file is
    missing or does not parse, [_load_messages] starts from an empty list
    and raises nothing; when the file cannot be read the error of the
    system is not caught: it leaves [_load_messages] and so [__init__]. *)
Theorem load_messages_recovers (s : state) :
  let m := memory s in
  let path := memory_file m in
  (path ∉ unreadable s ->
   (files s !! path = None \/ exists raw, files s !! path = Some (FText raw)) ->
   _load_messages s
   = (Ok tt, with_memory s (mkMemory (thread_id m) [] path (paper_details_file m)
                              (summary_chat m))))
  /\ (path <> "" -> path ∈ unreadable s ->
      _load_messages s = (Raise (PermissionError path), s)).
Proof.
  cbv zeta. unfold _load_messages, try_except_only, bind, get_memory,
    json_load_file, set_messages, set_memory, with_memory.
  split.
  - intros Hr Hfile.
    destruct (String.eqb (memory_file (memory s)) ""); [reflexivity|].
    destruct (decide _); [contradiction|].
    destruct Hfile as [-> | (raw & ->)]; reflexivity.
  - intros Hne Hr.
    destruct (String.eqb_spec (memory_file (memory s)) ""); [contradiction|].
    destruct (decide _); [reflexivity | contradiction].
Qed.

(** X13: after [reset] the next turn starts afresh: the generation call
    receives the empty history, no summary is computed, and the log holds
    exactly the two messages of that turn. *)
Theorem first_turn_after_reset (s : state) (query : string) (context : option string) :
  let s0 := snd (reset E s) in
  let run := get_response E query context s0 in
  generate_calls (trace (snd run)) = generate_calls (trace s) ++ [(query, Some [])]
  /\ summary_count (trace (snd run)) = summary_count (trace s)
  /\ exists reply,
       fst run = Ok reply
       /\ messages (memory (snd run))
          = [PyVal.message "user" query; PyVal.message "assistant" reply].
Proof.
  cbv zeta. rewrite reset_run. cbn [snd].
  set (s0 := mkState _ _ _ _ _).
  assert (Hn : length (messages (memory s0)) < 10) by (cbn; lia).
  destruct (get_response_verbatim E s0 query context Hn) as (Hg & Hc).
  split; [|split].
  - rewrite Hg. unfold s0. cbn [trace memory messages].
    rewrite generate_calls_app. cbn [generate_calls]. now rewrite app_nil_r.
  - rewrite Hc. unfold s0. cbn [trace]. rewrite summary_count_app. cbn. lia.
  - destruct (get_response_returns s0 query context) as (reply & Hfst & Hlog).
    exists reply. split; [exact Hfst|]. now apply Hlog.
Qed.

End Turns.

(** ** The generation call: what reaches the vendor *)

Lemma convert_history_length (l : list json) :
  forall acc out,
    convert_history l acc = Ok out -> length out <= length acc + length l.
Proof.
  induction l as [|msg l IH]; intros acc out; cbn [convert_history length].
  - intros [= <-]. lia.
  - destruct (PyVal.getitem msg "role") as [role|e]; [|discriminate].
    destruct (PyVal.eq_str role "user").
    { destruct (PyVal.getitem msg "content"); [|discriminate].
      intros H. apply IH in H. rewrite length_app in H. simpl in H. lia. }
    destruct (PyVal.eq_str role "assistant").
    { destruct (PyVal.getitem msg "content"); [|discriminate].
      intros H. apply IH in H. rewrite length_app in H. simpl in H. lia. }
    intros H. apply IH in H. lia.
Qed.

Lemma last_n_length {A} (n : nat) (l : list A) : length (PyVal.last_n n l) <= n.
Proof. unfold PyVal.last_n. rewrite length_drop. lia. Qed.

Lemma last_n_recent {A} (older recent : list A) :
  PyVal.last_n (length recent) (older ++ recent) = recent.
Proof.
  unfold PyVal.last_n. apply drop_app_length'. rewrite length_app. lia.
Qed.

Section Window.

Context (E : Env).

(** The requests a generation call sends to the vendor. *)
Lemma ClaudeModel_get_response_requests (message : string)
  (history : option (list json)) (context : option string) (s : state) :
  invocations (trace (snd (ClaudeModel_get_response E message history context s)))
  = invocations (trace s)
    ++ match convert_history (PyVal.last_n 6 (default [] history)) [] with
       | Ok msgs => [msgs ++ [HumanMessage (JStr (augmented message context))]]
       | Raise _ => []
       end.
Proof.
  unfold ClaudeModel_get_response, try_except, vendor, bind, emit, get_state, lift,
    ret, augmented. cbv beta iota. cbn [trace].
  destruct (convert_history _ _) as [msgs|e]; cbv beta iota; cbn [trace].
  - match goal with |- context [invoke E ?t ?m] => destruct (invoke E t m) end;
      cbn [snd trace]; rewrite !invocations_app; cbn [invocations];
      now rewrite app_nil_r.
  - cbn [snd trace]. rewrite invocations_app. cbn [invocations]. now rewrite app_nil_r.
Qed.

(** X14: a generation call sends at most one request to the vendor; the
    request holds at most seven messages, the last of which is the user's
    message (followed by the context when one is given), and it is built
    from the last six entries of the history only: entries before them
    never reach the vendor. When one of the last six entries cannot be read
    (no role, or no content under a known role) no request is sent. *)
Theorem generation_sends_last_six (message : string) (history : list json)
  (context : option string) (s : state) :
  let run h := ClaudeModel_get_response E message (Some h) context s in
  (exists sent,
      invocations (trace (snd (run history))) = invocations (trace s) ++ sent
      /\ length sent <= 1
      /\ (forall msgs, In msgs sent ->
          length msgs <= 7
          /\ last msgs = Some (HumanMessage (JStr (augmented message context)))))
  /\ (forall older recent,
        length recent = 6 ->
        invocations (trace (snd (run (older ++ recent))))
        = invocations (trace (snd (run recent))))
  /\ (forall e, convert_history (PyVal.last_n 6 history) [] = Raise e ->
      invocations (trace (snd (run history))) = invocations (trace s)).
Proof.
  cbv zeta. split; [|split].
  - rewrite ClaudeModel_get_response_requests. unfold default; cbn [from_option id].
    destruct (convert_history _ _) as [msgs|e] eqn:Hc.
    + eexists. split; [reflexivity|]. split; [simpl; lia|].
      intros ms [<-|[]]. apply convert_history_length in Hc.
      pose proof (last_n_length 6 history) as Hsix. rewrite length_app.
      cbn [length] in *.
      split; [lia | apply last_snoc].
    + exists []. split; [reflexivity|]. split; [simpl; lia | intros ms []].
  - intros older recent Hlen. rewrite !ClaudeModel_get_response_requests.
    unfold default; cbn [from_option id]. rewrite <- Hlen at 1. rewrite last_n_recent.
    unfold PyVal.last_n. now rewrite Hlen, Nat.sub_diag.
  - intros e He. rewrite ClaudeModel_get_response_requests. unfold default; cbn [from_option id].
    rewrite He. now rewrite app_nil_r.
Qed.

End Window.

(** ** Ingestion: the chunks and their metadata *)

Lemma str_app_nil_r (a : string) : a +:+ "" = a.
Proof.
  induction a as [|c a IH]; [reflexivity|].
  change (String c (a +:+ "") = String c a). now f_equal.
Qed.

Lemma join_empty_cons (p : string) (rest : list string) :
  PyStr.join "" (p :: rest) = p +:+ PyStr.join "" rest.
Proof.
  destruct rest; [cbn [PyStr.join]; now rewrite str_app_nil_r | reflexivity].
Qed.

Lemma concat_pages_all (pages : list (result string)) :
  forall acc,
    forallb is_ok pages = true ->
    concat_pages pages acc = Ok (acc +:+ pages_text pages).
Proof.
  unfold pages_text.
  induction pages as [|[t|e] pages IH]; intros acc; cbn [forallb is_ok andb map].
  - intros _. cbn [concat_pages PyStr.join]. now rewrite str_app_nil_r.
  - intros Hall. cbn [concat_pages]. rewrite (IH _ Hall).
    now rewrite join_empty_cons, !str_app_assoc.
  - discriminate.
Qed.

Lemma concat_pages_fails (pages : list (result string)) :
  forall acc, forallb is_ok pages = false -> is_ok (concat_pages pages acc) = false.
Proof.
  induction pages as [|[t|e] pages IH]; intros acc; cbn [forallb is_ok andb concat_pages].
  - discriminate.
  - apply IH.
  - reflexivity.
Qed.

Lemma chunk_metadata_lookup (file_path file_type date_added : string)
  (metadata : option (list (string * json))) :
  let md := chunk_metadata file_path file_type date_added metadata in
  PyVal.dict_get "source" md = Some (JStr file_path)
  /\ PyVal.dict_get "date_added" md = Some (JStr date_added)
  /\ PyVal.dict_get "file_type" md = Some (JStr file_type)
  /\ (forall key, key <> "source" -> key <> "date_added" -> key <> "file_type" ->
      PyVal.dict_get key md = PyVal.dict_get key (default [] metadata)).
Proof.
  cbv zeta. unfold chunk_metadata. repeat split.
  - rewrite !dict_get_set_ne by discriminate. apply dict_get_set_eq.
  - rewrite dict_get_set_ne by discriminate. apply dict_get_set_eq.
  - apply dict_get_set_eq.
  - intros key H1 H2 H3. now rewrite !dict_get_set_ne by assumption.
Qed.

Section Chunks.

Context (E : Env).

(** [extract_text] with the state it ends in: the read is logged when the
    type is supported. *)
Lemma extract_text_exact (s : state) (file_path file_type : string) :
  extract_text E file_path file_type s
  = (Ok (match reader E (trace s) file_path file_type with
         | Some (Ok text) => Some text
         | _ => None
         end),
     match reader E (trace s) file_path file_type with
     | Some _ => with_trace s (trace s ++ [EvReadDocument file_path file_type])
     | None => s
     end).
Proof.
  unfold extract_text, extract_text_from_pdf, reader, try_except, vendor, bind,
    get_state, emit, lift, ret, rbind, with_trace.
  destruct (String.eqb_spec file_type "pdf") as [->|_].
  { cbn. destruct (pdf_pages E (trace s) file_path) as [pages|e]; [|reflexivity].
    destruct (concat_pages pages ""); reflexivity. }
  destruct (String.eqb_spec file_type "txt") as [->|_].
  { cbn. destruct (read_utf8 E (trace s) file_path); reflexivity. }
  destruct (String.eqb_spec file_type "docx") as [->|_].
  { cbn. destruct (docx2txt_process E (trace s) file_path); reflexivity. }
  destruct s; reflexivity.
Qed.

(** X15: the text of a PDF is the text of its pages, each followed by a
    line break, when every page can be read; when the file cannot be opened
    or a single page fails, no text at all is returned (not the pages read
    so far), and nothing is raised. *)
Theorem pdf_text_is_all_or_nothing (s : state) (file_path : string) :
  fst (extract_text_from_pdf E file_path s)
  = Ok (match pdf_pages E (trace s) file_path with
        | Ok pages => if forallb is_ok pages then Some (pages_text pages) else None
        | Raise _ => None
        end).
Proof.
  unfold extract_text_from_pdf, try_except, vendor, bind, get_state, emit, lift, ret.
  cbv beta iota. cbn [trace].
  destruct (pdf_pages E (trace s) file_path) as [pages|e]; [|reflexivity].
  cbv beta iota.
  destruct (forallb is_ok pages) eqn:Hall.
  - now rewrite (concat_pages_all pages "" Hall).
  - pose proof (concat_pages_fails pages "" Hall) as Hfail.
    destruct (concat_pages pages ""); [discriminate | reflexivity].
Qed.

(** [process_document] on a document whose text could be read. *)
Lemma process_document_with_text (s : state) (file_path file_type text : string)
  (metadata : option (list (string * json))) :
  let t1 := trace s ++ [EvReadDocument file_path file_type] in
  let md := chunk_metadata file_path file_type (strftime E t1) metadata in
  let t2 := t1 ++ [EvStrftime; EvSplit text md] in
  reader E (trace s) file_path file_type = Some (Ok text) ->
  text <> "" ->
  process_document E file_path file_type metadata s
  = match create_documents E (t1 ++ [EvStrftime]) text md with
    | Raise e => (Ok (false, "Error processing document: " +:+ exn_msg e),
                  with_trace s t2)
    | Ok docs =>
        match add_documents E t2 docs with
        | Raise e => (Ok (false, "Error processing document: " +:+ exn_msg e),
                      with_trace s (t2 ++ [EvAddDocuments docs]))
        | Ok _ => (Ok (true, "Successfully added " +:+ pretty (length docs)
                              +:+ " chunks to knowledge base"),
                   with_trace s (t2 ++ [EvAddDocuments docs; EvPersist]))
        end
    end.
Proof.
  cbv zeta. intros Hreader Htext.
  unfold process_document, try_except. unfold bind at 1.
  rewrite extract_text_exact, Hreader. cbv beta iota.
  unfold no_text. rewrite (truthy_nonempty _ Htext). cbn [negb].
  unfold vendor, vendor_total, bind, get_state, emit, lift, ret, with_trace.
  cbv beta iota. cbn [trace files unreadable unwritable memory default from_option id].
  fold (chunk_metadata file_path file_type
          (strftime E (trace s ++ [EvReadDocument file_path file_type])) metadata).
  rewrite <- ?app_assoc. cbn [app].
  destruct (create_documents E _ text _) as [docs|e]; [|reflexivity].
  cbv beta iota. cbn [trace]. rewrite <- ?app_assoc. cbn [app].
  destruct (add_documents E _ docs) as [[]|e]; [|reflexivity].
  cbv beta iota. cbn [trace]. rewrite <- ?app_assoc. cbn [app].
  destruct (persist E _); reflexivity.
Qed.

(** [process_document] on a document that yields no text. *)
Lemma process_document_without_text (s : state) (file_path file_type : string)
  (metadata : option (list (string * json))) :
  (forall text, reader E (trace s) file_path file_type = Some (Ok text) -> text = "") ->
  process_document E file_path file_type metadata s
  = (Ok (false, "Failed to extract text from document"),
     match reader E (trace s) file_path file_type with
     | Some _ => with_trace s (trace s ++ [EvReadDocument file_path file_type])
     | None => s
     end).
Proof.
  intros Hnone. unfold process_document, try_except. unfold bind at 1.
  rewrite extract_text_exact.
  destruct (reader E (trace s) file_path file_type) as [[text|e]|]; try reflexivity.
  rewrite (Hnone text eq_refl). reflexivity.
Qed.

(** X16: a document whose text is read, split and added to the vector
    store is reported as ingested, with the number of its chunks, whether
    or not the store could then be persisted to disk; the chunks are
    handed to the store once. *)
Theorem ingestion_survives_failed_persist (s : state)
  (file_path file_type text : string) (metadata : option (list (string * json)))
  (docs : list Document) :
  let run := process_document E file_path file_type metadata s in
  let t1 := trace s ++ [EvReadDocument file_path file_type] in
  let md := chunk_metadata file_path file_type (strftime E t1) metadata in
  reader E (trace s) file_path file_type = Some (Ok text) ->
  text <> "" ->
  create_documents E (t1 ++ [EvStrftime]) text md = Ok docs ->
  add_documents E (t1 ++ [EvStrftime; EvSplit text md]) docs = Ok tt ->
  fst run = Ok (true, "Successfully added " +:+ pretty (length docs)
                      +:+ " chunks to knowledge base")
  /\ kb_insertions (trace (snd run)) = kb_insertions (trace s) ++ [docs]
  /\ files (snd run) = files s.
Proof.
  cbv zeta. intros Hreader Htext Hsplit Hadd.
  rewrite (process_document_with_text s file_path file_type text metadata Hreader Htext).
  rewrite Hsplit, Hadd. cbn [fst snd with_trace trace files].
  split; [reflexivity|]. split; [|reflexivity].
  rewrite !kb_insertions_app. cbn [kb_insertions]. now rewrite ?app_nil_r.
Qed.

(** X17: whatever metadata the caller passes, the chunks of a document
    carry its path as source, the declared type as file type and the date
    of ingestion; the caller's other entries are kept. At most one text is
    handed to the splitter per call. *)
Theorem chunks_carry_provenance (s : state) (file_path file_type : string)
  (metadata : option (list (string * json))) :
  let run := process_document E file_path file_type metadata s in
  exists handed,
    splits (trace (snd run)) = splits (trace s) ++ handed
    /\ length handed <= 1
    /\ (forall text md, In (text, md) handed ->
        reader E (trace s) file_path file_type = Some (Ok text)
        /\ PyVal.dict_get "source" md = Some (JStr file_path)
        /\ PyVal.dict_get "file_type" md = Some (JStr file_type)
        /\ (exists date, PyVal.dict_get "date_added" md = Some (JStr date))
        /\ (forall key, key <> "source" -> key <> "date_added" -> key <> "file_type" ->
            PyVal.dict_get key md = PyVal.dict_get key (default [] metadata))).
Proof.
  cbv zeta.
  destruct (reader E (trace s) file_path file_type) as [[[|c text]|e]|] eqn:Hreader.
  1, 3, 4: rewrite process_document_without_text
      by (intros text Ht; rewrite Hreader in Ht; now inversion Ht);
    rewrite Hreader; exists []; cbn [snd with_trace trace];
    rewrite ?splits_app, ?app_nil_r; cbn [splits];
    repeat split; try (now rewrite ?app_nil_r); try (simpl; lia); intros ? ? [].
  rewrite (process_document_with_text s file_path file_type (String c text) metadata
             Hreader) by discriminate.
  set (md := chunk_metadata _ _ _ _).
  exists [(String c text, md)].
  split.
  - destruct (create_documents E _ _ md) as [docs|e];
      [destruct (add_documents E _ docs) as [[]|e]|];
      cbn [snd with_trace trace]; rewrite !splits_app; cbn [splits];
      now rewrite ?app_nil_r.
  - split; [simpl; lia|].
    intros text' md' [[= <- <-]|[]].
    destruct (chunk_metadata_lookup file_path file_type
                (strftime E (trace s ++ [EvReadDocument file_path file_type])) metadata)
      as (Hs & Hd & Ht & Hk).
    split; [reflexivity|]. split; [exact Hs|]. split; [exact Ht|].
    split; [eexists; exact Hd | exact Hk].
Qed.

(** X18: a document that yields no text leaves the knowledge base alone:
    for a declared type outside pdf, txt and docx nothing at all happens
    (no file is opened); for a read that fails or returns the empty text
    nothing is handed to the splitter or to the vector store. The result
    is the failure pair in each case. *)
Theorem ingestion_without_text_touches_nothing (s : state)
  (file_path file_type : string) (metadata : option (list (string * json))) :
  let run := process_document E file_path file_type metadata s in
  (~ In file_type ["pdf"; "txt"; "docx"] ->
   run = (Ok (false, "Failed to extract text from document"), s))
  /\ ((forall text, reader E (trace s) file_path file_type = Some (Ok text) -> text = "") ->
      fst run = Ok (false, "Failed to extract text from document")
      /\ splits (trace (snd run)) = splits (trace s)
      /\ kb_insertions (trace (snd run)) = kb_insertions (trace s)
      /\ files (snd run) = files s).
Proof.
  cbv zeta. split.
  - intros Hnot. rewrite process_document_without_text.
    + now rewrite (reader_unsupported E _ _ _ Hnot).
    + intros text. rewrite (reader_unsupported E _ _ _ Hnot). discriminate.
  - intros Hnone. rewrite (process_document_without_text _ _ _ _ Hnone).
    destruct (reader E (trace s) file_path file_type); cbn [fst snd with_trace trace files];
      rewrite ?splits_app, ?kb_insertions_app; cbn [splits kb_insertions];
      rewrite ?app_nil_r; auto.
Qed.

End Chunks.

(** ** The configuration: defaults, file and environment *)

Lemma update_nested_cons (d : list (string * json)) (k : string) (v : json)
  (rest : list (string * json)) :
  update_nested d (JObj ((k, v) :: rest))
  = update_nested (PyVal.dict_set k (updated_entry v (PyVal.dict_get k d)) d) (JObj rest).
Proof.
  unfold updated_entry.
  destruct v; try reflexivity.
  destruct (PyVal.dict_get k d) as [[]|] eqn:Hget; cbn [update_nested]; rewrite ?Hget;
    reflexivity.
Qed.

Lemma dict_get_absent (k : string) (d : list (string * json)) :
  k ∉ map fst d -> PyVal.dict_get k d = None.
Proof.
  induction d as [|[k' v] d IH]; [reflexivity|]. cbn [map fst PyVal.dict_get].
  intros Hnot. apply not_elem_of_cons in Hnot as [Hne Hnot].
  destruct (String.eqb_spec k' k) as [->|_]; [congruence|]. now apply IH.
Qed.

Lemma dict_get_present (k : string) (d : list (string * json)) :
  is_Some (PyVal.dict_get k d) -> k ∈ map fst d.
Proof.
  induction d as [|[k' v] d IH]; cbn [map fst PyVal.dict_get].
  - intros [v Hv]. discriminate Hv.
  - destruct (String.eqb_spec k' k) as [->|_]; [intros _; apply elem_of_cons; now left|].
    intros Hsome. apply elem_of_cons. right. now apply IH.
Qed.

(** What an update leaves under each key, for an update without repeated
    keys (as [json.load] returns it). *)
Lemma update_nested_lookup (fields : list (string * json)) :
  forall (d : list (string * json)) (k : string),
  NoDup (map fst fields) ->
  PyVal.dict_get k (update_nested d (JObj fields))
  = match PyVal.dict_get k fields with
    | Some v => Some (updated_entry v (PyVal.dict_get k d))
    | None => PyVal.dict_get k d
    end.
Proof.
  induction fields as [|[k' v] rest IH]; intros d k Hnodup; [reflexivity|].
  cbn [map fst] in Hnodup. inversion Hnodup as [|x l Htail Hhead]; subst.
  rewrite update_nested_cons, (IH _ k Hhead). cbn [PyVal.dict_get].
  destruct (String.eqb_spec k' k) as [->|Hne].
  - rewrite (dict_get_absent k rest Htail). apply dict_get_set_eq.
  - rewrite dict_get_set_ne by congruence. reflexivity.
Qed.

Section Environment.

Context (environ : list (string * string)).

Lemma override_api_keys_dict (keys : list string) :
  forall d, override_api_keys environ (map JStr keys) (JObj d)
            = Ok (JObj (with_environment environ keys d)).
Proof.
  induction keys as [|key keys IH]; intros d; [reflexivity|].
  cbn [map override_api_keys with_environment fold_left].
  destruct (api_key_from_environment environ key); cbn [PyVal.setitem]; apply IH.
Qed.

Lemma override_api_keys_keeps_dict (keys : list json) :
  forall api_keys d, override_api_keys environ keys api_keys = Ok (JObj d) ->
    exists d0, api_keys = JObj d0.
Proof.
  induction keys as [|key keys IH]; intros api_keys d; cbn [override_api_keys].
  - intros [= ->]. eauto.
  - destruct key; try (intros Habsurd; discriminate Habsurd).
    destruct (api_key_from_environment environ s); [|apply IH].
    destruct api_keys; cbn [PyVal.setitem]; try (intros Habsurd; discriminate Habsurd).
    eauto.
Qed.

Lemma with_environment_lookup (service : string) (keys : list string) :
  forall d,
  PyVal.dict_get service (with_environment environ keys d)
  = match api_key_from_environment environ service with
    | Some value => if bool_decide (service ∈ keys) then Some (JStr value)
                    else PyVal.dict_get service d
    | None => PyVal.dict_get service d
    end.
Proof.
  induction keys as [|key keys IH]; intros d.
  - cbn [with_environment fold_left]. rewrite bool_decide_eq_false_2 by apply not_elem_of_nil.
    now destruct (api_key_from_environment environ service).
  - change (with_environment environ (key :: keys) d)
      with (with_environment environ keys
              (match api_key_from_environment environ key with
               | Some value => PyVal.dict_set key (JStr value) d
               | None => d
               end)).
    rewrite IH.
    destruct (decide (key = service)) as [->|Hne].
    + rewrite (bool_decide_eq_true_2 (service ∈ service :: keys))
        by (apply elem_of_cons; now left).
      destruct (api_key_from_environment environ service) as [value|]; [|reflexivity].
      rewrite dict_get_set_eq. now destruct (bool_decide (service ∈ keys)).
    + assert (Hsame : PyVal.dict_get service
                        (match api_key_from_environment environ key with
                         | Some value => PyVal.dict_set key (JStr value) d
                         | None => d
                         end) = PyVal.dict_get service d).
      { destruct (api_key_from_environment environ key); [|reflexivity].
        apply dict_get_set_ne. congruence. }
      rewrite Hsame.
      destruct (api_key_from_environment environ service) as [value|]; [|reflexivity].
      destruct (decide (service ∈ keys)) as [Hin|Hout].
      * rewrite !bool_decide_eq_true_2; [reflexivity| |assumption].
        apply elem_of_cons. now right.
      * rewrite !bool_decide_eq_false_2; [reflexivity| |assumption].
        intros [Heq|Hin]%elem_of_cons; congruence.
Qed.

(** [_load_config] reads, and changes nothing: its result from the
    configuration of the file. *)
Lemma load_config_exact (file : string) (s : state) :
  _load_config file environ s
  = (rbind (PyVal.getitem (JObj (file_config file s)) "api_keys") (fun api_keys =>
     rbind (py_iter api_keys) (fun keys =>
     rbind (override_api_keys environ keys api_keys) (fun api_keys' =>
     Ok (PyVal.dict_set "api_keys" api_keys' (file_config file s))))), s).
Proof.
  assert (Hbase : (if bool_decide (is_Some (files s !! file)) then
                     try_except
                       (loaded_config <- json_load_file file ;;
                        lift (_update_nested_dict default_config loaded_config))
                       (fun _ => ret default_config)
                   else ret default_config)%py s = (Ok (file_config file s), s)).
  { unfold file_config, try_except, bind, json_load_file, lift, ret.
    destruct (files s !! file) as [[j|raw]|] eqn:Hfile.
    - rewrite bool_decide_eq_true_2 by eauto.
      destruct (String.eqb file ""); [now destruct j|].
      destruct (decide (file ∈ unreadable s)); [now destruct j|].
      rewrite Hfile. now destruct j.
    - rewrite bool_decide_eq_true_2 by eauto.
      destruct (String.eqb file ""); [reflexivity|].
      destruct (decide (file ∈ unreadable s)); [reflexivity|].
      now rewrite Hfile.
    - rewrite bool_decide_eq_false_2; [reflexivity|]. intros [x Hx]. discriminate Hx. }
  unfold _load_config. unfold bind at 1. unfold get_state. cbv beta iota.
  unfold bind at 1. rewrite Hbase. cbv beta iota.
  unfold bind, lift, ret, rbind.
  destruct (PyVal.getitem (JObj (file_config file s)) "api_keys") as [api_keys|e];
    [|reflexivity].
  destruct (py_iter api_keys) as [keys|e]; [|reflexivity].
  destruct (override_api_keys environ keys api_keys); reflexivity.
Qed.

(** X19: a setting of the configuration file replaces the default, a
    section of the file is merged into the default section entry by entry,
    and what the file does not mention keeps its default. Stated for the
    sections other than the API keys, of a file that holds an object. *)
Theorem file_settings_override_defaults (s : state) (file : string)
  (fields config : list (string * json)) (section : string) :
  file <> "" -> file ∉ unreadable s ->
  files s !! file = Some (FJson (JObj fields)) ->
  NoDup (map fst fields) ->
  fst (_load_config file environ s) = Ok config ->
  section <> "api_keys" ->
  PyVal.dict_get section config
  = match PyVal.dict_get section fields with
    | Some v => Some (updated_entry v (PyVal.dict_get section default_config))
    | None => PyVal.dict_get section default_config
    end.
Proof.
  intros Hname Hreadable Hfile Hnodup Hload Hsection.
  rewrite load_config_exact in Hload. cbn [fst] in Hload.
  assert (Hbase : file_config file s = update_nested default_config (JObj fields)).
  { unfold file_config. rewrite Hfile.
    destruct (String.eqb_spec file ""); [congruence|].
    now destruct (decide (file ∈ unreadable s)). }
  rewrite Hbase in Hload. unfold rbind in Hload.
  destruct (PyVal.getitem _ "api_keys") as [api_keys|e]; [|discriminate Hload].
  destruct (py_iter api_keys) as [keys|e]; [|discriminate Hload].
  destruct (override_api_keys environ keys api_keys) as [api_keys'|e];
    [|discriminate Hload].
  injection Hload as <-.
  rewrite dict_get_set_ne by congruence.
  now apply update_nested_lookup.
Qed.

(** X20: in a configuration that was loaded, every API key whose
    environment variable is defined has the value of the variable, whatever
    the configuration file says. *)
Theorem environment_overrides_file (s : state) (file : string)
  (config api_keys : list (string * json)) (service value : string) :
  fst (_load_config file environ s) = Ok config ->
  PyVal.dict_get "api_keys" config = Some (JObj api_keys) ->
  is_Some (PyVal.dict_get service api_keys) ->
  api_key_from_environment environ service = Some value ->
  ConfigManager_get_api_key (mkConfigManager file config) service = Ok (JStr value).
Proof.
  intros Hload Hkeys Hknown Henv.
  rewrite load_config_exact in Hload. cbn [fst] in Hload. unfold rbind in Hload.
  destruct (PyVal.getitem _ "api_keys") as [before|e]; [|discriminate Hload].
  destruct (py_iter before) as [keys|e] eqn:Hiter; [|discriminate Hload].
  destruct (override_api_keys environ keys before) as [after|e] eqn:Hover;
    [|discriminate Hload].
  injection Hload as <-. rewrite dict_get_set_eq in Hkeys. injection Hkeys as ->.
  destruct (override_api_keys_keeps_dict _ _ _ Hover) as (d0 & ->).
  cbn [py_iter] in Hiter. injection Hiter as <-.
  rewrite <- (map_map fst JStr d0), override_api_keys_dict in Hover.
  injection Hover as <-.
  unfold ConfigManager_get_api_key. cbn [config PyVal.getitem].
  rewrite dict_get_set_eq. cbn [PyVal.get_method].
  rewrite with_environment_lookup, Henv in Hknown |- *.
  destruct (decide (service ∈ map fst d0)) as [Hin|Hout].
  - now rewrite bool_decide_eq_true_2 by assumption.
  - rewrite bool_decide_eq_false_2 in Hknown by assumption.
    destruct Hout. now apply dict_get_present.
Qed.

(** X21: a configuration file that is missing, cannot be read, does not
    parse or holds something other than an object never stops the start:
    the configuration is the default one, each of the four API keys being
    the value of its environment variable when defined and empty
    otherwise; nothing is written. *)
Theorem load_config_falls_back_to_defaults (s : state) (file : string) :
  (forall fields, files s !! file = Some (FJson (JObj fields)) ->
     file = "" \/ file ∈ unreadable s) ->
  exists api_keys,
    _load_config file environ s
    = (Ok (PyVal.dict_set "api_keys" (JObj api_keys) default_config), s)
    /\ map fst api_keys = services
    /\ forall service, service ∈ services ->
         PyVal.dict_get service api_keys
         = Some (JStr (default "" (api_key_from_environment environ service))).
Proof.
  intros Hbad.
  assert (Hbase : file_config file s = default_config).
  { unfold file_config.
    destruct (files s !! file) as [[[]|raw]|] eqn:Hfile; try reflexivity.
    destruct (String.eqb_spec file ""); [reflexivity|].
    destruct (decide (file ∈ unreadable s)); [reflexivity|].
    destruct (Hbad _ eq_refl); contradiction. }
  rewrite load_config_exact, Hbase.
  change (PyVal.getitem (JObj default_config) "api_keys")
    with (Ok (JObj [("anthropic", JStr ""); ("elevenlabs", JStr "");
                    ("perplexity", JStr ""); ("openai", JStr "")])).
  cbn [rbind py_iter map fst].
  rewrite (override_api_keys_dict services). cbn [rbind].
  eexists. split; [reflexivity|]. split.
  - unfold with_environment, services. cbn [fold_left].
    repeat (destruct (api_key_from_environment environ _)); reflexivity.
  - intros service Hin. rewrite with_environment_lookup.
    rewrite bool_decide_eq_true_2 by assumption.
    destruct (api_key_from_environment environ service); [reflexivity|].
    unfold services in Hin.
    repeat (apply elem_of_cons in Hin as [->|Hin]; [reflexivity|]).
    now apply elem_of_nil in Hin.
Qed.

End Environment.

(** X22: [set_api_key] refuses a service the configuration does not
    list, and changes nothing. For a listed service the key is replaced in
    the running configuration, the other keys and sections being kept,
    whether or not the file can then be written; the flag returned tells
    whether the new configuration reached the file. *)
Theorem set_api_key_updates_running_configuration (s : state) (cm : ConfigManager)
  (service key : string) (api_keys : list (string * json)) :
  let run := set_api_key cm service key s in
  PyVal.dict_get "api_keys" (config cm) = Some (JObj api_keys) ->
  (PyVal.dict_get service api_keys = None -> run = (Ok (false, cm), s))
  /\ (is_Some (PyVal.dict_get service api_keys) ->
      exists saved cm',
        fst run = Ok (saved, cm')
        /\ config_file cm' = config_file cm
        /\ ConfigManager_get_api_key cm' service = Ok (JStr key)
        /\ (forall other, other <> service ->
            ConfigManager_get_api_key cm' other = ConfigManager_get_api_key cm other)
        /\ (forall section, section <> "api_keys" ->
            PyVal.dict_get section (config cm') = PyVal.dict_get section (config cm))
        /\ (saved = true ->
            files (snd run) = <[config_file cm := FJson (JObj (config cm'))]> (files s))
        /\ (saved = false ->
            snd run = s /\ (config_file cm = "" \/ config_file cm ∈ unwritable s))).
Proof.
  cbv zeta. intros Hkeys.
  unfold set_api_key, bind, lift, ret. cbn [PyVal.getitem]. rewrite Hkeys.
  cbn [py_contains]. split.
  - intros Hnone. rewrite Hnone.
    rewrite bool_decide_eq_false_2; [reflexivity|]. intros [x Hx]. discriminate Hx.
  - intros Hsome. rewrite bool_decide_eq_true_2 by assumption.
    cbn [PyVal.setitem].
    set (cm' := mkConfigManager (config_file cm)
                  (PyVal.dict_set "api_keys"
                     (JObj (PyVal.dict_set service (JStr key) api_keys)) (config cm))).
    assert (Hnew : ConfigManager_get_api_key cm' service = Ok (JStr key)).
    { unfold ConfigManager_get_api_key, cm'. cbn [config PyVal.getitem].
      rewrite dict_get_set_eq. cbn [PyVal.get_method]. now rewrite dict_get_set_eq. }
    assert (Hothers : forall other, other <> service ->
              ConfigManager_get_api_key cm' other = ConfigManager_get_api_key cm other).
    { intros other Hne. unfold ConfigManager_get_api_key, cm'. cbn [config PyVal.getitem].
      rewrite dict_get_set_eq, Hkeys. cbn [PyVal.get_method].
      now rewrite dict_get_set_ne by assumption. }
    assert (Hsections : forall section, section <> "api_keys" ->
              PyVal.dict_get section (config cm') = PyVal.dict_get section (config cm)).
    { intros section Hne. unfold cm'. cbn [config]. now apply dict_get_set_ne. }
    unfold save_config, try_except, bind, json_dump_file, ret.
    change (config_file cm') with (config_file cm).
    destruct (String.eqb_spec (config_file cm) "") as [Hempty|Hname].
    { exists false, cm'. cbn [fst snd]. repeat split; auto; discriminate. }
    destruct (decide (config_file cm ∈ unwritable s)) as [Hlocked|Hfree].
    { exists false, cm'. cbn [fst snd]. repeat split; auto; discriminate. }
    exists true, cm'. cbn [fst snd files]. repeat split; auto; discriminate.
Qed.

(** ** The interface: what [chat] does and what it leaves alone *)

Section Confinement.

Context (P : event -> Prop).

Lemma confined_still {A} (c : Py A) : (forall s, snd (c s) = s) -> confined P c.
Proof.
  intros Hc s. rewrite Hc. split; [reflexivity|].
  exists []. now rewrite app_nil_r.
Qed.

Lemma confined_ret {A} (a : A) : confined P (ret a).
Proof. now apply confined_still. Qed.

Lemma confined_raise {A} (e : exn) : confined P (@raise A e).
Proof. now apply confined_still. Qed.

Lemma confined_lift {A} (r : result A) : confined P (lift r).
Proof. now apply confined_still. Qed.

Lemma confined_get_state : confined P get_state.
Proof. now apply confined_still. Qed.

Lemma confined_json_load_file (path : string) : confined P (json_load_file path).
Proof. apply confined_still, reads_only_json_load_file. Qed.

Lemma confined_json_dump_file (path : string) (obj : json) :
  confined P (json_dump_file path obj).
Proof.
  intros s. unfold json_dump_file.
  destruct (String.eqb path ""); [|destruct (decide (path ∈ unwritable s))];
    cbn [snd memory trace]; (split; [reflexivity|]); exists []; now rewrite app_nil_r.
Qed.

Lemma confined_append_file (repr : json -> string) (path text : string) :
  confined P (append_file repr path text).
Proof.
  intros s. unfold append_file.
  destruct (String.eqb path ""); [|destruct (decide (path ∈ unwritable s))];
    cbn [snd memory trace]; (split; [reflexivity|]); exists []; now rewrite app_nil_r.
Qed.

Lemma confined_emit (ev : event) : P ev -> confined P (emit ev).
Proof.
  intros Hev s. unfold emit. cbn [snd memory trace]. split; [reflexivity|].
  exists [ev]. split; [reflexivity | now constructor].
Qed.

Lemma confined_bind {A B} (c : Py A) (k : A -> Py B) :
  confined P c -> (forall a, confined P (k a)) -> confined P (bind c k).
Proof.
  intros Hc Hk s. unfold bind. destruct (Hc s) as (Hm & evs & Ht & Hevs).
  destruct (c s) as [[a|e] s1]; cbn [snd] in *.
  - destruct (Hk a s1) as (Hm' & evs' & Ht' & Hevs').
    split; [congruence|]. exists (evs ++ evs').
    split; [now rewrite Ht', Ht, app_assoc | now apply Forall_app].
  - eauto.
Qed.

Lemma confined_try_except {A} (c : Py A) (h : exn -> Py A) :
  confined P c -> (forall e, confined P (h e)) -> confined P (try_except c h).
Proof.
  intros Hc Hh s. unfold try_except. destruct (Hc s) as (Hm & evs & Ht & Hevs).
  destruct (c s) as [[a|e] s1]; cbn [snd] in *.
  - eauto.
  - destruct (Hh e s1) as (Hm' & evs' & Ht' & Hevs').
    split; [congruence|]. exists (evs ++ evs').
    split; [now rewrite Ht', Ht, app_assoc | now apply Forall_app].
Qed.

Lemma confined_try_except_only {A} (catches : exn -> bool) (c : Py A)
  (h : exn -> Py A) :
  confined P c -> (forall e, confined P (h e)) -> confined P (try_except_only catches c h).
Proof.
  intros Hc Hh s. unfold try_except_only. destruct (Hc s) as (Hm & evs & Ht & Hevs).
  destruct (c s) as [[a|e] s1]; cbn [snd] in *.
  - eauto.
  - destruct (catches e); [|cbn [snd]; eauto].
    destruct (Hh e s1) as (Hm' & evs' & Ht' & Hevs').
    split; [congruence|]. exists (evs ++ evs').
    split; [now rewrite Ht', Ht, app_assoc | now apply Forall_app].
Qed.

Lemma confined_if {A} (b : bool) (c d : Py A) :
  confined P c -> confined P d -> confined P (if b then c else d).
Proof. now destruct b. Qed.

Lemma confined_vendor {A} (ev : event) (answer : list event -> result A) :
  P ev -> confined P (vendor ev answer).
Proof.
  intros Hev. unfold vendor.
  apply confined_bind; [apply confined_get_state|]. intros s.
  apply confined_bind; [now apply confined_emit|]. intros _. apply confined_lift.
Qed.

Lemma confined_vendor_total {A} (ev : event) (answer : list event -> A) :
  P ev -> confined P (vendor_total ev answer).
Proof.
  intros Hev. unfold vendor_total.
  apply confined_bind; [apply confined_get_state|]. intros s.
  apply confined_bind; [now apply confined_emit|]. intros _. apply confined_ret.
Qed.

End Confinement.

Create HintDb confined.
#[local] Hint Resolve confined_ret confined_raise confined_lift confined_get_state
  confined_json_load_file confined_json_dump_file confined_append_file : confined.
#[local] Hint Extern 1 (confined _ (emit _)) =>
  apply confined_emit; first [exact I | solve [auto]] : confined.
#[local] Hint Extern 1 (confined _ (vendor _ _)) =>
  apply confined_vendor; first [exact I | solve [auto]] : confined.
#[local] Hint Extern 1 (confined _ (vendor_total _ _)) =>
  apply confined_vendor_total; first [exact I | solve [auto]] : confined.
#[local] Hint Extern 2 (confined _ (bind _ _)) =>
  apply confined_bind; [|intros ?] : confined.
#[local] Hint Extern 2 (confined _ (try_except _ _)) =>
  apply confined_try_except; [|intros ?] : confined.
#[local] Hint Extern 2 (confined _ (try_except_only _ _ _)) =>
  apply confined_try_except_only; [|intros ?] : confined.
#[local] Hint Extern 3 (confined _ (if _ then _ else _)) =>
  apply confined_if : confined.
#[local] Hint Extern 3 (confined _ (match ?x with _ => _ end)) =>
  destruct x : confined.

(** The flows of [chat] that log the clock, generation without history and
    its request only. *)
Section Flows.

Context (E : Env) (cfg : Config) (P : event -> Prop).
Hypothesis clock : P EvTime.
Hypothesis generation : forall message, P (EvGenerate message None None).
Hypothesis request : forall msgs, P (EvInvoke msgs).

Lemma confined_save_paper_details (paper_id title authors : string)
  (url summary : option string) (config_manager : bool) :
  confined P (save_paper_details E cfg paper_id title authors url summary config_manager).
Proof. unfold save_paper_details. auto 20 with confined. Qed.

Lemma confined_show_papers (config_manager : bool) (papers : list arxiv_paper) :
  forall i, confined P (show_papers E cfg config_manager i papers).
Proof.
  induction papers as [|p rest IH]; intros i; cbn [show_papers].
  - apply confined_ret.
  - apply confined_bind.
    + unfold show_paper. apply confined_bind; [|intros ?; apply confined_ret].
      apply confined_save_paper_details.
    + intros info. apply confined_bind; [apply IH | intros ?; apply confined_ret].
Qed.

Lemma confined_generation (message : string) :
  confined P (ClaudeModel_get_response E message None None).
Proof. unfold ClaudeModel_get_response. auto 20 with confined. Qed.

Lemma confined_summarize_arxiv_paper (paper_id : string)
  (add_to_kb config_manager knowledge_base claude_model : bool) :
  confined P
    (summarize_arxiv_paper E cfg paper_id add_to_kb config_manager knowledge_base
       claude_model).
Proof.
  pose proof confined_generation.
  unfold summarize_arxiv_paper, add_summary_to_kb. auto 30 with confined.
Qed.

Lemma confined__get_kb_info (detailed : bool) : confined P (_get_kb_info E detailed).
Proof. unfold _get_kb_info. auto 20 with confined. Qed.

End Flows.

Lemma chat_events_observed (evs : list event) :
  Forall chat_event evs ->
  kb_insertions evs = [] /\ splits evs = [] /\ summary_count evs = 0
  /\ Forall (fun call => snd call = None) (generate_calls evs).
Proof.
  induction 1 as [|ev evs Hev _ (Hkb & Hsplit & Hsum & Hgen)].
  - repeat split; constructor.
  - destruct ev as [| | | | |m [h|] [c|]| | | | | | | |]; cbn in Hev; try contradiction;
      cbn [kb_insertions splits summary_count generate_calls];
      repeat split; try assumption.
    constructor; [reflexivity | assumption].
Qed.

Lemma unobserved_events (evs : list event) :
  Forall unobserved evs ->
  web_searches evs = [] /\ arxiv_searches evs = [] /\ kb_searches evs = [].
Proof.
  induction 1 as [|ev evs Hev _ IH]; [repeat split|].
  destruct ev; cbn in Hev; try contradiction; exact IH.
Qed.

Section Interface.

Context (E : Env) (cfg : Config).

Lemma confined_search_arxiv (query : string) (max_results : Z) (config_manager : bool) :
  confined chat_event (search_arxiv E cfg query max_results config_manager).
Proof.
  unfold search_arxiv. apply confined_try_except; [|intros ?; apply confined_ret].
  apply confined_bind; [apply confined_vendor; exact I|].
  intros [|p rest]; [apply confined_ret|].
  apply confined_bind; [|intros ?; apply confined_ret].
  now apply confined_show_papers.
Qed.

Lemma confined_search_relevant_context (query : string) (top_k : Z) :
  confined chat_event (search_relevant_context E cfg query top_k).
Proof. unfold search_relevant_context. auto 20 with confined. Qed.

Lemma confined_query_perplexity (query : string) (config_manager : bool) :
  confined chat_event (query_perplexity E cfg query config_manager).
Proof. unfold query_perplexity. auto 40 with confined. Qed.

Lemma confined_answer (message : string) : confined chat_event (answer E cfg message).
Proof.
  pose proof confined_search_arxiv. pose proof confined_search_relevant_context.
  pose proof confined_query_perplexity.
  assert (Hgen : forall m, confined chat_event (ClaudeModel_get_response E m None None))
    by (intros m; now apply confined_generation).
  unfold answer. destruct (route message); auto 10 with confined.
  - now apply confined_summarize_arxiv_paper.
  - now apply confined__get_kb_info.
Qed.


(** What a flow logs after its first call, when the rest logs unobserved
    calls only. *)
Lemma first_call_then_unobserved {A B} (ev : event) (answer : list event -> result A)
  (k : A -> Py B) (h : exn -> Py B) (s : state) :
  (forall a, confined unobserved (k a)) -> (forall e, confined unobserved (h e)) ->
  exists evs, trace (snd (try_except (bind (vendor ev answer) k) h s)) = trace s ++ ev :: evs
              /\ Forall unobserved evs.
Proof.
  intros Hk Hh.
  assert (Hrest : confined unobserved
                    (try_except (bind (lift (answer (trace s))) k) h)).
  { apply confined_try_except; [|exact Hh].
    apply confined_bind; [apply confined_lift | exact Hk]. }
  destruct (Hrest (with_trace s (trace s ++ [ev]))) as (_ & evs & Htrace & Hevs).
  exists evs. split; [|exact Hevs].
  cbn [with_trace trace] in Htrace. rewrite <- app_assoc in Htrace. cbn [app] in Htrace.
  rewrite <- Htrace. unfold try_except, bind, vendor, get_state, emit, lift, with_trace.
  cbn [trace]. reflexivity.
Qed.


End Interface.

(** ** The interface: commands, the debug panel, uploads *)

Lemma prefix_compatible (x : string) :
  forall p q, String.prefix p x = true -> String.prefix q x = true ->
    String.prefix p q = true \/ String.prefix q p = true.
Proof.
  induction x as [|c x IH]; intros [|a p] [|b q]; cbn [String.prefix]; auto;
    try (intros H; discriminate H); try (intros _ H; discriminate H).
  destruct (ascii_dec a c) as [->|]; [|intros H; discriminate H].
  destruct (ascii_dec b c) as [->|]; [|intros _ H; discriminate H].
  destruct (ascii_dec c c); [apply IH | congruence].
Qed.

Lemma route_kb_search (message : string) :
  PyStr.startswith (PyStr.lower message) "search kb:" = true ->
  route message = KbSearch /\ PyStr.strip message <> "".
Proof.
  unfold PyStr.startswith. intros H. split.
  - unfold route, PyStr.startswith.
    destruct (String.prefix "search arxiv:" (PyStr.lower message)) eqn:H1.
    { destruct (prefix_compatible _ _ _ H H1) as [Hc|Hc]; vm_compute in Hc;
        discriminate Hc. }
    destruct (String.prefix "summarize arxiv:" (PyStr.lower message)) eqn:H2.
    { destruct (prefix_compatible _ _ _ H H2) as [Hc|Hc]; vm_compute in Hc;
        discriminate Hc. }
    now rewrite H.
  - destruct message as [|c m]; [cbn in H; discriminate H|].
    apply strip_keeps_text, lower_char_s_not_space.
    now apply prefix_lower_cons in H as [Hc _].
Qed.

(** A text without carriage return is read as it is. *)
Lemma universal_newlines_plain (t : string) :
  PyStr.contains t (String (ascii_of_N 13) "") = false ->
  PyStr.universal_newlines t = t.
Proof.
  induction t as [|c r IH]; [reflexivity|].
  cbn [PyStr.contains PyStr.universal_newlines String.prefix].
  intros Hplain. apply orb_false_elim in Hplain as [Hhead Hrest].
  destruct (PyStr.code c =? 13)%N eqn:Hcode.
  - exfalso. apply N.eqb_eq in Hcode. unfold PyStr.code in Hcode.
    assert (Hc : c = ascii_of_N 13) by (now rewrite <- Hcode, ascii_N_embedding).
    subst c. revert Hhead. destruct r; discriminate.
  - now rewrite (IH Hrest).
Qed.

Section Panel.

Context (E : Env) (cfg : Config).


(** X26: the debug panel shows the search log: after an answered web
    search, [update_debug] returns what the log held before followed by the
    entry of the search, as a file read in text mode gives it (every
    carriage return, with the line feed that follows it if any, read as
    one line feed), so verbatim when the text holds no carriage return;
    it changes nothing. *)
Theorem debug_panel_shows_search_log (query : string) (s : state)
  (response : http_response) (result : list (string * json))
  (reply sources_text : string) :
  let key := get_api_key cfg "perplexity" in
  let log := str_or (get_file_path cfg "search_log_file") "search_log.txt" in
  let sources := from_option id (JArr []) (PyVal.dict_get "references" result) in
  let before := match files s !! log with
                | None => ""
                | Some (FText t) => t
                | Some (FJson j) => repr_value E j
                end in
  let written := before +:+ "QUERY: " +:+ query +:+ NL
                 +:+ "RESULT: " +:+ PyStr.slice_to 300 reply +:+ "..." +:+ NL
                 +:+ PyStr.repeat "-" 80 +:+ NL in
  let searched := snd (query_perplexity E cfg query true s) in
  key <> "" ->
  requests_post E (trace s ++ [EvPerplexity query]) perplexity_url key query
  = Ok response ->
  status_code response = 200%Z ->
  response_json response = Ok (JObj result) ->
  from_option id (JStr "No answer found.") (PyVal.dict_get "text" result) = JStr reply ->
  (if PyVal.truthy sources
   then rbind (iterate sources)
          (fun items => format_sources E 1 items (NL +:+ NL +:+ "📚 Sources:" +:+ NL))
   else Ok "") = Ok sources_text ->
  log ∉ unwritable s ->
  log ∉ unreadable s ->
  update_debug E cfg searched = (Ok (PyStr.universal_newlines written), searched)
  /\ (PyStr.contains written (String (ascii_of_N 13) "") = false ->
      update_debug E cfg searched = (Ok written, searched)).
Proof.
  cbv zeta. intros Hkey Hpost Hstatus Hjson Hreply Hsources Hw Hr.
  destruct (query_perplexity_answered E cfg query s response result reply sources_text
              Hkey Hpost Hstatus Hjson Hreply Hsources Hw) as (_ & Hlog & _ & Hperm).
  set (searched := snd (query_perplexity E cfg query true s)) in *.
  set (log := str_or (get_file_path cfg "search_log_file") "search_log.txt") in *.
  assert (Hname : String.eqb log "" = false).
  { apply String.eqb_neq. now apply str_or_nonempty. }
  assert (Hrun : forall written,
            files searched !! log = Some (FText written) ->
            update_debug E cfg searched
            = (Ok (PyStr.universal_newlines written), searched)).
  { intros written Hfile.
    unfold update_debug, try_except, bind, get_state, read_text_file.
    cbv beta iota zeta. fold log. rewrite Hfile, bool_decide_eq_true_2 by eauto.
    cbv beta iota. rewrite Hname, Hperm.
    destruct (decide (log ∈ unreadable s)); [contradiction|].
    now rewrite Hfile. }
  split.
  - apply Hrun. exact Hlog.
  - intros Hplain. rewrite (Hrun _ Hlog).
    now rewrite (universal_newlines_plain _ Hplain).
Qed.

(** X27: [upload_document] never raises. Without a file it asks for one;
    a file whose extension, lower-cased, is not pdf, txt or docx is refused
    without being opened and nothing changes; any other file goes to
    [process_document] with the lower-cased extension as type and no
    metadata, and the reply is the message of [process_document] behind a
    mark that tells its flag. *)
Theorem upload_document_checks_extension (s : state) (file : option string) :
  let run := upload_document E file s in
  (exists reply, fst run = Ok reply)
  /\ (file = None -> run = (Ok "Please select a file to upload.", s))
  /\ (forall file_path, file = Some file_path ->
      let file_type := PyStr.lower (PyStr.after_last "." file_path) in
      (~ In file_type ["pdf"; "txt"; "docx"] ->
       run = (Ok ("Unsupported file type: " +:+ file_type
                  +:+ ". Please upload PDF, TXT, or DOCX files."), s))
      /\ (In file_type ["pdf"; "txt"; "docx"] ->
          exists success message,
            process_document E file_path file_type None s
            = (Ok (success, message), snd run)
            /\ fst run = Ok ((if success then "✅ " else "❌ ") +:+ message))).
Proof.
  cbv zeta.
  assert (Htotal : forall file_path file_type,
            exists outcome s1,
              process_document E file_path file_type None s = (Ok outcome, s1)).
  { intros file_path file_type. unfold process_document.
    apply try_except_returns. intros e s1. eexists _, s1. reflexivity. }
  assert (Hmember : forall file_type,
            existsb (String.eqb file_type) ["pdf"; "txt"; "docx"] = true
            <-> In file_type ["pdf"; "txt"; "docx"]).
  { intros file_type. rewrite existsb_exists. split.
    - intros (x & Hin & Heq). apply String.eqb_eq in Heq. now subst.
    - intros Hin. exists file_type. split; [exact Hin | apply String.eqb_refl]. }
  destruct file as [file_path|].
  2: { split; [cbn; eauto|]. split; [reflexivity|].
       intros path Habsurd. discriminate Habsurd. }
  set (file_type := PyStr.lower (PyStr.after_last "." file_path)).
  assert (Hrun : upload_document E (Some file_path) s
                 = if existsb (String.eqb file_type) ["pdf"; "txt"; "docx"]
                   then match process_document E file_path file_type None s with
                        | (Ok outcome, s1) =>
                            (Ok ((if fst outcome then "✅ " else "❌ ") +:+ snd outcome), s1)
                        | (Raise e, s1) =>
                            (Ok ("❌ Error uploading document: " +:+ exn_msg e), s1)
                        end
                   else (Ok ("Unsupported file type: " +:+ file_type
                             +:+ ". Please upload PDF, TXT, or DOCX files."), s)).
  { unfold upload_document, try_except, bind, ret. fold file_type.
    destruct (existsb (String.eqb file_type) ["pdf"; "txt"; "docx"]); cbn [negb];
      [|reflexivity].
    destruct (process_document E file_path file_type None s) as [[[[] message]|e] s1];
      reflexivity. }
  rewrite Hrun. destruct (Htotal file_path file_type) as ([success message] & s1 & Hdoc).
  split; [|split].
  - destruct (existsb _ _); [rewrite Hdoc|]; cbn [fst]; eauto.
  - intros Habsurd. discriminate Habsurd.
  - intros path [= <-]. fold file_type. split.
    + intros Hnot. destruct (existsb _ _) eqn:Hin; [|reflexivity].
      destruct Hnot. now apply Hmember.
    + intros Hin. apply Hmember in Hin. rewrite Hin, Hdoc. cbn [fst snd].
      exists success, message. split; reflexivity.
Qed.

End Panel.

Lemma file_config_fallback (s : state) (file : string) :
  (forall fields, files s !! file = Some (FJson (JObj fields)) ->
     file = "" \/ file ∈ unreadable s) ->
  file_config file s = default_config.
Proof.
  intros Hbad. unfold file_config.
  destruct (files s !! file) as [[[]|raw]|] eqn:Hfile; try reflexivity.
  destruct (String.eqb_spec file ""); [reflexivity|].
  destruct (decide (file ∈ unreadable s)); [reflexivity|].
  destruct (Hbad _ eq_refl); contradiction.
Qed.

(** X28: started without a usable configuration file, the check of
    the API keys passes exactly when each of the four environment
    variables is defined and not empty. *)
Theorem api_key_check_without_file (environ : list (string * string)) (s : state)
  (file : string) :
  (forall fields, files s !! file = Some (FJson (JObj fields)) ->
     file = "" \/ file ∈ unreadable s) ->
  exists config,
    fst (_load_config file environ s) = Ok config
    /\ ensure_api_keys (mkConfigManager file config)
       = Ok (forallb (fun service =>
                        PyStr.truthy (default "" (api_key_from_environment environ service)))
                     services).
Proof.
  intros Hbad. rewrite load_config_exact, (file_config_fallback s file Hbad).
  change (PyVal.getitem (JObj default_config) "api_keys")
    with (Ok (JObj [("anthropic", JStr ""); ("elevenlabs", JStr "");
                    ("perplexity", JStr ""); ("openai", JStr "")])).
  cbn [rbind py_iter map fst].
  rewrite (override_api_keys_dict environ services). cbn [rbind fst].
  eexists. split; [reflexivity|].
  unfold ensure_api_keys. cbn [config PyVal.getitem]. rewrite dict_get_set_eq.
  cbn [items_method]. unfold with_environment, services. cbn [fold_left forallb].
  destruct (api_key_from_environment environ "anthropic"),
    (api_key_from_environment environ "elevenlabs"),
    (api_key_from_environment environ "perplexity"),
    (api_key_from_environment environ "openai"); reflexivity.
Qed.

(** ** The further properties at concrete inputs *)

Lemma query_perplexity_without_key_witness :
  query_perplexity (Sample.env []) Fixture.offline "lightning" true (Sample.after_turns 0)
  = (Ok "Error: Perplexity API key not set. Please configure the API key.",
     with_trace (Sample.after_turns 0) [EvPerplexity "lightning"]).
Proof.
  apply (query_perplexity_without_key (Sample.env []) Fixture.offline "lightning" true
           (Sample.after_turns 0)).
  reflexivity.
Defined.

Lemma query_perplexity_fails_cleanly_witness :
  fst (query_perplexity
         (Fixture.env (Raise (Exn "ConnectionError" "unreachable")) (Ok []))
         Sample.config "lightning" true (Sample.after_turns 0))
  = Ok "I tried to search for up-to-date information, but ran into a technical issue."
  /\ fst (query_perplexity (Fixture.env (Ok Fixture.unavailable) (Ok []))
            Sample.config "lightning" true (Sample.after_turns 0))
     = Ok "I tried to search for information, but encountered an error: 503".
Proof.
  split.
  - destruct (query_perplexity_fails_cleanly
                (Fixture.env (Raise (Exn "ConnectionError" "unreachable")) (Ok []))
                Sample.config "lightning" true (Sample.after_turns 0))
      as (_ & Hraise & _).
    apply (Hraise ltac:(discriminate) (Exn "ConnectionError" "unreachable") eq_refl).
  - destruct (query_perplexity_fails_cleanly
                (Fixture.env (Ok Fixture.unavailable) (Ok []))
                Sample.config "lightning" true (Sample.after_turns 0))
      as (_ & _ & Hstatus).
    apply (Hstatus ltac:(discriminate) Fixture.unavailable eq_refl ltac:(discriminate)).
Defined.


Lemma save_paper_details_all_or_nothing_witness :
  let run := save_paper_details (Sample.env []) Sample.config "2301.00001" "Channels"
               "B. Author" None None true (Sample.after_turns 0) in
  exists saved evs,
    fst run = Ok saved
    /\ trace (snd run) = evs /\ clock_only evs /\ length evs <= 1.
Proof.
  destruct (save_paper_details_all_or_nothing (Sample.env []) Sample.config
              (Sample.after_turns 0) "2301.00001" "Channels" "B. Author" None None true)
    as (saved & evs & Hfst & Htrace & Hclock & Hlength & _).
  exists saved, evs. split; [exact Hfst|]. split; [exact Htrace|].
  split; [exact Hclock | exact Hlength].
Defined.

Lemma sample_registry_usable (n : nat) :
  registry_usable (Sample.after_turns n) "paper_details.json".
Proof.
  split; [discriminate|]. split; [apply not_elem_of_empty|].
  split; [apply not_elem_of_empty|]. vm_compute. exact I.
Qed.

Lemma save_paper_details_overwrites_witness :
  let s := Sample.after_turns 0 in
  map fst (registry_of
             (snd (save_paper_details (Sample.env []) Sample.config "2201.12345"
                     "Lightning, revised" "A. Author" None None true s))
             "paper_details.json")
  = ["2201.12345"]
  /\ map fst (registry_of
                (snd (save_paper_details (Sample.env []) Sample.config "2301.00001"
                        "Channels" "B. Author" None None true s))
                "paper_details.json")
     = ["2201.12345"; "2301.00001"].
Proof.
  cbv zeta. split.
  - destruct (save_paper_details_overwrites (Sample.env []) Sample.config
                (Sample.after_turns 0) "2201.12345" "Lightning, revised" "A. Author"
                None None true (sample_registry_usable 0)) as (Hsame & _).
    apply Hsame. vm_compute. eauto.
  - destruct (save_paper_details_overwrites (Sample.env []) Sample.config
                (Sample.after_turns 0) "2301.00001" "Channels" "B. Author"
                None None true (sample_registry_usable 0)) as (_ & Hnew & _).
    apply Hnew. reflexivity.
Defined.

Lemma summarize_unknown_paper_witness :
  summarize_arxiv_paper (Sample.env []) Sample.config "2301.00001" true true true true
    (Sample.after_turns 0)
  = (Ok "No details found for paper ID 2301.00001.", Sample.after_turns 0).
Proof.
  destruct (summarize_unknown_paper (Sample.env []) Sample.config (Sample.after_turns 0)
              "2301.00001" true true true) as (_ & Hunknown).
  - apply not_elem_of_empty.
  - eapply Hunknown; [discriminate | reflexivity | reflexivity].
Defined.

Lemma saved_paper_can_be_summarized_witness :
  let s1 := snd (save_paper_details (Sample.env []) Sample.config "2301.00001" "Channels"
                   "B. Author" None (Some "Channels scale payments.") true
                   (Sample.after_turns 0)) in
  kb_insertions
    (trace (snd (summarize_arxiv_paper (Sample.env []) Sample.config "2301.00001"
                   true true true true s1)))
  = [].
Proof.
  destruct (saved_paper_can_be_summarized (Sample.env []) Sample.config
              (Sample.after_turns 0) "2301.00001" "Channels" "B. Author" None
              (Some "Channels scale payments.") (sample_registry_usable 0))
    as (_ & Hkb & _).
  exact Hkb.
Defined.


Lemma search_arxiv_registers_results_witness :
  let run := search_arxiv (Fixture.env (Ok Fixture.unavailable) (Ok [Fixture.found]))
               Sample.config "bitcoin channels" 5 true (Sample.after_turns 0) in
  exists record,
    PyVal.dict_get "2301.00001v1" (registry_of (snd run) "paper_details.json")
    = Some (JObj record)
    /\ PyVal.dict_get "id" record = Some (JStr "2301.00001v1").
Proof.
  destruct (search_arxiv_registers_results
              (Fixture.env (Ok Fixture.unavailable) (Ok [Fixture.found]))
              Sample.config (Sample.after_turns 0) "bitcoin channels" 5
              [Fixture.found] (sample_registry_usable 0) eq_refl)
    as (_ & Hin & _).
  apply (Hin Fixture.found). now left.
Defined.

Lemma get_response_stores_turn_witness :
  let run := get_response (Sample.env []) "q" None (Sample.after_turns 1) in
  exists reply,
    fst run = Ok reply
    /\ messages (memory (snd run))
       = Sample.turns 1 ++ [PyVal.message "user" "q"; PyVal.message "assistant" reply].
Proof.
  destruct (get_response_stores_turn (Sample.env []) (Sample.after_turns 1) "q" None)
    as (reply & Hfst & _ & Hlog & _).
  exists reply. split; [exact Hfst|]. apply Hlog. vm_compute. lia.
Defined.

Lemma chat_memory_in_sync_witness :
  in_sync (memory (snd (get_response (Sample.env []) "q" None (Sample.after_turns 2)))).
Proof.
  destruct (chat_memory_in_sync (Sample.env []) (Sample.after_turns 2))
    as (_ & _ & Hturn & _).
  apply Hturn. reflexivity.
Defined.

Lemma load_messages_recovers_witness :
  _load_messages (Sample.after_turns 1)
  = (Ok tt,
     with_memory (Sample.after_turns 1)
       (mkMemory "session-0" [] "conversation_history.json" "paper_details.json"
          (Sample.spoken 1))).
Proof.
  destruct (load_messages_recovers (Sample.after_turns 1)) as (Hmissing & _).
  apply Hmissing; [apply not_elem_of_empty | left; reflexivity].
Defined.

Lemma first_turn_after_reset_witness :
  generate_calls
    (trace (snd (get_response (Sample.env []) "q" None
                   (snd (reset (Sample.env []) (Sample.after_turns 6))))))
  = [("q", Some [])].
Proof.
  exact (proj1 (first_turn_after_reset (Sample.env []) (Sample.after_turns 6) "q" None)).
Defined.

Lemma generation_sends_last_six_witness :
  invocations
    (trace (snd (ClaudeModel_get_response (Sample.env []) "q"
                   (Some (Sample.turns 2 ++ Sample.turns 3)) None (Sample.after_turns 0))))
  = invocations
      (trace (snd (ClaudeModel_get_response (Sample.env []) "q"
                     (Some (Sample.turns 3)) None (Sample.after_turns 0)))).
Proof.
  destruct (generation_sends_last_six (Sample.env []) "q" [] None (Sample.after_turns 0))
    as (_ & Hwindow & _).
  apply (Hwindow (Sample.turns 2) (Sample.turns 3)). reflexivity.
Defined.

Lemma pdf_text_is_all_or_nothing_witness :
  fst (extract_text_from_pdf (Fixture.env (Ok Fixture.unavailable) (Ok []))
         "/docs/paper.pdf" (Sample.after_turns 0))
  = Ok (Some ("Page one." +:+ NL +:+ "Page two." +:+ NL))
  /\ fst (extract_text_from_pdf (Fixture.env (Ok Fixture.unavailable) (Ok []))
            "/docs/scan.pdf" (Sample.after_turns 0))
     = Ok None.
Proof.
  split.
  - exact (pdf_text_is_all_or_nothing (Fixture.env (Ok Fixture.unavailable) (Ok []))
             (Sample.after_turns 0) "/docs/paper.pdf").
  - exact (pdf_text_is_all_or_nothing (Fixture.env (Ok Fixture.unavailable) (Ok []))
             (Sample.after_turns 0) "/docs/scan.pdf").
Defined.

Lemma ingestion_survives_failed_persist_witness :
  let run := process_document (Sample.env []) "/docs/lightning.txt" "txt" None
               (Sample.after_turns 0) in
  fst run = Ok (true, "Successfully added 1 chunks to knowledge base")
  /\ kb_insertions (trace (snd run))
     = [[mkDocument "Channels settle off-chain."
           (chunk_metadata "/docs/lightning.txt" "txt" "2025-01-01 00:00:00" None)]].
Proof.
  destruct (ingestion_survives_failed_persist (Sample.env []) (Sample.after_turns 0)
              "/docs/lightning.txt" "txt" "Channels settle off-chain." None
              [mkDocument "Channels settle off-chain."
                 (chunk_metadata "/docs/lightning.txt" "txt" "2025-01-01 00:00:00" None)])
    as (Hfst & Hkb & _).
  - reflexivity.
  - discriminate.
  - reflexivity.
  - reflexivity.
  - cbv zeta. split; [exact Hfst | exact Hkb].
Defined.

Lemma chunks_carry_provenance_witness :
  let run := process_document (Sample.env []) "/docs/lightning.txt" "txt"
               (Some [("source", JStr "elsewhere"); ("topic", JStr "channels")])
               (Sample.after_turns 0) in
  exists handed,
    splits (trace (snd run)) = handed
    /\ forall text md, In (text, md) handed ->
         PyVal.dict_get "source" md = Some (JStr "/docs/lightning.txt")
         /\ PyVal.dict_get "topic" md = Some (JStr "channels").
Proof.
  destruct (chunks_carry_provenance (Sample.env []) (Sample.after_turns 0)
              "/docs/lightning.txt" "txt"
              (Some [("source", JStr "elsewhere"); ("topic", JStr "channels")]))
    as (handed & Hsplits & _ & Hmeta).
  exists handed. split; [exact Hsplits|].
  intros text md Hin. destruct (Hmeta text md Hin) as (_ & Hsource & _ & _ & Hother).
  split; [exact Hsource|].
  rewrite (Hother "topic") by discriminate. reflexivity.
Defined.

Lemma ingestion_without_text_touches_nothing_witness :
  process_document (Sample.env []) "/docs/notes.md" "md" None (Sample.after_turns 0)
  = (Ok (false, "Failed to extract text from document"), Sample.after_turns 0).
Proof.
  destruct (ingestion_without_text_touches_nothing (Sample.env []) (Sample.after_turns 0)
              "/docs/notes.md" "md" None) as (Hunsupported & _).
  apply Hunsupported. simpl. intros [H|[H|[H|[]]]]; discriminate H.
Defined.

Lemma file_settings_override_defaults_witness :
  exists config,
    fst (_load_config "config.json" Fixture.environ Fixture.configured) = Ok config
    /\ PyVal.dict_get "models" config
       = Some (JObj [("claude", JStr "claude-3-7-sonnet-20250219");
                     ("temperature", JFloat Sample.half)])
    /\ PyVal.dict_get "files" config = PyVal.dict_get "files" default_config.
Proof.
  pose (config := match fst (_load_config "config.json" Fixture.environ Fixture.configured)
                  with Ok c => c | Raise _ => [] end).
  assert (Hload : fst (_load_config "config.json" Fixture.environ Fixture.configured)
                  = Ok config) by reflexivity.
  assert (Hkeys : NoDup (map fst [("api_keys", JObj [("perplexity", JStr "from-file")]);
                                  ("models", JObj [("temperature", JFloat Sample.half)])])).
  { apply (bool_decide_unpack _). vm_compute. exact I. }
  exists config. split; [exact Hload|]. split.
  - rewrite (file_settings_override_defaults Fixture.environ Fixture.configured
               "config.json" _ config "models" ltac:(discriminate)
               ltac:(apply not_elem_of_empty) eq_refl Hkeys Hload ltac:(discriminate)).
    reflexivity.
  - rewrite (file_settings_override_defaults Fixture.environ Fixture.configured
               "config.json" _ config "files" ltac:(discriminate)
               ltac:(apply not_elem_of_empty) eq_refl Hkeys Hload ltac:(discriminate)).
    reflexivity.
Defined.

Lemma environment_overrides_file_witness :
  exists config,
    fst (_load_config "config.json" Fixture.environ Fixture.configured) = Ok config
    /\ ConfigManager_get_api_key (mkConfigManager "config.json" config) "perplexity"
       = Ok (JStr "from-env").
Proof.
  pose (config := match fst (_load_config "config.json" Fixture.environ Fixture.configured)
                  with Ok c => c | Raise _ => [] end).
  assert (Hload : fst (_load_config "config.json" Fixture.environ Fixture.configured)
                  = Ok config) by reflexivity.
  exists config. split; [exact Hload|].
  apply (environment_overrides_file Fixture.environ Fixture.configured "config.json" config
           [("anthropic", JStr ""); ("elevenlabs", JStr "");
            ("perplexity", JStr "from-env"); ("openai", JStr "")]
           "perplexity" "from-env" Hload).
  - reflexivity.
  - vm_compute. eauto.
  - reflexivity.
Defined.

Lemma load_config_falls_back_to_defaults_witness :
  exists api_keys,
    _load_config "config.json" Fixture.environ (Sample.after_turns 0)
    = (Ok (PyVal.dict_set "api_keys" (JObj api_keys) default_config), Sample.after_turns 0)
    /\ PyVal.dict_get "perplexity" api_keys = Some (JStr "from-env")
    /\ PyVal.dict_get "openai" api_keys = Some (JStr "").
Proof.
  destruct (load_config_falls_back_to_defaults Fixture.environ (Sample.after_turns 0)
              "config.json") as (api_keys & Hload & _ & Hkeys).
  - intros fields Hfile. vm_compute in Hfile. discriminate Hfile.
  - exists api_keys. split; [exact Hload|]. split.
    + apply (Hkeys "perplexity"). unfold services. set_solver.
    + apply (Hkeys "openai"). unfold services. set_solver.
Defined.

Lemma set_api_key_updates_running_configuration_witness :
  set_api_key Fixture.manager "mistral" "sk-1" (Sample.after_turns 0)
  = (Ok (false, Fixture.manager), Sample.after_turns 0)
  /\ exists saved cm',
       fst (set_api_key Fixture.manager "openai" "sk-1" (Sample.after_turns 0))
       = Ok (saved, cm')
       /\ ConfigManager_get_api_key cm' "openai" = Ok (JStr "sk-1").
Proof.
  split.
  - destruct (set_api_key_updates_running_configuration (Sample.after_turns 0)
                Fixture.manager "mistral" "sk-1"
                [("anthropic", JStr ""); ("elevenlabs", JStr "");
                 ("perplexity", JStr ""); ("openai", JStr "")] eq_refl) as (Hunknown & _).
    apply Hunknown. reflexivity.
  - destruct (set_api_key_updates_running_configuration (Sample.after_turns 0)
                Fixture.manager "openai" "sk-1"
                [("anthropic", JStr ""); ("elevenlabs", JStr "");
                 ("perplexity", JStr ""); ("openai", JStr "")] eq_refl) as (_ & Hknown).
    destruct Hknown as (saved & cm' & Hfst & _ & Hkey & _); [vm_compute; eauto|].
    exists saved, cm'. split; [exact Hfst | exact Hkey].
Defined.




Lemma debug_panel_shows_search_log_witness :
  let shown query :=
    fst (update_debug (Sample.env []) Sample.config
           (snd (query_perplexity (Sample.env []) Sample.config query true
                   (Sample.after_turns 0)))) in
  shown "lightning"
  = Ok ("QUERY: lightning" +:+ NL +:+ "RESULT: An answer...." +:+ NL
        +:+ PyStr.repeat "-" 80 +:+ NL)
  /\ shown ("lightning" +:+ String (ascii_of_N 13) NL +:+ "network")
     = Ok ("QUERY: lightning" +:+ NL +:+ "network" +:+ NL
           +:+ "RESULT: An answer...." +:+ NL +:+ PyStr.repeat "-" 80 +:+ NL).
Proof.
  cbv zeta. split.
  - destruct (debug_panel_shows_search_log (Sample.env []) Sample.config "lightning"
                (Sample.after_turns 0)
                (mkResponse 200 "" (Ok (JObj [("text", JStr "An answer.")])))
                [("text", JStr "An answer.")] "An answer." ""
                ltac:(discriminate) eq_refl eq_refl eq_refl eq_refl eq_refl
                ltac:(apply not_elem_of_empty) ltac:(apply not_elem_of_empty))
      as (_ & Hplain).
    rewrite Hplain by reflexivity. reflexivity.
  - destruct (debug_panel_shows_search_log (Sample.env []) Sample.config
                ("lightning" +:+ String (ascii_of_N 13) NL +:+ "network")
                (Sample.after_turns 0)
                (mkResponse 200 "" (Ok (JObj [("text", JStr "An answer.")])))
                [("text", JStr "An answer.")] "An answer." ""
                ltac:(discriminate) eq_refl eq_refl eq_refl eq_refl eq_refl
                ltac:(apply not_elem_of_empty) ltac:(apply not_elem_of_empty))
      as (Hread & _).
    rewrite Hread. reflexivity.
Defined.

Lemma upload_document_checks_extension_witness :
  upload_document (Sample.env []) (Some "/docs/notes.MD") (Sample.after_turns 0)
  = (Ok "Unsupported file type: md. Please upload PDF, TXT, or DOCX files.",
     Sample.after_turns 0)
  /\ fst (upload_document (Sample.env []) (Some "/docs/lightning.txt") (Sample.after_turns 0))
     = Ok "✅ Successfully added 1 chunks to knowledge base".
Proof.
  split.
  - destruct (upload_document_checks_extension (Sample.env []) (Sample.after_turns 0)
                (Some "/docs/notes.MD")) as (_ & _ & Hfile).
    destruct (Hfile "/docs/notes.MD" eq_refl) as (Hrefused & _).
    apply Hrefused. vm_compute. intros [H|[H|[H|[]]]]; discriminate H.
  - destruct (upload_document_checks_extension (Sample.env []) (Sample.after_turns 0)
                (Some "/docs/lightning.txt")) as (_ & _ & Hfile).
    destruct (Hfile "/docs/lightning.txt" eq_refl) as (_ & Haccepted).
    destruct Haccepted as (success & message & Hdoc & Hreply);
      [vm_compute; auto|].
    rewrite Hreply. vm_compute in Hdoc. injection Hdoc as <- <-. reflexivity.
Defined.

Lemma api_key_check_without_file_witness :
  exists config,
    fst (_load_config "config.json" Fixture.environ (Sample.after_turns 0)) = Ok config
    /\ ensure_api_keys (mkConfigManager "config.json" config) = Ok false.
Proof.
  destruct (api_key_check_without_file Fixture.environ (Sample.after_turns 0) "config.json")
    as (config & Hload & Hcheck).
  - intros fields Hfile. vm_compute in Hfile. discriminate Hfile.
  - exists config. split; [exact Hload | exact Hcheck].
Defined.

(** ** The papers context of a turn *)

Section PapersContext.

Context (E : Env) (cfg : Config).

Lemma _get_paper_details_readable (s : state) :
  let path := paper_details_file (memory s) in
  path <> "" -> path ∉ unreadable s ->
  match files s !! path with
  | Some (FJson (JObj _)) | Some (FText _) | None => True
  | Some (FJson _) => False
  end ->
  _get_paper_details s = (Ok (JObj (registry_of s path)), s).
Proof.
  cbv zeta. intros Hne Hr Hshape. unfold registry_of.
  unfold _get_paper_details, try_except, try_except_only, bind, get_memory,
    json_load_file, ret.
  destruct (String.eqb_spec (paper_details_file (memory s)) ""); [contradiction|].
  destruct (decide _); [contradiction|].
  destruct (files s !! paper_details_file (memory s)) as [[[]|]|];
    try contradiction; reflexivity.
Qed.

Lemma get_paper_details_context_readable (s : state) :
  let path := paper_details_file (memory s) in
  path <> "" -> path ∉ unreadable s ->
  match files s !! path with
  | Some (FJson (JObj _)) | Some (FText _) | None => True
  | Some (FJson _) => False
  end ->
  get_paper_details_context E s
  = (Ok (match registry_of s path with
         | [] => "No papers have been discussed yet."
         | _ => match format_papers E (registry_of s path) with
                | Ok texts => "Papers discussed in this conversation:" +:+ NL +:+ NL
                              +:+ PyStr.join (NL +:+ NL) texts
                | Raise _ => "Error retrieving paper details."
                end
         end), s).
Proof.
  cbv zeta. intros Hne Hr Hshape.
  unfold get_paper_details_context, try_except. unfold bind at 1.
  rewrite (_get_paper_details_readable s Hne Hr Hshape).
  destruct (registry_of s (paper_details_file (memory s))) as [|entry rest];
    [reflexivity|].
  cbn [PyVal.truthy negb]. unfold bind, lift, ret. cbn [items_method].
  destruct (format_papers E (entry :: rest)); reflexivity.
Qed.

Lemma format_papers_length (items : list (string * json)) :
  forall texts, format_papers E items = Ok texts -> length texts = length items.
Proof.
  induction items as [|[paper_id paper] rest IH]; intros texts; cbn [format_papers].
  - now intros [= <-].
  - unfold rbind. destruct (format_paper E paper_id paper); [|intros H; discriminate H].
    destruct (format_papers E rest) as [ps|]; [|intros H; discriminate H].
    intros [= <-]. cbn [length]. now rewrite (IH ps eq_refl).
Qed.

Lemma format_papers_set (paper_id : string) (paper : json) (entry : string)
  (items : list (string * json)) :
  forall texts,
  format_paper E paper_id paper = Ok entry ->
  format_papers E items = Ok texts ->
  exists texts', format_papers E (PyVal.dict_set paper_id paper items) = Ok texts'
                 /\ In entry texts'.
Proof.
  intros texts Hentry. revert texts.
  induction items as [|[k v] rest IH]; intros texts; cbn [format_papers PyVal.dict_set].
  - intros _. rewrite Hentry. cbn [rbind]. eexists. split; [reflexivity | now left].
  - unfold rbind at 1 2.
    destruct (format_paper E k v) as [p|] eqn:Hp; [|intros H; discriminate H].
    destruct (format_papers E rest) as [ps|] eqn:Hps; [|intros H; discriminate H].
    intros _. destruct (String.eqb k paper_id); cbn [format_papers].
    + rewrite Hentry, Hps. cbn [rbind]. eexists. split; [reflexivity | now left].
    + rewrite Hp. destruct (IH ps eq_refl) as (texts' & -> & Hin). cbn [rbind].
      eexists. split; [reflexivity | now right].
Qed.

(** X29: the papers context of a turn. A registry that is missing,
    unparsable, unreadable or empty reads as no paper discussed; a registry
    that holds papers gives one entry per paper under the heading, unless
    one record lacks its title or authors or is not an object, in which
    case the whole context is the error text. In each case nothing is
    raised and nothing changes. *)
Theorem papers_context_all_or_nothing (s : state) :
  let path := paper_details_file (memory s) in
  let run := get_paper_details_context E s in
  path <> "" ->
  (path ∈ unreadable s -> run = (Ok "No papers have been discussed yet.", s))
  /\ (path ∉ unreadable s ->
      (files s !! path = None \/ (exists raw, files s !! path = Some (FText raw))
       \/ files s !! path = Some (FJson (JObj [])) ->
       run = (Ok "No papers have been discussed yet.", s))
      /\ (forall entry rest,
            files s !! path = Some (FJson (JObj (entry :: rest))) ->
            (forall texts, format_papers E (entry :: rest) = Ok texts ->
               run = (Ok ("Papers discussed in this conversation:" +:+ NL +:+ NL
                          +:+ PyStr.join (NL +:+ NL) texts), s)
               /\ length texts = S (length rest))
            /\ (forall e, format_papers E (entry :: rest) = Raise e ->
                  run = (Ok "Error retrieving paper details.", s)))).
Proof.
  cbv zeta. intros Hne. split.
  - intros Hlocked.
    unfold get_paper_details_context, _get_paper_details, try_except, try_except_only,
      bind, get_memory, json_load_file, ret.
    destruct (String.eqb_spec (paper_details_file (memory s)) ""); [contradiction|].
    destruct (decide _); [reflexivity | contradiction].
  - intros Hr. split.
    + intros Hfile.
      rewrite get_paper_details_context_readable; try assumption.
      * unfold registry_of.
        destruct Hfile as [-> | [(raw & ->) | ->]]; reflexivity.
      * destruct Hfile as [-> | [(raw & ->) | ->]]; exact I.
    + intros entry rest Hfile.
      assert (Hrun := get_paper_details_context_readable s Hne Hr).
      cbv zeta in Hrun. rewrite Hfile in Hrun. specialize (Hrun I).
      unfold registry_of in Hrun. rewrite Hfile in Hrun.
      split.
      * intros texts Htexts. rewrite Hrun, Htexts. split; [reflexivity|].
        now rewrite (format_papers_length _ _ Htexts).
      * intros e Hraise. now rewrite Hrun, Hraise.
Qed.

(** X30: a paper that [save_paper_details] registers appears in the
    papers context of the following turns, with its identifier, title,
    authors and URL, when the memory reads the registry file the search
    writes and the records already there are well formed. *)
Theorem registered_paper_appears_in_context (s : state)
  (paper_id title authors : string) (url summary : option string)
  (texts : list string) :
  let path := registry_path cfg true in
  let s1 := snd (save_paper_details E cfg paper_id title authors url summary true s) in
  registry_usable s path ->
  paper_details_file (memory s) = path ->
  format_papers E (registry_of s path) = Ok texts ->
  exists texts',
    get_paper_details_context E s1
    = (Ok ("Papers discussed in this conversation:" +:+ NL +:+ NL
           +:+ PyStr.join (NL +:+ NL) texts'), s1)
    /\ In ("Paper ID: " +:+ paper_id +:+ NL
           +:+ "Title: " +:+ title +:+ NL
           +:+ "Authors: " +:+ authors +:+ NL
           +:+ "URL: " +:+ py_str E (opt_str url)) texts'.
Proof.
  cbv zeta. intros Husable Hsame Htexts.
  rewrite (save_paper_details_usable E cfg s paper_id title authors url summary true
             Husable).
  destruct Husable as (Hne & Hr & _ & _). cbn [snd].
  set (record := paper_record paper_id title authors url summary (time_time E (trace s))).
  set (path := registry_path cfg true) in *.
  set (s1 := mkState _ _ _ _ _).
  assert (Hfile : files s1 !! path
                  = Some (FJson (JObj (PyVal.dict_set paper_id record (registry_of s path)))))
    by apply lookup_insert_eq.
  assert (Hentry : format_paper E paper_id record
                   = Ok ("Paper ID: " +:+ paper_id +:+ NL
                         +:+ "Title: " +:+ title +:+ NL
                         +:+ "Authors: " +:+ authors +:+ NL
                         +:+ "URL: " +:+ py_str E (opt_str url))) by reflexivity.
  destruct (format_papers_set paper_id record _ (registry_of s path) texts Hentry Htexts)
    as (texts' & Htexts' & Hin).
  exists texts'. split; [|exact Hin].
  rewrite get_paper_details_context_readable.
  - change (paper_details_file (memory s1)) with (paper_details_file (memory s)).
    rewrite Hsame. unfold registry_of at 1 2. rewrite Hfile, Htexts'.
    destruct (PyVal.dict_set paper_id record (registry_of s path)) eqn:Hset; [|reflexivity].
    destruct (registry_of s path) as [|[k v] rest]; cbn in Hset; [discriminate Hset|].
    destruct (String.eqb k paper_id); discriminate Hset.
  - change (paper_details_file (memory s1)) with (paper_details_file (memory s)).
    now rewrite Hsame.
  - change (paper_details_file (memory s1)) with (paper_details_file (memory s)).
    now rewrite Hsame.
  - change (paper_details_file (memory s1)) with (paper_details_file (memory s)).
    now rewrite Hsame, Hfile.
Qed.

End PapersContext.

Lemma papers_context_all_or_nothing_witness :
  get_paper_details_context (Sample.env []) (Sample.after_turns 0)
  = (Ok ("Papers discussed in this conversation:" +:+ NL +:+ NL
         +:+ PyStr.join (NL +:+ NL)
               ["Paper ID: 2201.12345" +:+ NL +:+ "Title: Lightning" +:+ NL
                +:+ "Authors: A. Author" +:+ NL
                +:+ "URL: http://arxiv.org/pdf/2201.12345"]),
     Sample.after_turns 0).
Proof.
  destruct (papers_context_all_or_nothing (Sample.env []) (Sample.after_turns 0))
    as (_ & Hreadable); [discriminate|].
  destruct (Hreadable ltac:(apply not_elem_of_empty)) as (_ & Hentries).
  destruct (Hentries _ _ eq_refl) as (Hlisted & _).
  apply (Hlisted ["Paper ID: 2201.12345" +:+ NL +:+ "Title: Lightning" +:+ NL
                  +:+ "Authors: A. Author" +:+ NL
                  +:+ "URL: http://arxiv.org/pdf/2201.12345"]).
  reflexivity.
Defined.

Lemma registered_paper_appears_in_context_witness :
  let s1 := snd (save_paper_details (Sample.env []) Sample.config "2301.00001" "Channels"
                   "B. Author" (Some "http://arxiv.org/pdf/2301.00001") None true
                   (Sample.after_turns 0)) in
  exists texts',
    get_paper_details_context (Sample.env []) s1
    = (Ok ("Papers discussed in this conversation:" +:+ NL +:+ NL
           +:+ PyStr.join (NL +:+ NL) texts'), s1)
    /\ In ("Paper ID: 2301.00001" +:+ NL +:+ "Title: Channels" +:+ NL
           +:+ "Authors: B. Author" +:+ NL
           +:+ "URL: http://arxiv.org/pdf/2301.00001") texts'.
Proof.
  exact (registered_paper_appears_in_context (Sample.env []) Sample.config
           (Sample.after_turns 0) "2301.00001" "Channels" "B. Author"
           (Some "http://arxiv.org/pdf/2301.00001") None
           ["Paper ID: 2201.12345" +:+ NL +:+ "Title: Lightning" +:+ NL
            +:+ "Authors: A. Author" +:+ NL
            +:+ "URL: http://arxiv.org/pdf/2201.12345"]
           (sample_registry_usable 0) eq_refl eq_refl).
Defined.
